(** * deepchecks: property outlier scanning and tabular context reconciliation

    A shallow embedding of
    - [deepchecks/nlp/checks/data_integrity/text_property_outliers.py]
      (the IQR outlier scan over the numeric properties of a text dataset,
      the flat-index to sample-index mapper and the check of the shape of
      property values),
    - [deepchecks/tabular/utils/task_inference.py]
      ([get_possible_classes], [infer_task_type]),
    - [deepchecks/tabular/context.py]
      ([_DummyModel], the adapter for static predictions,
      [Context.__init__] and the accessors of a context),
    followed by the properties proved about them.

    Conventions.  A Python exception is a value of [exn] carried by the
    [result] monad.  A numpy float is [NaN] (also standing for a null) or
    a finite rational; integer positions are [nat], integer quantities are
    [Z].  Pandas objects are association lists from index labels to rows,
    because labels may repeat and order matters.  Random draws are
    arguments of the functions that make them.  Collaborators whose code
    lives in other modules of the library are taken as parameters. *)

From Stdlib Require Import String Ascii DecimalString.
From Stdlib Require Import List Bool Arith ZArith QArith Qround Lia Lqa.
From Stdlib Require Import Permutation Sorted.
Import ListNotations.

Close Scope Q_scope.
Open Scope string_scope.
Open Scope list_scope.
Open Scope nat_scope.

(* ================================================================= *)
(** * Part I. The embedding *)
(* ================================================================= *)

(* ----------------------------------------------------------------- *)
(** ** Python runtime notions *)

Module Py.

(** The exceptions that the embedded code raises or lets through. *)
Inductive exn : Type :=
| DeepchecksValueError (msg : string)
| DatasetValidationError (msg : string)
| ModelValidationError (msg : string)
| NotEnoughSamplesError
| IndexError
| KeyError
| ValueError
| TypeError
| AttributeError.

Inductive result (A : Type) : Type :=
| Ok (a : A)
| Raise (e : exn).

Arguments Ok {A} a.
Arguments Raise {A} e.

Definition bind {A B : Type} (c : result A) (k : A -> result B) : result B :=
  match c with
  | Ok a => k a
  | Raise e => Raise e
  end.

Definition is_ok {A : Type} (c : result A) : bool :=
  match c with Ok _ => true | Raise _ => false end.

(** [for x in l: ...] collecting one value per iteration; the first
    exception ends the loop. *)
Fixpoint mapM {A B : Type} (f : A -> result B) (l : list A) : result (list B) :=
  match l with
  | [] => Ok []
  | x :: t =>
      match f x with
      | Raise e => Raise e
      | Ok y =>
          match mapM f t with
          | Raise e => Raise e
          | Ok ys => Ok (y :: ys)
          end
      end
  end.

(** [l[i]] on a list or an array, for a non-negative position. *)
Definition getitem {A : Type} (l : list A) (i : nat) : result A :=
  match nth_error l i with
  | Some x => Ok x
  | None => Raise IndexError
  end.

(** Truthiness of a list: [if l:]. *)
Definition truthy {A : Type} (l : list A) : bool :=
  match l with [] => false | _ :: _ => true end.

(** Truthiness of an optional list: [None] and [[]] are both falsy. *)
Definition truthy_opt {A : Type} (o : option (list A)) : bool :=
  match o with None => false | Some l => truthy l end.

(** Slices [l[:k]] and [l[k:]] for an integer [k] of either sign. *)
Definition slice_bound (len : nat) (k : Z) : nat :=
  if (k <? 0)%Z then Z.to_nat (Z.max 0 (Z.of_nat len + k)) else Z.to_nat k.

Definition slice_to {A : Type} (l : list A) (k : Z) : list A :=
  firstn (slice_bound (length l) k) l.

Definition slice_from {A : Type} (l : list A) (k : Z) : list A :=
  skipn (slice_bound (length l) k) l.

(** Dictionaries keep insertion order; [d[k] = v] overwrites in place. *)
Fixpoint dict_set {V : Type} (d : list (string * V)) (k : string) (v : V)
  : list (string * V) :=
  match d with
  | [] => [(k, v)]
  | (k', v') :: t =>
      if String.eqb k' k then (k', v) :: t else (k', v') :: dict_set t k v
  end.

Fixpoint dict_get {V : Type} (d : list (string * V)) (k : string) : option V :=
  match d with
  | [] => None
  | (k', v') :: t => if String.eqb k' k then Some v' else dict_get t k
  end.

(** Stable insertion sort under a boolean order; [sorted] and a stable
    [argsort] are instances of it. *)
Section Sorting.
Context {A : Type} (leb : A -> A -> bool).

Fixpoint insert (x : A) (l : list A) : list A :=
  match l with
  | [] => [x]
  | y :: t => if leb x y then x :: y :: t else y :: insert x t
  end.

Fixpoint isort (l : list A) : list A :=
  match l with
  | [] => []
  | x :: t => insert x (isort t)
  end.

End Sorting.

End Py.

Import Py.

Notation "x <- c ;; k" := (Py.bind c (fun x => k))
  (at level 61, c at next level, right associativity).

(* ----------------------------------------------------------------- *)
(** ** numpy floats and arrays *)

Module Np.

(** A float64 as the scan sees it: a null ([None] or NaN, which
    [astype(float)] turns into NaN) or a finite number.  Every comparison
    with NaN is false. *)
Inductive float : Type :=
| NaN
| Fin (q : Q).

Definition Qltb (x y : Q) : bool := negb (Qle_bool y x).

(** [a < b] *)
Definition flt (a b : float) : bool :=
  match a, b with
  | Fin x, Fin y => Qltb x y
  | _, _ => false
  end.

(** [a > b] *)
Definition fgt (a b : float) : bool := flt b a.


(** [a <= b] *)
Definition fle (a b : float) : bool :=
  match a, b with
  | Fin x, Fin y => Qle_bool x y
  | _, _ => false
  end.

Definition is_finite (a : float) : bool :=
  match a with Fin _ => true | NaN => false end.

(** Whether an array begins with a number. *)
Definition starts_with_number (arr : list float) : bool :=
  match arr with
  | x :: _ => is_finite x
  | [] => false
  end.

(** The builtins [min(a, b)] and [max(a, b)]: the first argument is kept
    unless the second compares strictly better. *)
Definition min2 (a b : float) : float := if flt b a then b else a.
Definition max2 (a b : float) : float := if fgt b a then b else a.

(** The builtins [min(arr)] and [max(arr)] iterating over an array. *)
Definition min_of (arr : list float) : result float :=
  match arr with
  | [] => Raise ValueError
  | x :: t => Ok (fold_left min2 t x)
  end.

Definition max_of (arr : list float) : result float :=
  match arr with
  | [] => Raise ValueError
  | x :: t => Ok (fold_left max2 t x)
  end.

(** [np.cumsum] over integers. *)
Fixpoint cumsum_from (acc : Z) (l : list Z) : list Z :=
  match l with
  | [] => []
  | x :: t => (acc + x)%Z :: cumsum_from (acc + x)%Z t
  end.

Definition cumsum (l : list Z) : list Z := cumsum_from 0%Z l.

(** [np.argwhere(mask).squeeze(axis=1)] for a one-dimensional mask given
    as a predicate on the elements: the positions that satisfy it, in
    ascending order. *)
Fixpoint argwhere_from {A : Type} (p : A -> bool) (start : nat) (l : list A)
  : list nat :=
  match l with
  | [] => []
  | x :: t =>
      if p x then start :: argwhere_from p (S start) t
      else argwhere_from p (S start) t
  end.

Definition argwhere {A : Type} (p : A -> bool) (l : list A) : list nat :=
  argwhere_from p 0 l.

(** [arr[idx]] for an integer index array. *)
Definition take {A : Type} (d : A) (arr : list A) (idx : list nat) : list A :=
  map (fun i => nth i arr d) idx.

(** The order [argsort] puts floats in: ascending, NaN last. *)
Definition sort_leb (a b : float) : bool :=
  match a, b with
  | _, NaN => true
  | NaN, Fin _ => false
  | Fin x, Fin y => Qle_bool x y
  end.

Definition key_leb (a b : float * nat) : bool := sort_leb (fst a) (fst b).

(** [keys.argsort()]: positions of [keys] ordered by key.  numpy leaves
    the order of equal keys to the sorting kind; here ties keep their
    original order. *)
Definition argsort (keys : list float) : list nat :=
  map snd (isort key_leb (combine keys (seq 0 (length keys)))).

End Np.

Import Np.

(* ----------------------------------------------------------------- *)
(** ** pandas indices, frames and series *)

Module Pd.

(** An index label: the row identifiers of a dataset are integers or
    strings. *)
Inductive label : Type :=
| LInt (z : Z)
| LStr (s : string).

Definition label_eqb (a b : label) : bool :=
  match a, b with
  | LInt x, LInt y => (x =? y)%Z
  | LStr s, LStr t => String.eqb s t
  | _, _ => false
  end.

(** [str(x)] as an f-string formats a label. *)
Definition str (x : label) : string :=
  match x with
  | LInt z => NilZero.string_of_int (Z.to_int z)
  | LStr s => s
  end.

(** A frame or a series: rows under their labels, in order. *)
Definition indexed (R : Type) : Type := list (label * R).

Definition index_of {R : Type} (df : indexed R) : list label := map fst df.

(** [df.index = new_labels], position by position. *)
Definition set_index {R : Type} (df : indexed R) (labels : list label)
  : indexed R :=
  combine labels (map snd df).

Definition mem (x : label) (l : list label) : bool := existsb (label_eqb x) l.

(** [set(a) & set(b)] is truthy when some label is in both. *)
Definition sets_intersect (a b : list label) : bool :=
  existsb (fun x => mem x b) a.

(** [set(a).issubset(set(b))] *)
Definition issubset (a b : list label) : bool :=
  forallb (fun x => mem x b) a.

(** The rows of [df] labelled [x], in order. *)
Definition rows_at {R : Type} (df : indexed R) (x : label) : indexed R :=
  filter (fun r => label_eqb (fst r) x) df.

(** [df.loc[labels]] for a list-like of labels: the rows of each label in
    turn; a label absent from the index raises [KeyError]. *)
Fixpoint loc {R : Type} (df : indexed R) (labels : list label)
  : result (indexed R) :=
  match labels with
  | [] => Ok []
  | x :: t =>
      match rows_at df x with
      | [] => Raise KeyError
      | rows =>
          match loc df t with
          | Raise e => Raise e
          | Ok rest => Ok (rows ++ rest)
          end
      end
  end.

End Pd.

Import Pd.

(* ----------------------------------------------------------------- *)
(** ** nlp/checks/data_integrity/text_property_outliers.py *)

Module TextPropertyOutliers.

(** The values of one property as [to_dict(orient='list')] hands them
    over: one scalar per sample, or one list of scalars per sample. *)
Inductive column : Type :=
| Scalars (xs : list float)
| Lists (xss : list (list float)).

(** What the scan reads of a [TextData]. *)
Record TextData : Type := {
  index : list label;
  text : list string;
  properties : list (string * column);
  properties_types : list (string * string)
}.

(** The parameters of the check. *)
Record Check : Type := {
  n_show_top : Z;
  iqr_percentiles : Z * Z;
  iqr_scale : Q
}.

Definition default_check : Check :=
  {| n_show_top := 5; iqr_percentiles := (25, 75)%Z; iqr_scale := 1.5%Q |}.

(** The entry of one property in the result: the message of a property
    with too few samples, or the outlier record. *)
Record outlier_record : Type := {
  indices : list label;
  lower_limit : float;
  upper_limit : float
}.

Inductive entry : Type :=
| Message (msg : string)
| Found (r : outlier_record).

Definition not_enough_message : string :=
  "Not enough non-null samples to calculate outliers.".

(** [_sample_index_from_flatten_index]: the first position of the
    cumulative lengths whose value exceeds the flat index. *)
Definition _sample_index_from_flatten_index
  (cumsum_lengths : list Z) (flatten_index : Z) : result nat :=
  getitem (argwhere (fun c => (flatten_index <? c)%Z) cumsum_lengths) 0.

(** Lines 128-132: flat positions above the upper limit, ordered by
    value. *)
Definition top_outliers (values_arr : list float) (upper_limit : float)
  : list nat :=
  let top := argwhere (fun v => fgt v upper_limit) values_arr in
  take 0 top (argsort (take NaN values_arr top)).

(** Lines 135-139: flat positions below the lower limit, ordered by
    value. *)
Definition bottom_outliers (values_arr : list float) (lower_limit : float)
  : list nat :=
  let bottom := argwhere (fun v => flt v lower_limit) values_arr in
  take 0 bottom (argsort (take NaN values_arr bottom)).

(** Lines 115-116: a property with one value per sample is wrapped into
    singleton lists; [values[0]] needs a first sample. *)
Definition wrap_values (values : column) : result (list (list float)) :=
  match values with
  | Scalars [] => Raise IndexError
  | Lists [] => Raise IndexError
  | Scalars xs => Ok (map (fun x => [x]) xs)
  | Lists xss => Ok xss
  end.

Definition lengths_cumsum (values : list (list float)) : list Z :=
  cumsum (map (fun v => Z.of_nat (length v)) values).

(** The number of values contributed by the first [i] samples, for
    per-sample contribution lengths [L]. *)
Definition prefix_sum (L : list nat) (i : nat) : Z :=
  Z.of_nat (list_sum (firstn i L)).

Section Scan.

(** [deepchecks.utils.outliers.iqr_outliers_range] and
    [deepchecks.nlp.utils.text_utils.trim] are defined elsewhere in the
    library. *)
Variable iqr_outliers_range : list float -> Z * Z -> Q -> result (float * float).
Variable trim : string -> Z -> string.

Definition plot_text (data : TextData) (sample_index : nat)
  (index_of_value_in_sample : Z) (num_properties_in_sample : nat)
  : result string :=
  t <- getitem (text data) sample_index ;;
  Ok (trim t 100%Z).

(** Lines 145-154: the body of the loop over the positions to show. *)
Definition corpus_item (dataset : TextData) (values : list (list float))
  (values_lengths_cumsum : list Z) (values_arr : list float)
  (outlier_index : nat) : result (float * string) :=
  sample_index <-
    _sample_index_from_flatten_index values_lengths_cumsum
      (Z.of_nat outlier_index) ;;
  value <- getitem values_arr outlier_index ;;
  c <- getitem values_lengths_cumsum sample_index ;;
  let index_of_value_in_sample := ((c - Z.of_nat outlier_index) * -1)%Z in
  v <- getitem values sample_index ;;
  let num_properties_in_sample := length v in
  t <- plot_text dataset sample_index index_of_value_in_sample
         num_properties_in_sample ;;
  Ok (value, t).

(** Lines 113-166: the body of the loop over the properties. *)
Definition scan_property (self : Check) (dataset : TextData) (values : column)
  : result entry :=
  values <- wrap_values values ;;
  let values_lengths_cumsum := lengths_cumsum values in
  let values_arr := concat values in
  match iqr_outliers_range values_arr (iqr_percentiles self) (iqr_scale self) with
  | Raise NotEnoughSamplesError => Ok (Message not_enough_message)
  | Raise e => Raise e
  | Ok (lower, upper) =>
      let top := top_outliers values_arr upper in
      let bottom := bottom_outliers values_arr lower in
      let show_indices :=
        slice_to bottom (n_show_top self)
        ++ slice_from top (- n_show_top self)%Z in
      _ <- mapM (corpus_item dataset values values_lengths_cumsum values_arr)
             show_indices ;;
      text_outliers <-
        mapM (fun outlier_index =>
                _sample_index_from_flatten_index values_lengths_cumsum
                  (Z.of_nat outlier_index))
             (bottom ++ top) ;;
      ids <- mapM (getitem (index dataset)) text_outliers ;;
      lo <- min_of values_arr ;;
      hi <- max_of values_arr ;;
      Ok (Found {| indices := ids;
                   lower_limit := max2 lower lo;
                   upper_limit := min2 upper hi |})
  end.

(** Lines 106-108: the numeric columns of the property table, as a
    dictionary. *)
Fixpoint numeric_columns (types : list (string * string))
  (cols : list (string * column)) : result (list (string * column)) :=
  match cols with
  | [] => Ok []
  | (name, values) :: rest =>
      match dict_get types name with
      | None => Raise KeyError
      | Some ty =>
          rest' <- numeric_columns types rest ;;
          Ok (if String.eqb ty "numeric" then (name, values) :: rest' else rest')
      end
  end.

Definition to_dict (cols : list (string * column)) : list (string * column) :=
  fold_left (fun d kv => dict_set d (fst kv) (snd kv)) cols [].

(** Lines 112-166: the loop over the properties, filling [result]. *)
Fixpoint scan_loop (self : Check) (dataset : TextData)
  (props : list (string * column)) (res : list (string * entry))
  : result (list (string * entry)) :=
  match props with
  | [] => Ok res
  | (name, values) :: rest =>
      e <- scan_property self dataset values ;;
      scan_loop self dataset rest (dict_set res name e)
  end.

(** The value of the [CheckResult] that [run_logic] returns.  What is
    handed to the renderer when [context.with_display] is set is not part
    of it. *)
Definition run_logic (self : Check) (dataset : TextData)
  : result (list (string * entry)) :=
  cols <- numeric_columns (properties_types dataset) (properties dataset) ;;
  scan_loop self dataset (to_dict cols) [].

(** Lines 168-201: the [CheckResult] as a pair of the value and the
    display.  The display is built from the result and the dataset by
    pandas and plotting code of other modules, only when
    [context.with_display] is set. *)
Variable D : Type.
Variable build_display : TextData -> list (string * entry) -> result D.

Definition run_logic_CheckResult (with_display : bool) (self : Check)
  (dataset : TextData) : result (list (string * entry) * option D) :=
  value <- run_logic self dataset ;;
  if with_display then
    display <- build_display dataset value ;;
    Ok (value, Some display)
  else Ok (value, None).

End Scan.

End TextPropertyOutliers.

(* ----------------------------------------------------------------- *)
(** ** The IQR range estimator and sample inputs of the scan *)

Module Estimator.

Definition non_null (arr : list float) : list Q :=
  flat_map (fun v => match v with Fin q => [q] | NaN => [] end) arr.

(** The [p]-th percentile of an ascending sample, interpolating linearly
    between the two nearest order statistics as [np.percentile] does. *)
Definition percentile (ascending : list Q) (p : Z) : Q :=
  let n := Z.of_nat (length ascending) in
  let h := (inject_Z ((n - 1) * p) / inject_Z 100)%Q in
  let k := Qfloor h in
  let a := nth (Z.to_nat k) ascending 0%Q in
  let b := nth (S (Z.to_nat k)) ascending a in
  (a + (h - inject_Z k) * (b - a))%Q.

(** Modelled from the spec: the IQR Range Estimator of section 4.1
    (the body of [deepchecks.utils.outliers.iqr_outliers_range] is not
    part of the embedded modules).  Nulls are ignored; fewer than
    [min_samples] non-null values is the insufficient-samples error;
    otherwise
    [lower = Q_low - s * (Q_high - Q_low)] and
    [upper = Q_high + s * (Q_high - Q_low)].  The scan is verified for an
    arbitrary estimator; this one makes its examples concrete. *)
Definition iqr_outliers_range (min_samples : nat) (data : list float)
  (iqr_range : Z * Z) (scale : Q) : result (float * float) :=
  let xs := isort Qle_bool (non_null data) in
  if length xs <? min_samples then Raise NotEnoughSamplesError
  else
    let q1 := percentile xs (fst iqr_range) in
    let q3 := percentile xs (snd iqr_range) in
    let iqr := (q3 - q1)%Q in
    Ok (Fin (Qred (q1 - scale * iqr)), Fin (Qred (q3 + scale * iqr))).

End Estimator.

Module ScanSamples.
Import TextPropertyOutliers.

Definition F (z : Z) : float := Fin (inject_Z z).

(** Ten short texts; the last is much longer than the others, and the
    sentiment score could be computed for one of them only.  A second
    column of lengths has one more sample in front, of unknown length. *)
Definition lengths_col : column :=
  Scalars (map F [10; 11; 12; 12; 13; 13; 14; 15; 16; 90]%Z).

Definition null_first_col : column :=
  Scalars (NaN :: map F [10; 11; 12; 12; 13; 13; 14; 15; 16; 90]%Z).

Definition sentiment_col : column :=
  Scalars [NaN; NaN; NaN; F 1; NaN; NaN; NaN; NaN; NaN; NaN].

Definition words_col : column :=
  Lists [[F 3; F 4]; []; [F 5]; [F 4; F 4; F 40]; [F 3]; [F 5]; [F 4];
         [F 5; F 3]; [F 4]; [F 4; F 5]].

Definition data : TextData :=
  {| index := map LInt [100; 101; 102; 103; 104; 105; 106; 107; 108; 109]%Z;
     text := ["a"; "b"; "c"; "d"; "e"; "f"; "g"; "h"; "i"; "j"];
     properties := [("Text Length", lengths_col);
                    ("Sentiment", sentiment_col);
                    ("Language", Scalars (map F [0; 0; 1; 0; 1; 0; 0; 1; 0; 0]%Z));
                    ("Word Lengths", words_col)];
     properties_types := [("Text Length", "numeric");
                          ("Sentiment", "numeric");
                          ("Language", "categorical");
                          ("Word Lengths", "numeric")] |}.

(** Eleven texts for the lengths that start with an unknown one. *)
Definition null_first_data : TextData :=
  {| index := map LInt [100; 101; 102; 103; 104; 105; 106; 107; 108; 109; 110]%Z;
     text := ["a"; "b"; "c"; "d"; "e"; "f"; "g"; "h"; "i"; "j"; "k"];
     properties := [("Text Length", null_first_col)];
     properties_types := [("Text Length", "numeric")] |}.

(** The estimator under the minimum of the library: ten non-null
    values. *)
Definition estimator := Estimator.iqr_outliers_range 10.

Definition trim (s : string) (n : Z) : string := substring 0 (Z.to_nat n) s.

Definition scan := run_logic estimator trim default_check data.

End ScanSamples.

(* ----------------------------------------------------------------- *)
(** ** The tabular data model *)

Module Tabular.

Inductive TaskType : Type :=
| REGRESSION
| BINARY
| MULTICLASS.

(** A frame of the tabular package: labelled rows of cells. *)
Definition DataFrame : Type := indexed (list Z).

(** What the embedded code reads of a [Dataset]: the frame, the positions
    of its feature columns, the label column when there is one (nulls
    allowed), the declared label type and the declared label classes. *)
Record Dataset : Type := {
  name : option string;
  data : DataFrame;
  features : list nat;
  label_col : option (list (option Z));
  label_type : option TaskType;
  _label_classes : option (list Z)
}.

Definition has_label (d : Dataset) : bool :=
  match label_col d with Some _ => true | None => false end.

(** [dataset.features_columns]: the frame restricted to the features. *)
Definition features_columns (d : Dataset) : DataFrame :=
  map (fun r => (fst r, map (fun c => nth c (snd r) 0%Z) (features d))) (data d).

Definition with_data (d : Dataset) (df : DataFrame) : Dataset :=
  {| name := name d; data := df; features := features d;
     label_col := label_col d; label_type := label_type d;
     _label_classes := _label_classes d |}.

Definition with_name (d : Dataset) (n : string) : Dataset :=
  {| name := Some n; data := data d; features := features d;
     label_col := label_col d; label_type := label_type d;
     _label_classes := _label_classes d |}.

(** A fitted estimator as the code probes it. *)
Record Model : Type := {
  classes_ : option (list Z);
  has_predict_proba : bool;
  is_ClassifierMixin : bool;
  predict : DataFrame -> list Z
}.

(** Predictions handed over as an array of one or two dimensions, and
    class probabilities, one row per sample. *)
Inductive ndarray : Type :=
| Arr1 (xs : list Z)
| Arr2 (rows : list (list Z)).

Definition proba : Type := list (list Q).

(** [pd.Series(values).dropna().unique()] *)
Definition dropna (l : list (option Z)) : list Z :=
  flat_map (fun o => match o with Some z => [z] | None => [] end) l.

Fixpoint unique (l : list Z) : list Z :=
  match l with
  | [] => []
  | x :: t => x :: filter (fun y => negb (x =? y)%Z) (unique t)
  end.

(** [sorted(l)] on class values. *)
Definition sorted (l : list Z) : list Z := isort Z.leb l.

Definition list_eqb (a b : list Z) : bool :=
  if list_eq_dec Z.eq_dec a b then true else false.

End Tabular.

Import Tabular.

(* ----------------------------------------------------------------- *)
(** ** tabular/utils/task_inference.py *)

Module TaskInference.

Section Inference.

(** [deepchecks.utils.strings.is_string_column],
    [deepchecks.tabular.utils.feature_inference.is_categorical] and
    [deepchecks.utils.docref.doclink]. *)
Variable is_string_column : option (list (option Z)) -> bool.
Variable is_categorical : list (option Z) -> Q -> bool.
Variable doclink : string -> string -> string.

Definition classes_mismatch_message : string :=
  "Model output classes and train dataset label classes do not match".

(** [hasattr(model, 'classes_') and len(model.classes_) > 0], giving the
    classes when it holds. *)
Definition model_classes_attr (model : option Model) : option (list Z) :=
  match model with
  | Some m =>
      match classes_ m with
      | Some (c :: cs) => Some (c :: cs)
      | _ => None
      end
  | None => None
  end.

(** [list(dataset.label_col)] *)
Definition label_list (d : Dataset) : result (list (option Z)) :=
  match label_col d with
  | Some l => Ok l
  | None => Raise TypeError
  end.

Definition get_possible_classes (model : option Model)
  (train_dataset test_dataset : option Dataset) (force_classification : bool)
  : result (option (list Z)) :=
  match train_dataset with
  | None =>
      Raise (DeepchecksValueError
               "train_dataset and test_dataset must be of type tabular.Dataset")
  | Some train =>
      match _label_classes train with
      | Some label_classes =>
          match model_classes_attr model with
          | Some cs =>
              if negb (list_eqb cs label_classes)
              then Raise (DeepchecksValueError classes_mismatch_message)
              else Ok (Some label_classes)
          | None => Ok (Some label_classes)
          end
      | None =>
          match model_classes_attr model with
          | Some cs => Ok (Some cs)
          | None =>
              let no_proba :=
                match model with
                | Some m => negb (has_predict_proba m)
                | None => false
                end in
              if no_proba && negb force_classification then
                if is_string_column (label_col train) then
                  Raise (DeepchecksValueError
                           ("Classification models must contain 'predict_proba' functionality. "
                            ++ doclink "supported-prediction-format"
                                 "For additional details see {link}"))
                else if match model with
                        | Some m => is_ClassifierMixin m
                        | None => false
                        end then
                  Raise (DeepchecksValueError
                           "Model is a sklearn classification model but lacks the predict_proba method. Please train the model with probability=True.")
                else Ok None
              else
                observed_train <- label_list train ;;
                observed_test <-
                  match test_dataset with
                  | Some test => label_list test
                  | None => Ok []
                  end ;;
                let observed_labels := observed_train ++ observed_test in
                match model with
                | Some m =>
                    let predicted :=
                      predict m (features_columns train)
                      ++ match test_dataset with
                         | Some test => predict m (features_columns test)
                         | None => []
                         end in
                    Ok (Some (sorted (unique (dropna
                                (observed_labels ++ map Some predicted)))))
                | None =>
                    if is_categorical observed_labels 0.05%Q || force_classification
                    then Ok (Some (sorted (unique (dropna observed_labels))))
                    else Ok None
                end
          end
      end
  end.

Definition infer_task_type (model : option Model)
  (train_dataset test_dataset : option Dataset) : result TaskType :=
  classes <- get_possible_classes model train_dataset test_dataset false ;;
  match classes with
  | None => Ok REGRESSION
  | Some cs => if length cs =? 2 then Ok BINARY else Ok MULTICLASS
  end.

End Inference.

End TaskInference.

(* ----------------------------------------------------------------- *)
(** ** tabular/context.py: [_DummyModel] *)

Module StaticPredictions.

(** The state of a [_DummyModel]: the stored predictions and
    probabilities under the row labels of the datasets, and the feature
    frames the datasets were built on. *)
Record _DummyModel : Type := {
  predictions : option (indexed Z);
  probas : option (indexed (list Q));
  feature_df_list : list DataFrame;
  validate_data_on_predict : bool
}.

Definition dquote : string := String (ascii_of_nat 34) EmptyString.

Definition common_index_warning : string :=
  "train and test datasets have common index - adding " ++ dquote ++ "train"
  ++ dquote ++ "/" ++ dquote ++ "test" ++ dquote
  ++ " prefixes. To avoid that provide datasets with no common indexes "
  ++ "or pass the model object instead of the predictions.".

Definition unseen_data_message : string :=
  "Data that has not been seen before passed for inference with static "
  ++ "predictions. Pass a real model to resolve this".

Definition train_prefix (x : label) : label := LStr ("train-" ++ str x).
Definition test_prefix (x : label) : label := LStr ("test-" ++ str x).

(** [dataset.data.index = map(f, list(dataset.data.index))] *)
Definition reindex (f : label -> label) (d : Dataset) : Dataset :=
  with_data d (set_index (data d) (map f (index_of (data d)))).

(** Lines 76-83.  The datasets are objects shared with the caller, so the
    rewritten datasets are part of the outcome, next to the warnings that
    were logged. *)
Definition prefix_common_index (train test : option Dataset)
  : option Dataset * option Dataset * list string :=
  match train, test with
  | Some tr, Some te =>
      if sets_intersect (index_of (data tr)) (index_of (data te))
      then (Some (reindex train_prefix tr), Some (reindex test_prefix te),
            [common_index_warning])
      else (train, test, [])
  | _, _ => (train, test, [])
  end.

(** [np.argmax] of one row: the first position of its greatest entry. *)
Fixpoint argmax_from (best : Q) (best_pos pos : nat) (l : list Q) : nat :=
  match l with
  | [] => best_pos
  | x :: t =>
      if Qltb best x then argmax_from x pos (S pos) t
      else argmax_from best best_pos (S pos) t
  end.

Definition argmax (row : list Q) : result nat :=
  match row with
  | [] => Raise ValueError
  | x :: t => Ok (argmax_from x 0 1 t)
  end.

(** [np.argmax(y_proba, axis=-1)] *)
Definition argmax_rows (y_proba : proba) : result (list nat) :=
  match y_proba with
  | [] => Raise ValueError
  | _ => mapM argmax y_proba
  end.

(** [np.array(model_classes)[y_pred]] *)
Definition classes_at (model_classes : option (list Z)) (positions : list nat)
  : result ndarray :=
  match model_classes with
  | None => Raise IndexError
  | Some cs => xs <- mapM (getitem cs) positions ;; Ok (Arr1 xs)
  end.

(** Lines 103-104: a single-column matrix is read as its column. *)
Definition squeeze_column (y_pred : ndarray) : ndarray :=
  match y_pred with
  | Arr2 (r :: rows) =>
      if length r =? 1 then Arr1 (concat (r :: rows)) else y_pred
  | _ => y_pred
  end.

(** [pd.Series(y_pred, index=index)] *)
Definition Series (y_pred : ndarray) (index : list label) : result (indexed Z) :=
  match y_pred with
  | Arr1 xs =>
      if length xs =? length index then Ok (combine index xs)
      else Raise ValueError
  | Arr2 _ => Raise ValueError
  end.

(** [pd.DataFrame(data=y_proba)] followed by the assignment of its index. *)
Definition proba_frame (y_proba : proba) (index : list label)
  : result (indexed (list Q)) :=
  if length y_proba =? length index then Ok (combine index y_proba)
  else Raise ValueError.

Section Adapter.

(** [validate_proba] of [deepchecks.tabular.metric_utils.scorers] and
    [ensure_predictions_shape], [ensure_predictions_proba] of
    [deepchecks.tabular.utils.validation]. *)
Variable validate_proba : proba -> option (list Z) -> result unit.
Variable ensure_predictions_shape : ndarray -> DataFrame -> result unit.
Variable ensure_predictions_proba : proba -> ndarray -> result unit.

Definition stores : Type :=
  list DataFrame * list (indexed Z) * list (indexed (list Q)).

(** Lines 92-112: the body of the loop over the two roles. *)
Definition store_role (model_classes : option (list Z))
  (dataset : option Dataset) (y_pred : option ndarray) (y_proba : option proba)
  (acc : stores) : result stores :=
  match dataset with
  | None => Ok acc
  | Some ds =>
      let '(features, preds, probs) := acc in
      let features := features ++ [features_columns ds] in
      y_pred <-
        match y_pred, y_proba with
        | None, Some p =>
            _ <- validate_proba p model_classes ;;
            positions <- argmax_rows p ;;
            y <- classes_at model_classes positions ;;
            Ok (Some y)
        | _, _ => Ok y_pred
        end ;;
      match y_pred with
      | None => Ok (features, preds, probs)
      | Some y =>
          let y := squeeze_column y in
          _ <- ensure_predictions_shape y (data ds) ;;
          y_pred_ser <- Series y (index_of (data ds)) ;;
          let preds := preds ++ [y_pred_ser] in
          match y_proba with
          | None => Ok (features, preds, probs)
          | Some p =>
              _ <- ensure_predictions_proba p y ;;
              proba_df <- proba_frame p (index_of (data ds)) ;;
              Ok (features, preds, probs ++ [proba_df])
          end
      end
  end.

(** Lines 85-123, on the datasets as line 76-83 left them. *)
Definition build (train test : option Dataset)
  (y_pred_train y_pred_test : option ndarray)
  (y_proba_train y_proba_test : option proba)
  (validate : bool) (model_classes : option (list Z)) : result _DummyModel :=
  acc <- store_role model_classes train y_pred_train y_proba_train ([], [], []) ;;
  acc <- store_role model_classes test y_pred_test y_proba_test acc ;;
  let '(features, preds, probs) := acc in
  Ok {| predictions := if truthy preds then Some (concat preds) else None;
        probas := if truthy probs then Some (concat probs) else None;
        feature_df_list := features;
        validate_data_on_predict := validate |}.

(** The outcome of [_DummyModel.__init__]: the datasets as the
    constructor leaves them, the warnings logged, and the adapter or the
    exception raised. *)
Record constructed : Type := {
  out_train : option Dataset;
  out_test : option Dataset;
  out_warnings : list string;
  out_model : result _DummyModel
}.

Definition _DummyModel_init (test : option Dataset)
  (y_proba_test : option proba) (y_pred_test : option ndarray)
  (train : option Dataset) (y_pred_train : option ndarray)
  (y_proba_train : option proba) (validate_data_on_predict : bool)
  (model_classes : option (list Z)) : constructed :=
  let '(train, test, warnings) := prefix_common_index train test in
  {| out_train := train;
     out_test := test;
     out_warnings := warnings;
     out_model := build train test y_pred_train y_pred_test
                    y_proba_train y_proba_test validate_data_on_predict
                    model_classes |}.

End Adapter.

(** The random draws of one call of [_validate_data]: the row positions
    that [data.sample] picks and the positions, in the sampled index, that
    [np.random.choice] picks. *)
Record Draws : Type := {
  sample_positions : list nat;
  choice_positions : list nat
}.

(** A draw that [data.sample(min(100, len(data)))] can make on a frame of
    [n] rows, and a draw that [np.random.choice(index, 30)] can make on an
    index of [m] labels. *)
Definition sample_ok (n : nat) (d : Draws) : Prop :=
  NoDup (sample_positions d)
  /\ length (sample_positions d) = Nat.min 100 n
  /\ Forall (fun i => i < n) (sample_positions d).

Definition choice_ok (m : nat) (d : Draws) : Prop :=
  length (choice_positions d) = 30
  /\ Forall (fun i => i < m) (choice_positions d).

Definition rows_by_position {R : Type} (l : list R) (positions : list nat)
  : list R :=
  flat_map (fun i => match nth_error l i with Some r => [r] | None => [] end)
           positions.

(** The order of [np.unique] on labels of one kind.  An integer and a
    string do not compare in Python: the order between the kinds is
    never consulted, [np_unique] raises before. *)
Definition label_leb (a b : label) : bool :=
  match a, b with
  | LInt x, LInt y => (x <=? y)%Z
  | LStr s, LStr t => String.leb s t
  | LInt _, LStr _ => true
  | LStr _, LInt _ => false
  end.

Fixpoint dedup (l : list label) : list label :=
  match l with
  | [] => []
  | x :: t => x :: filter (fun y => negb (label_eqb x y)) (dedup t)
  end.

Definition is_int (x : label) : bool :=
  match x with LInt _ => true | LStr _ => false end.

(** All integers or all strings. *)
Definition one_kind (l : list label) : bool :=
  forallb is_int l || forallb (fun x => negb (is_int x)) l.

(** [np.unique] sorts an object array of labels; the sort raises
    [TypeError] as soon as the array holds an integer and a string. *)
Definition np_unique (l : list label) : result (list label) :=
  if one_kind l then Ok (dedup (isort label_leb l)) else Raise TypeError.

(** [a.equals(b)] on frames. *)
Definition row_eqb (a b : label * list Z) : bool :=
  label_eqb (fst a) (fst b) && list_eqb (snd a) (snd b).

Fixpoint equals (a b : DataFrame) : bool :=
  match a, b with
  | [], [] => true
  | x :: a', y :: b' => row_eqb x y && equals a' b'
  | _, _ => false
  end.

(** Lines 127-136: the loop over the fitted feature frames, on the sampled
    rows. *)
Fixpoint validate_loop (tables : list DataFrame) (data : DataFrame)
  (choice : list nat) : result unit :=
  match tables with
  | [] => Raise (DeepchecksValueError unseen_data_message)
  | feature_df :: rest =>
      if issubset (index_of data) (index_of feature_df) then
        match index_of data with
        | [] => Raise ValueError
        | idx =>
            sample_data <- np_unique (rows_by_position idx choice) ;;
            a <- loc feature_df sample_data ;;
            b <- loc data sample_data ;;
            if equals a b then Ok tt
            else Raise (DeepchecksValueError unseen_data_message)
        end
      else validate_loop rest data choice
  end.

Definition _validate_data (self : _DummyModel) (rnd : Draws) (data : DataFrame)
  : result unit :=
  let data := rows_by_position data (sample_positions rnd) in
  validate_loop (feature_df_list self) data (choice_positions rnd).

Definition _predict (self : _DummyModel) (rnd : Draws) (data : DataFrame)
  : result (list Z) :=
  _ <- (if validate_data_on_predict self then _validate_data self rnd data
        else Ok tt) ;;
  match predictions self with
  | None => Raise AttributeError
  | Some p => rows <- loc p (index_of data) ;; Ok (map snd rows)
  end.

Definition _predict_proba (self : _DummyModel) (rnd : Draws) (data : DataFrame)
  : result (list (list Q)) :=
  _ <- (if validate_data_on_predict self then _validate_data self rnd data
        else Ok tt) ;;
  match probas self with
  | None => Raise AttributeError
  | Some p => rows <- loc p (index_of data) ;; Ok (map snd rows)
  end.

(** Whether a supplied prediction array is one-dimensional with one entry
    per row of the dataset. *)
Definition pred_fits (y_pred : option ndarray) (d : Dataset) : Prop :=
  match y_pred with
  | None => True
  | Some (Arr1 xs) => length xs = length (data d)
  | Some (Arr2 _) => False
  end.

End StaticPredictions.

(* ----------------------------------------------------------------- *)
(** ** tabular/context.py: [Context.__init__] *)

Module TabularContext.
Import StaticPredictions.

(** The model a context holds: the estimator it was given or the adapter
    it built around static predictions. *)
Inductive model_obj : Type :=
| Estimator (m : Model)
| Static (d : _DummyModel).

(** The functions of other modules that [Context.__init__] calls: the
    truth value of a dataset object and the pairwise checks of the
    [Dataset] class, the default dataset names, the validators of the
    model and of a supplied feature importance, the documentation link,
    the categorical test of label inference, and the validators used by
    [_DummyModel]. *)
Record Collaborators : Type := {
  dataset_bool : Dataset -> bool;
  DEFAULT_DATASET_NAMES : string * string;
  datasets_share_label : Dataset -> Dataset -> bool;
  datasets_share_features : Dataset -> Dataset -> bool;
  datasets_share_categorical_features : Dataset -> Dataset -> bool;
  datasets_share_index : Dataset -> Dataset -> bool;
  datasets_share_date : Dataset -> Dataset -> bool;
  model_type_validation : Model -> result unit;
  validate_feature_importance : list Q -> list nat -> result (list Q);
  doclink : string -> string -> string;
  is_categorical : list (option Z) -> Q -> bool;
  validate_proba : proba -> option (list Z) -> result unit;
  ensure_predictions_shape : ndarray -> DataFrame -> result unit;
  ensure_predictions_proba : proba -> ndarray -> result unit
}.

(** The arguments of the constructor. *)
Record Args : Type := {
  train : option Dataset;
  test : option Dataset;
  model : option Model;
  feature_importance : option (list Q);
  feature_importance_force_permutation : bool;
  feature_importance_timeout : Z;
  with_display : bool;
  y_pred_train : option ndarray;
  y_pred_test : option ndarray;
  y_proba_train : option proba;
  y_proba_test : option proba;
  model_classes : option (list Z)
}.

Record Context : Type := {
  _task_type : TaskType;
  _observed_classes : option (list Z);
  _model_classes : option (list Z);
  _train : option Dataset;
  _test : option Dataset;
  _model : option model_obj;
  _feature_importance_force_permutation : bool;
  _feature_importance : option (list Q);
  _feature_importance_timeout : Z;
  _calculated_importance : bool;
  _importance_type : option string;
  _validated_model : bool;
  _with_display : bool
}.

(** Modelled from the spec: [infer_classes_from_model] of
    [deepchecks.tabular.utils.task_inference], which [context.py] imports
    and the embedded version of that module does not define.  The spec
    speaks of the "classes inferred from the model object": the classes
    the model declares, if any. *)
Definition infer_classes_from_model (model : option Model) : option (list Z) :=
  match model with
  | Some m => classes_ m
  | None => None
  end.

(** Modelled from the spec: [infer_task_type_by_class_number], imported
    and undefined likewise.  The spec fixes "2 classes -> binary, >2 ->
    multiclass"; for the other counts this follows the last branch of
    [infer_task_type]. *)
Definition infer_task_type_by_class_number (num_classes : nat) : TaskType :=
  if num_classes =? 2 then BINARY else MULTICLASS.

Definition array_values (y : option ndarray) : list (option Z) :=
  match y with
  | None => []
  | Some (Arr1 xs) => map Some xs
  | Some (Arr2 rows) => map Some (concat rows)
  end.

Definition labels_of (d : option Dataset) : list (option Z) :=
  match d with
  | Some ds => match label_col ds with Some l => l | None => [] end
  | None => []
  end.

(** Modelled from the spec: [get_all_labels], imported and undefined
    likewise: "the union of train/test labels and any supplied
    predictions". *)
Definition get_all_labels (model : option Model) (train test : option Dataset)
  (y_pred_train y_pred_test : option ndarray) : list (option Z) :=
  labels_of train ++ labels_of test
  ++ array_values y_pred_train ++ array_values y_pred_test.

(** Modelled from the spec: [infer_task_type_by_labels], imported and
    undefined likewise: "inference from observed label distribution
    (categorical union of train/test labels, or arbitrary-valued)"; 2
    observed classes give binary, 3 or more multiclass, no label at all
    regression. *)
Definition infer_task_type_by_labels (is_categorical : list (option Z) -> Q -> bool)
  (labels : list (option Z)) : TaskType :=
  match unique (dropna labels) with
  | [] => REGRESSION
  | classes =>
      if is_categorical labels 0.05%Q
      then infer_task_type_by_class_number (length classes)
      else REGRESSION
  end.

Definition truthy_dataset (X : Collaborators) (d : option Dataset) : bool :=
  match d with
  | Some ds => dataset_bool X ds
  | None => false
  end.

Definition is_some {A : Type} (o : option A) : bool :=
  match o with Some _ => true | None => false end.

Section Init.
Variable X : Collaborators.

Definition default_name (n : string) (d : option Dataset) : option Dataset :=
  match d with
  | Some ds => match name ds with
               | None => Some (with_name ds n)
               | Some _ => Some ds
               end
  | None => None
  end.

Definition raise_unless (ok : bool) (e : exn) : result unit :=
  if ok then Ok tt else Raise e.

(** Lines 196-211. *)
Definition validate_pair (tr te : Dataset) : result unit :=
  _ <- raise_unless
         (negb (has_label te && has_label tr && negb (datasets_share_label X tr te)))
         (DatasetValidationError
            "train and test requires to have and to share the same label") ;;
  _ <- raise_unless (datasets_share_features X tr te)
         (DatasetValidationError
            "train and test requires to share the same features columns") ;;
  _ <- raise_unless (datasets_share_categorical_features X tr te)
         (DatasetValidationError
            ("train and test datasets should share "
             ++ "the same categorical features. Possible reason is that some columns were"
             ++ "inferred incorrectly as categorical features. To fix this, manually edit the "
             ++ "categorical features using Dataset(cat_features=<list_of_features>")) ;;
  _ <- raise_unless (datasets_share_index X tr te)
         (DatasetValidationError
            "train and test requires to share the same index column") ;;
  raise_unless (datasets_share_date X tr te)
    (DatasetValidationError
       "train and test requires to share the same date column").

(** Lines 187-194: the datasets under their default names. *)
Definition named_train (a : Args) : option Dataset :=
  default_name (fst (DEFAULT_DATASET_NAMES X)) (train a).

Definition named_test (a : Args) : option Dataset :=
  default_name (snd (DEFAULT_DATASET_NAMES X)) (test a).

(** Lines 185-220: the validations that precede the class list, giving the
    named datasets and the validated feature importance. *)
Definition validate_inputs (a : Args)
  : result (option Dataset * option Dataset * option (list Q)) :=
  _ <- raise_unless
         (is_some (train a) || is_some (test a) || is_some (model a))
         (DeepchecksValueError
            "At least one dataset (or model) must be passed to the method!") ;;
  let train := named_train a in
  let test := named_test a in
  _ <- match train, test with
       | Some tr, Some te =>
           if dataset_bool X tr && dataset_bool X te then validate_pair tr te
           else Ok tt
       | _, _ => Ok tt
       end ;;
  _ <- raise_unless
         (negb (truthy_dataset X test && negb (truthy_dataset X train)))
         (DatasetValidationError
            ("Can't initialize context with only test. if you have single dataset, "
             ++ "initialize it as train")) ;;
  _ <- match model a with
       | Some m => model_type_validation X m
       | None => Ok tt
       end ;;
  fi <- match feature_importance a with
        | Some fi =>
            match train with
            | Some tr =>
                fi' <- validate_feature_importance X fi (features tr) ;;
                Ok (Some fi')
            | None => Raise AttributeError
            end
        | None => Ok None
        end ;;
  Ok (train, test, fi).

Definition empty_classes_message : string := "Received empty model_classes".

Definition unsorted_classes_message : string :=
  "Received unsorted model_classes. "
  ++ doclink X "supported-prediction-format"
       "For more information please refer to the Supported Models guide {link}".

(** Lines 221-227: the checks of an explicit class list. *)
Definition check_model_classes (model_classes : option (list Z)) : result unit :=
  _ <- (if truthy_opt model_classes
           && (match model_classes with
               | Some l => length l =? 0
               | None => false
               end)
        then Raise (DeepchecksValueError empty_classes_message)
        else Ok tt) ;;
  if truthy_opt model_classes
     && (match model_classes with
         | Some l => negb (list_eqb (sorted l) l)
         | None => false
         end)
  then Raise (DeepchecksValueError unsorted_classes_message)
  else Ok tt.

(** Lines 229-230: the explicit class list, else the classes of the
    model. *)
Definition resolved_classes (a : Args) : option (list Z) :=
  match model_classes a with
  | None => infer_classes_from_model (model a)
  | Some l => Some l
  end.

(** [train and train.label_type] *)
Definition declared_type (train : option Dataset) : option TaskType :=
  match train with
  | Some tr => if dataset_bool X tr then label_type tr else None
  | None => None
  end.

(** Lines 229-238: the class list after inference from the model, the
    task type, and the labels when they had to be gathered. *)
Definition resolve_task (a : Args) (train test : option Dataset)
  : option (list Z) * TaskType * option (list (option Z)) :=
  let model_classes := resolved_classes a in
  match declared_type train with
  | Some task_type => (model_classes, task_type, None)
  | None =>
      if truthy_opt model_classes then
        (model_classes,
         infer_task_type_by_class_number
           (match model_classes with Some l => length l | None => 0 end),
         None)
      else
        let labels :=
          get_all_labels (model a) train test (y_pred_train a) (y_pred_test a) in
        (model_classes, infer_task_type_by_labels (is_categorical X) labels,
         Some labels)
  end.

(** [model_classes or observed_classes] *)
Definition classes_or (model_classes observed_classes : option (list Z))
  : option (list Z) :=
  if truthy_opt model_classes then model_classes else observed_classes.

(** [Context.__init__]: the warnings logged on the way, and the context
    or the exception raised. *)
Definition Context_init (a : Args) : list string * result Context :=
  match validate_inputs a with
  | Raise e => ([], Raise e)
  | Ok (train, test, fi) =>
      match check_model_classes (model_classes a) with
      | Raise e => ([], Raise e)
      | Ok _ =>
          let '(model_classes, task_type, labels) := resolve_task a train test in
          let finish held_train held_test held_model observed :=
            {| _task_type := task_type;
               _observed_classes := observed;
               _model_classes := model_classes;
               _train := held_train;
               _test := held_test;
               _model := held_model;
               _feature_importance_force_permutation :=
                 feature_importance_force_permutation a;
               _feature_importance := fi;
               _feature_importance_timeout := feature_importance_timeout a;
               _calculated_importance :=
                 is_some (feature_importance a) || negb (is_some (model a));
               _importance_type := None;
               _validated_model := false;
               _with_display := with_display a |} in
          match model a with
          | Some m => ([], Ok (finish train test (Some (Estimator m)) None))
          | None =>
              if is_some (y_pred_train a) || is_some (y_pred_test a)
                 || is_some (y_proba_train a) || is_some (y_proba_test a)
              then
                let observed_classes :=
                  if negb (is_some (y_pred_train a)) && negb (is_some model_classes)
                  then
                    let labels :=
                      match labels with
                      | Some l => l
                      | None => get_all_labels (model a) train test
                                  (y_pred_train a) (y_pred_test a)
                      end in
                    Some (sorted (unique (dropna labels)))
                  else None in
                let built :=
                  _DummyModel_init (validate_proba X) (ensure_predictions_shape X)
                    (ensure_predictions_proba X)
                    test (y_proba_test a) (y_pred_test a)
                    train (y_pred_train a) (y_proba_train a) true
                    (classes_or model_classes observed_classes) in
                (out_warnings built,
                 match out_model built with
                 | Raise e => Raise e
                 | Ok d => Ok (finish (out_train built) (out_test built)
                                 (Some (Static d)) observed_classes)
                 end)
              else ([], Ok (finish train test None None))
          end
      end
  end.

End Init.

End TabularContext.

(* ----------------------------------------------------------------- *)
(** ** Sample inputs of the tabular part *)

Module TabularSamples.
Import StaticPredictions TabularContext.

(** Collaborators under which every external validation passes. *)
Definition lenient : Collaborators :=
  {| dataset_bool := fun _ => true;
     DEFAULT_DATASET_NAMES := ("Train", "Test");
     datasets_share_label := fun _ _ => true;
     datasets_share_features := fun _ _ => true;
     datasets_share_categorical_features := fun _ _ => true;
     datasets_share_index := fun _ _ => true;
     datasets_share_date := fun _ _ => true;
     model_type_validation := fun _ => Ok tt;
     validate_feature_importance := fun fi _ => Ok fi;
     doclink := fun _ template => template;
     is_categorical := fun labels _ => length (unique (dropna labels)) <=? 3;
     validate_proba := fun _ _ => Ok tt;
     ensure_predictions_shape := fun _ _ => Ok tt;
     ensure_predictions_proba := fun _ _ => Ok tt |}.

(** Three rows of two features and a label in the last column. *)
Definition frame (labels : list Z) : DataFrame :=
  combine (map LInt [0; 1; 2]%Z)
          (map (fun p => [fst p; fst p + 10; snd p]%Z)
               (combine [0; 1; 2]%Z labels)).

Definition dataset (labels : list Z) : Dataset :=
  {| name := None; data := frame labels; features := [0; 1];
     label_col := Some (map Some labels);
     label_type := None; _label_classes := None |}.

Definition unlabelled : Dataset :=
  {| name := None; data := frame [0; 0; 0]%Z; features := [0; 1];
     label_col := None; label_type := None; _label_classes := None |}.

Definition args (train : option Dataset) (model_classes : option (list Z)) : Args :=
  {| train := train; test := None; model := None;
     feature_importance := None;
     feature_importance_force_permutation := false;
     feature_importance_timeout := 120;
     with_display := true;
     y_pred_train := None; y_pred_test := None;
     y_proba_train := None; y_proba_test := None;
     model_classes := model_classes |}.

(** Train and test on the same three row identifiers, with static
    predictions for both. *)
Definition colliding : Args :=
  {| train := Some (dataset [0; 1; 1]%Z); test := Some (dataset [1; 0; 1]%Z);
     model := None;
     feature_importance := None;
     feature_importance_force_permutation := false;
     feature_importance_timeout := 120;
     with_display := true;
     y_pred_train := Some (Arr1 [0; 1; 0]%Z);
     y_pred_test := Some (Arr2 [[1]; [0]; [1]]%Z);
     y_proba_train := None; y_proba_test := None;
     model_classes := None |}.

Definition task_type_of (r : list string * result Context) : option TaskType :=
  match snd r with
  | Ok ctx => Some (_task_type ctx)
  | Raise _ => None
  end.

Definition declared (t : TaskType) (d : Dataset) : Dataset :=
  {| name := name d; data := data d; features := features d;
     label_col := label_col d; label_type := Some t;
     _label_classes := _label_classes d |}.

(** A fitted feature frame of a hundred rows, the adapter around it, and
    queries that add a row the adapter has never seen. *)
Definition fitted : DataFrame :=
  map (fun i => (LInt (Z.of_nat i), [Z.of_nat i; Z.of_nat i + 10]%Z)) (seq 0 100).

Definition adapter (validate : bool) : _DummyModel :=
  {| predictions :=
       Some (map (fun i => (LInt (Z.of_nat i), (Z.of_nat i mod 2)%Z)) (seq 0 100));
     probas := None;
     feature_df_list := [fitted];
     validate_data_on_predict := validate |}.

Definition fabricated_row : label * list Z := (LInt 1000, [7; 7]%Z).

Definition large_query : DataFrame := fitted ++ [fabricated_row].

Definition small_query : DataFrame := [(LInt 3, [3; 13]%Z); fabricated_row].

Definition known_query : DataFrame :=
  [(LInt 7, [7; 17]%Z); (LInt 5, [5; 15]%Z); (LInt 6, [6; 16]%Z)].

Definition first_hundred : Draws :=
  {| sample_positions := seq 0 100; choice_positions := seq 0 30 |}.

Definition all_rows (n : nat) : Draws :=
  {| sample_positions := rev (seq 0 n); choice_positions := repeat 0 30 |}.

End TabularSamples.

(** A classifier that declares its classes, and a model that declares
    none and predicts the class 2 for every row. *)
Module InferenceSamples.

Definition classifier : Model :=
  {| classes_ := Some [0; 1]%Z;
     has_predict_proba := true;
     is_ClassifierMixin := true;
     predict := fun df => map (fun _ => 1%Z) df |}.

Definition undeclared : Model :=
  {| classes_ := None;
     has_predict_proba := true;
     is_ClassifierMixin := false;
     predict := fun df => map (fun _ => 2%Z) df |}.

End InferenceSamples.

(** Arguments of [Context]: a test dataset alone, a dataset with a model
    object next to static predictions, and train and test datasets with
    static predictions for the test rows only. *)
Module ConstructionSamples.
Import TabularContext TabularSamples.

Definition only_test : Args :=
  {| train := None; test := Some (dataset [0; 1; 1]%Z); model := None;
     feature_importance := None;
     feature_importance_force_permutation := false;
     feature_importance_timeout := 120;
     with_display := true;
     y_pred_train := None; y_pred_test := None;
     y_proba_train := None; y_proba_test := None;
     model_classes := None |}.

Definition with_model : Args :=
  {| train := Some (dataset [0; 1; 1]%Z); test := None;
     model := Some InferenceSamples.classifier;
     feature_importance := None;
     feature_importance_force_permutation := false;
     feature_importance_timeout := 120;
     with_display := true;
     y_pred_train := Some (Arr1 [0; 1; 0]%Z); y_pred_test := None;
     y_proba_train := None; y_proba_test := None;
     model_classes := None |}.

Definition test_predictions : Args :=
  {| train := Some (dataset [0; 1; 1]%Z); test := Some (dataset [1; 0; 1]%Z);
     model := None;
     feature_importance := None;
     feature_importance_force_permutation := false;
     feature_importance_timeout := 120;
     with_display := true;
     y_pred_train := None; y_pred_test := Some (Arr1 [1; 0; 1]%Z);
     y_proba_train := None; y_proba_test := None;
     model_classes := None |}.

End ConstructionSamples.

(* ----------------------------------------------------------------- *)
(** ** Exceptions of [deepchecks.core.errors] met outside the scan *)

Module Errors.

(** The exceptions raised by [_ensure_property_shape] and by the
    accessors of a context: two classes of the library that the code
    above does not raise, and the exceptions of [exn]. *)
Inductive exception : Type :=
| DeepchecksProcessError (msg : string)
| DeepchecksNotSupportedError (msg : string)
| Exn (e : exn).

Inductive outcome (A : Type) : Type :=
| Returns (a : A)
| Raises (e : exception).

Arguments Returns {A} a.
Arguments Raises {A} e.

End Errors.

Import Errors.

(* ----------------------------------------------------------------- *)
(** ** text_property_outliers.py: [_ensure_property_shape] *)

Module PropertyShape.

(** A value that a property function may hand back for one sample:
    [None], a number, a string, a list or tuple, or any other object (a
    dictionary, a numpy array, ...). *)
#[warnings="-register-all"]
Inductive pyval : Type :=
| PyNone
| PyNumber (q : Q)
| PyStr (s : string)
| PyList (items : list pyval)
| PyObject.

Definition is_None (x : pyval) : bool :=
  match x with PyNone => true | _ => false end.

(** [isinstance(x, Number)] *)
Definition is_Number (x : pyval) : bool :=
  match x with PyNumber _ => true | _ => false end.

(** [isinstance(x, t.Sequence)]: lists and tuples, and strings as
    well. *)
Definition is_Sequence (x : pyval) : bool :=
  match x with PyStr _ | PyList _ => true | _ => false end.

(** What iterating over a sequence yields; a string yields its
    characters, each a string. *)
Definition iter (x : pyval) : list pyval :=
  match x with
  | PyList items => items
  | PyStr s => map (fun c => PyStr (String c EmptyString)) (list_ascii_of_string s)
  | _ => []
  end.

Definition _is_list_of_numbers (l : list pyval) : bool :=
  negb (existsb (fun i => negb (is_None i) && negb (is_Number i)) l).

(** The values that [_is_list_of_numbers] lets through: [None] and the
    numbers. *)
Definition scalar_ok (x : pyval) : bool := is_None x || is_Number x.

(** [f'{n}'] for a length. *)
Definition format_nat (n : nat) : string := NilZero.string_of_uint (Nat.to_uint n).

Definition length_message (n data_len : nat) (prop_name : string) : string :=
  "Properties are expected to return value per image but instead got"
  ++ " " ++ format_nat n ++ " values for " ++ format_nat data_len
  ++ " images for property " ++ prop_name.

Definition mix_message (prop_name : string) : string :=
  "Property result is expected to be either all lists or all scalars but"
  ++ " got mix for property " ++ prop_name.

Definition non_numeric_message (prop_name : string) : string :=
  "For outliers, properties are expected to be only numeric types but"
  ++ " found non-numeric value for property " ++ prop_name.

Definition _ensure_property_shape (property_values : list pyval)
  (data_len : nat) (prop_name : string) : outcome unit :=
  if negb (length property_values =? data_len) then
    Raises (DeepchecksProcessError
              (length_message (length property_values) data_len prop_name))
  else
    match property_values with
    | [] => Raises (Exn IndexError)
    | first :: _ =>
        if is_Sequence first then
          if existsb (fun x => negb (is_Sequence x)) property_values then
            Raises (DeepchecksProcessError (mix_message prop_name))
          else if existsb (fun x => negb (_is_list_of_numbers (iter x)))
                    property_values then
            Raises (DeepchecksProcessError (non_numeric_message prop_name))
          else Returns tt
        else if negb (_is_list_of_numbers property_values) then
          Raises (DeepchecksProcessError (non_numeric_message prop_name))
        else Returns tt
    end.

End PropertyShape.

(* ----------------------------------------------------------------- *)
(** ** tabular/context.py: the accessors of a context *)

Module ContextAccessors.
Import StaticPredictions TabularContext.

(** Assignments to the attributes that the accessors write. *)
Definition set_validated_model (self : Context) : Context :=
  {| _task_type := _task_type self;
     _observed_classes := _observed_classes self;
     _model_classes := _model_classes self;
     _train := _train self;
     _test := _test self;
     _model := _model self;
     _feature_importance_force_permutation :=
       _feature_importance_force_permutation self;
     _feature_importance := _feature_importance self;
     _feature_importance_timeout := _feature_importance_timeout self;
     _calculated_importance := _calculated_importance self;
     _importance_type := _importance_type self;
     _validated_model := true;
     _with_display := _with_display self |}.

Definition set_observed_classes (self : Context) (classes : option (list Z))
  : Context :=
  {| _task_type := _task_type self;
     _observed_classes := classes;
     _model_classes := _model_classes self;
     _train := _train self;
     _test := _test self;
     _model := _model self;
     _feature_importance_force_permutation :=
       _feature_importance_force_permutation self;
     _feature_importance := _feature_importance self;
     _feature_importance_timeout := _feature_importance_timeout self;
     _calculated_importance := _calculated_importance self;
     _importance_type := _importance_type self;
     _validated_model := _validated_model self;
     _with_display := _with_display self |}.

(** The assignments of lines 320-326, one after the other: importance,
    its type when it was calculated, and the flag. *)
Definition set_importance (self : Context) (importance : option (list Q))
  (importance_type : option string) : Context :=
  {| _task_type := _task_type self;
     _observed_classes := _observed_classes self;
     _model_classes := _model_classes self;
     _train := _train self;
     _test := _test self;
     _model := _model self;
     _feature_importance_force_permutation :=
       _feature_importance_force_permutation self;
     _feature_importance := importance;
     _feature_importance_timeout := _feature_importance_timeout self;
     _calculated_importance := true;
     _importance_type := importance_type;
     _validated_model := _validated_model self;
     _with_display := _with_display self |}.

(** [task_type in (TaskType.BINARY, TaskType.MULTICLASS)] *)
Definition is_classification (t : TaskType) : bool :=
  match t with
  | BINARY | MULTICLASS => true
  | REGRESSION => false
  end.

Definition is_none {A : Type} (o : option A) : bool :=
  match o with None => true | Some _ => false end.

Definition no_model_message : string :=
  "Check is irrelevant for Datasets without model".

Definition observed_fallback_warning : string :=
  "Could not find model's classes, using the observed classes".

Section Accessors.

(** The truth value of a dataset comes with the collaborators of the
    constructor.  [validate_model] of
    [deepchecks.tabular.utils.validation], [get_all_labels] (called here
    without predictions), [calculate_feature_importance_or_none] of
    [deepchecks.tabular.utils.feature_importance], the truth value of a
    model object, and the properties [train] and [test] that [Context]
    inherits from [BaseContext] are defined elsewhere. *)
Variable X : Collaborators.
Variable validate_model : Dataset -> model_obj -> result unit.
Variable get_all_labels :
  option model_obj -> option Dataset -> option Dataset ->
  result (list (option Z)).
Variable calculate_feature_importance_or_none :
  model_obj -> Dataset -> option (list Z) -> option (list Z) -> TaskType ->
  bool -> Z -> result (option (list Q) * option string).
Variable model_bool : model_obj -> bool.
Variable train : Context -> outcome Dataset.
Variable test : Context -> outcome Dataset.

Definition task_type (self : Context) : TaskType := _task_type self.

(** Lines 272-281.  The accessors that write to the context return the
    context they leave behind. *)
Definition model (self : Context) : Context * outcome model_obj :=
  match _model self with
  | None => (self, Raises (DeepchecksNotSupportedError no_model_message))
  | Some m =>
      if negb (_validated_model self) then
        match match _train self with
              | Some tr =>
                  if dataset_bool X tr then validate_model tr m else Ok tt
              | None => Ok tt
              end with
        | Raise e => (self, Raises (Exn e))
        | Ok _ => (set_validated_model self, Returns m)
        end
      else (self, Returns m)
  end.

(** Lines 292-299. *)
Definition observed_classes (self : Context)
  : Context * outcome (option (list Z)) :=
  if is_none (_observed_classes self) && is_classification (task_type self)
  then
    match get_all_labels (_model self) (_train self) (_test self) with
    | Raise e => (self, Raises (Exn e))
    | Ok labels =>
        let classes := Some (sorted (unique (dropna labels))) in
        (set_observed_classes self classes, Returns classes)
    end
  else (self, Returns (_observed_classes self)).

(** Lines 283-290, with the warnings logged. *)
Definition model_classes (self : Context)
  : Context * list string * outcome (option (list Z)) :=
  if is_none (_model_classes self) && is_classification (task_type self)
  then
    let '(self, classes) := observed_classes self in
    (self, [observed_fallback_warning], classes)
  else (self, [], Returns (_model_classes self)).

(** Lines 344-346. *)
Definition have_test (self : Context) : bool := is_some (_test self).

(** Lines 311-328. *)
Definition feature_importance (self : Context)
  : Context * list string * outcome (option (list Q)) :=
  if negb (_calculated_importance self) then
    match _model self with
    | Some m =>
        if model_bool m
           && (truthy_dataset X (_train self) || truthy_dataset X (_test self))
        then
          match (if have_test self then test self else train self) with
          | Raises e => (self, [], Raises e)
          | Returns dataset =>
              let '(self, warnings, classes) := model_classes self in
              match classes with
              | Raises e => (self, warnings, Raises e)
              | Returns classes =>
                  match calculate_feature_importance_or_none m dataset classes
                          (_observed_classes self) (task_type self)
                          (_feature_importance_force_permutation self)
                          (_feature_importance_timeout self) with
                  | Raise e => (self, warnings, Raises (Exn e))
                  | Ok (importance, importance_type) =>
                      (set_importance self importance importance_type,
                       warnings, Returns importance)
                  end
              end
          end
        else
          (set_importance self None (_importance_type self), [], Returns None)
    | None =>
        (set_importance self None (_importance_type self), [], Returns None)
    end
  else (self, [], Returns (_feature_importance self)).

(** Lines 348-356.  [self.train] is read only when the first half of the
    conjunction holds. *)
Definition assert_classification_task (self : Context) : outcome unit :=
  match task_type self with
  | REGRESSION =>
      match train self with
      | Raises e => Raises e
      | Returns tr =>
          if has_label tr then
            Raises (Exn (ModelValidationError
                           "Check is irrelevant for regression tasks"))
          else Returns tt
      end
  | _ => Returns tt
  end.

Definition assert_regression_task (self : Context) : outcome unit :=
  match task_type self with
  | REGRESSION => Returns tt
  | _ =>
      match train self with
      | Raises e => Raises e
      | Returns tr =>
          if has_label tr then
            Raises (Exn (ModelValidationError
                           "Check is irrelevant for classification tasks"))
          else Returns tt
      end
  end.

End Accessors.

End ContextAccessors.

(** Contexts as the constructor leaves them: a classification context
    around a model object, with or without a class list. *)
Module AccessorSamples.
Import StaticPredictions TabularContext TabularSamples.

Definition context_of (classes : option (list Z)) (task : TaskType) : Context :=
  {| _task_type := task;
     _observed_classes := None;
     _model_classes := classes;
     _train := Some (dataset [0; 1; 1]%Z);
     _test := None;
     _model := Some (Estimator InferenceSamples.undeclared);
     _feature_importance_force_permutation := false;
     _feature_importance := None;
     _feature_importance_timeout := 120;
     _calculated_importance := false;
     _importance_type := None;
     _validated_model := false;
     _with_display := true |}.

(** The labels of the datasets and the predictions of a model object on
    the train rows. *)
Definition labels_and_predictions (m : option model_obj)
  (train test : option Dataset) : result (list (option Z)) :=
  Ok (labels_of train ++ labels_of test
      ++ match m, train with
         | Some (Estimator e), Some tr =>
             map Some (predict e (features_columns tr))
         | _, _ => []
         end).

(** A calculation that gives every feature the same importance. *)
Definition uniform_importance (m : model_obj) (d : Dataset)
  (model_classes observed_classes : option (list Z)) (task : TaskType)
  (force : bool) (timeout : Z) : result (option (list Q) * option string) :=
  Ok (Some (map (fun _ => 0.5%Q) (features d)), Some "uniform").

Definition held (d : option Dataset) (msg : string) : outcome Dataset :=
  match d with
  | Some ds => Returns ds
  | None => Raises (DeepchecksNotSupportedError msg)
  end.

End AccessorSamples.

(* ================================================================= *)
(** * Part II. Properties *)
(* ================================================================= *)

(* ----------------------------------------------------------------- *)
(** ** Lists, sorting and arrays *)

Module PyFacts.

Lemma insert_perm {A : Type} (leb : A -> A -> bool) (x : A) (l : list A) :
  Permutation (insert leb x l) (x :: l).
Proof.
  induction l as [|y t IH]; simpl.
  - apply Permutation_refl.
  - destruct (leb x y).
    + apply Permutation_refl.
    + eapply perm_trans; [apply perm_skip, IH | apply perm_swap].
Qed.

Lemma isort_perm {A : Type} (leb : A -> A -> bool) (l : list A) :
  Permutation (isort leb l) l.
Proof.
  induction l as [|x t IH]; simpl.
  - constructor.
  - eapply perm_trans; [apply insert_perm | apply perm_skip, IH].
Qed.

Lemma mapM_ok_length {A B : Type} (f : A -> result B) (l : list A) (r : list B) :
  mapM f l = Ok r -> length r = length l.
Proof.
  revert r; induction l as [|x t IH]; simpl; intros r H.
  - inversion H; reflexivity.
  - destruct (f x) as [y|e]; [|discriminate].
    destruct (mapM f t) as [ys|e]; [|discriminate].
    inversion H; subst; simpl; f_equal; apply IH; reflexivity.
Qed.

Lemma mapM_total {A B : Type} (f : A -> result B) (l : list A) :
  (forall x, In x l -> exists y, f x = Ok y) ->
  exists r, mapM f l = Ok r.
Proof.
  induction l as [|x t IH]; simpl; intros H.
  - eexists; reflexivity.
  - destruct (H x (or_introl eq_refl)) as [y Hy]; rewrite Hy.
    destruct IH as [ys Hys]; [intros z Hz; apply H; right; exact Hz|].
    rewrite Hys; eexists; reflexivity.
Qed.

Lemma dict_get_set_same {V : Type} (d : list (string * V)) (k : string) (v : V) :
  dict_get (dict_set d k v) k = Some v.
Proof.
  induction d as [|[k' v'] t IH]; simpl.
  - rewrite String.eqb_refl; reflexivity.
  - destruct (String.eqb k' k) eqn:E; simpl; rewrite E; [reflexivity | exact IH].
Qed.

Lemma dict_get_set_other {V : Type} (d : list (string * V)) (k k2 : string) (v : V) :
  k2 <> k -> dict_get (dict_set d k v) k2 = dict_get d k2.
Proof.
  intros Hne; induction d as [|[k' v'] t IH]; simpl.
  - destruct (String.eqb k k2) eqn:E; [|reflexivity].
    apply String.eqb_eq in E; congruence.
  - destruct (String.eqb k' k) eqn:E; simpl.
    + apply String.eqb_eq in E; subst k'.
      destruct (String.eqb k k2) eqn:E2; [|reflexivity].
      apply String.eqb_eq in E2; congruence.
    + destruct (String.eqb k' k2); [reflexivity | exact IH].
Qed.

End PyFacts.

Module NpFacts.
Import PyFacts.

Lemma take_seq_from {A : Type} (d : A) (pre l : list A) :
  take d (pre ++ l) (seq (length pre) (length l)) = l.
Proof.
  unfold take; revert pre; induction l as [|x t IH]; intros pre; simpl.
  - reflexivity.
  - f_equal.
    + rewrite app_nth2, Nat.sub_diag; [reflexivity | lia].
    + specialize (IH (pre ++ [x])).
      rewrite <- app_assoc, length_app in IH; simpl in IH.
      rewrite Nat.add_1_r in IH; exact IH.
Qed.

Lemma take_seq {A : Type} (d : A) (l : list A) :
  take d l (seq 0 (length l)) = l.
Proof. exact (take_seq_from d [] l). Qed.

Lemma length_take {A : Type} (d : A) (l : list A) (idx : list nat) :
  length (take d l idx) = length idx.
Proof. unfold take; apply length_map. Qed.

Lemma snd_combine_seq {A : Type} (keys : list A) (s : nat) :
  map snd (combine keys (seq s (length keys))) = seq s (length keys).
Proof.
  revert s; induction keys as [|k t IH]; intros s; simpl.
  - reflexivity.
  - f_equal; apply IH.
Qed.

Lemma argsort_perm (keys : list float) :
  Permutation (argsort keys) (seq 0 (length keys)).
Proof.
  unfold argsort.
  rewrite <- (snd_combine_seq keys 0) at 2.
  apply Permutation_map, isort_perm.
Qed.

(** Reordering an index array by the [argsort] of its keys keeps its
    elements. *)
Lemma take_argsort_perm (l : list nat) (keys : list float) :
  length keys = length l ->
  Permutation (take 0 l (argsort keys)) l.
Proof.
  intros Hlen.
  rewrite <- (take_seq 0 l) at 2.
  unfold take at 1 2; apply Permutation_map.
  rewrite <- Hlen; apply argsort_perm.
Qed.

Lemma In_argwhere_from {A : Type} (p : A -> bool) (l : list A) (s i : nat) :
  In i (argwhere_from p s l) <->
  s <= i /\ exists v, nth_error l (i - s) = Some v /\ p v = true.
Proof.
  revert s; induction l as [|x t IH]; intros s; simpl.
  - split; [intros [] | intros [_ [v [H _]]]].
    destruct (i - s); discriminate.
  - assert (Hrec : In i (argwhere_from p (S s) t) <->
                   s < i /\ exists v, nth_error (x :: t) (i - s) = Some v /\ p v = true).
    { rewrite IH; split.
      - intros [Hle [v [Hn Hp]]]; split; [lia|].
        exists v; split; [|exact Hp].
        replace (i - s) with (S (i - S s)) by lia; exact Hn.
      - intros [Hlt [v [Hn Hp]]]; split; [lia|].
        exists v; split; [|exact Hp].
        replace (i - s) with (S (i - S s)) in Hn by lia; exact Hn. }
    destruct (p x) eqn:Hpx; simpl; rewrite Hrec.
    + split.
      * intros [Heq | [Hlt H]]; [subst i | split; [lia | exact H]].
        split; [lia|]; exists x; rewrite Nat.sub_diag; auto.
      * intros [Hle [v [Hn Hp]]].
        destruct (Nat.eq_dec s i) as [Heq|Hne]; [left; exact Heq|].
        right; split; [lia|]; exists v; auto.
    + split.
      * intros [Hlt H]; split; [lia | exact H].
      * intros [Hle [v [Hn Hp]]].
        destruct (Nat.eq_dec s i) as [Heq|Hne].
        -- subst i; rewrite Nat.sub_diag in Hn; simpl in Hn.
           inversion Hn; subst v; congruence.
        -- split; [lia|]; exists v; auto.
Qed.

Lemma In_argwhere {A : Type} (p : A -> bool) (l : list A) (i : nat) :
  In i (argwhere p l) <-> exists v, nth_error l i = Some v /\ p v = true.
Proof.
  unfold argwhere; rewrite In_argwhere_from, Nat.sub_0_r.
  split; [intros [_ H]; exact H | intros H; split; [lia | exact H]].
Qed.

Lemma argwhere_from_lt {A : Type} (p : A -> bool) (l : list A) (s i : nat) :
  In i (argwhere_from p s l) -> i < s + length l.
Proof.
  rewrite In_argwhere_from; intros [Hle [v [Hn _]]].
  assert (i - s < length l) by (apply nth_error_Some; congruence).
  lia.
Qed.

End NpFacts.

(* ----------------------------------------------------------------- *)
(** ** Float comparisons *)

Module FloatFacts.

Lemma Qltb_false_le (x y : Q) : Qltb x y = false -> Qle_bool y x = true.
Proof. unfold Qltb; destruct (Qle_bool y x); [reflexivity | discriminate]. Qed.

Lemma Qltb_true_le (x y : Q) : Qltb x y = true -> Qle_bool x y = true.
Proof.
  unfold Qltb; intros H.
  destruct (Qle_bool y x) eqn:E; [discriminate|].
  apply Qle_bool_iff, Qlt_le_weak, Qnot_le_lt.
  intros Hle; apply Qle_bool_iff in Hle; congruence.
Qed.

Lemma Qle_bool_refl (x : Q) : Qle_bool x x = true.
Proof. apply Qle_bool_iff, Qle_refl. Qed.

Lemma Qle_bool_trans (x y z : Q) :
  Qle_bool x y = true -> Qle_bool y z = true -> Qle_bool x z = true.
Proof. rewrite !Qle_bool_iff; apply Qle_trans. Qed.





Lemma fle_trans (a b c : float) : fle a b = true -> fle b c = true -> fle a c = true.
Proof.
  destruct a as [|x], b as [|y], c as [|z]; simpl; try discriminate.
  apply Qle_bool_trans.
Qed.

Lemma fle_refl (a : float) : is_finite a = true -> fle a a = true.
Proof. destruct a; simpl; [discriminate | intros _; apply Qle_bool_refl]. Qed.

Lemma min2_cases (a b : float) : min2 a b = a \/ min2 a b = b.
Proof. unfold min2; destruct (flt b a); auto. Qed.

Lemma max2_cases (a b : float) : max2 a b = a \/ max2 a b = b.
Proof. unfold max2; destruct (fgt b a); auto. Qed.

Lemma flt_finite (a b : float) :
  flt a b = true -> is_finite a = true /\ is_finite b = true.
Proof. destruct a, b; simpl; try discriminate; auto. Qed.

Lemma min2_finite (a b : float) :
  is_finite a = true -> is_finite (min2 a b) = true.
Proof.
  intros Ha; unfold min2; destruct (flt b a) eqn:E; [|exact Ha].
  apply (flt_finite b a E).
Qed.

Lemma max2_finite (a b : float) :
  is_finite a = true -> is_finite (max2 a b) = true.
Proof.
  intros Ha; unfold max2, fgt; destruct (flt a b) eqn:E; [|exact Ha].
  apply (flt_finite a b E).
Qed.

Lemma min2_le_l (a b : float) :
  is_finite a = true -> fle (min2 a b) a = true.
Proof.
  intros Ha; unfold min2; destruct (flt b a) eqn:E; [|apply fle_refl, Ha].
  destruct a as [|x], b as [|y]; simpl in *; try discriminate.
  apply Qltb_true_le; exact E.
Qed.

Lemma min2_le_r (a b : float) :
  is_finite a = true -> is_finite b = true -> fle (min2 a b) b = true.
Proof.
  destruct a as [|x], b as [|y]; simpl; try discriminate; intros _ _.
  unfold min2; simpl; destruct (Qltb y x) eqn:E; simpl.
  - apply Qle_bool_refl.
  - apply Qltb_false_le; exact E.
Qed.

Lemma max2_ge_l (a b : float) :
  is_finite a = true -> fle a (max2 a b) = true.
Proof.
  intros Ha; unfold max2, fgt; destruct (flt a b) eqn:E; [|apply fle_refl, Ha].
  destruct a as [|x], b as [|y]; simpl in *; try discriminate.
  apply Qltb_true_le; exact E.
Qed.

Lemma max2_ge_r (a b : float) :
  is_finite a = true -> is_finite b = true -> fle b (max2 a b) = true.
Proof.
  destruct a as [|x], b as [|y]; simpl; try discriminate; intros _ _.
  unfold max2, fgt; simpl; destruct (Qltb x y) eqn:E; simpl.
  - apply Qle_bool_refl.
  - apply Qltb_false_le; exact E.
Qed.

(** Started on a number, the builtin [min] over an array ends on the least
    of its numbers: the nulls that follow are passed over. *)
Lemma fold_min2_spec (t : list float) (x : float) :
  is_finite x = true ->
  let m := fold_left min2 t x in
  is_finite m = true /\ In m (x :: t)
  /\ forall v, In v (x :: t) -> is_finite v = true -> fle m v = true.
Proof.
  revert x; induction t as [|y t IH]; intros x Hx; simpl.
  - split; [exact Hx|]; split; [left; reflexivity|].
    intros v [<- | []] _; apply fle_refl; exact Hx.
  - destruct (IH (min2 x y) (min2_finite x y Hx)) as [Hm [Hin Hle]].
    split; [exact Hm|]; split.
    + destruct Hin as [Hin | Hin]; [|right; right; exact Hin].
      destruct (min2_cases x y) as [E | E]; [left | right; left]; congruence.
    + intros v [<- | [<- | Hv]] Hfin.
      * eapply fle_trans; [apply Hle; [left; reflexivity|]|].
        -- apply min2_finite; exact Hx.
        -- apply min2_le_l; exact Hx.
      * eapply fle_trans; [apply Hle; [left; reflexivity|]|].
        -- apply min2_finite; exact Hx.
        -- apply min2_le_r; assumption.
      * apply Hle; [right; exact Hv | exact Hfin].
Qed.

Lemma fold_max2_spec (t : list float) (x : float) :
  is_finite x = true ->
  let m := fold_left max2 t x in
  is_finite m = true /\ In m (x :: t)
  /\ forall v, In v (x :: t) -> is_finite v = true -> fle v m = true.
Proof.
  revert x; induction t as [|y t IH]; intros x Hx; simpl.
  - split; [exact Hx|]; split; [left; reflexivity|].
    intros v [<- | []] _; apply fle_refl; exact Hx.
  - destruct (IH (max2 x y) (max2_finite x y Hx)) as [Hm [Hin Hle]].
    split; [exact Hm|]; split.
    + destruct Hin as [Hin | Hin]; [|right; right; exact Hin].
      destruct (max2_cases x y) as [E | E]; [left | right; left]; congruence.
    + intros v [<- | [<- | Hv]] Hfin.
      * eapply fle_trans; [|apply Hle; [left; reflexivity|]].
        -- apply max2_ge_l; exact Hx.
        -- apply max2_finite; exact Hx.
      * eapply fle_trans; [|apply Hle; [left; reflexivity|]].
        -- apply max2_ge_r; assumption.
        -- apply max2_finite; exact Hx.
      * apply Hle; [right; exact Hv | exact Hfin].
Qed.

(** Started on a null, both builtins end on it. *)
Lemma fold_min2_NaN (t : list float) : fold_left min2 t NaN = NaN.
Proof. induction t as [|y t IH]; simpl; [reflexivity|]. destruct y; exact IH. Qed.

Lemma fold_max2_NaN (t : list float) : fold_left max2 t NaN = NaN.
Proof. induction t as [|y t IH]; simpl; [reflexivity|]. destruct y; exact IH. Qed.

End FloatFacts.

(* ----------------------------------------------------------------- *)
(** ** The flat-index mapper *)

Module MapperFacts.
Import TextPropertyOutliers PyFacts NpFacts.

Lemma prefix_sum_0 (L : list nat) : prefix_sum L 0 = 0%Z.
Proof. reflexivity. Qed.

Lemma prefix_sum_cons (x : nat) (L : list nat) (i : nat) :
  prefix_sum (x :: L) (S i) = (Z.of_nat x + prefix_sum L i)%Z.
Proof. unfold prefix_sum; simpl; lia. Qed.

Lemma prefix_sum_nil (i : nat) : prefix_sum [] i = 0%Z.
Proof. unfold prefix_sum; rewrite firstn_nil; reflexivity. Qed.

Lemma prefix_sum_nonneg (L : list nat) (i : nat) : (0 <= prefix_sum L i)%Z.
Proof. unfold prefix_sum; lia. Qed.

Lemma prefix_sum_mono (L : list nat) (i j : nat) :
  i <= j -> (prefix_sum L i <= prefix_sum L j)%Z.
Proof.
  revert i j; induction L as [|x t IH]; intros i j Hij.
  - rewrite !prefix_sum_nil; lia.
  - destruct i as [|i]; [rewrite prefix_sum_0; apply prefix_sum_nonneg|].
    destruct j as [|j]; [lia|].
    rewrite !prefix_sum_cons.
    specialize (IH i j); lia.
Qed.

Lemma length_cumsum_from (acc : Z) (l : list Z) :
  length (cumsum_from acc l) = length l.
Proof. revert acc; induction l as [|x t IH]; intros acc; simpl; auto. Qed.

(** Entry [j] of the cumulative sums is the number of values of the
    samples up to and including [j]. *)
Lemma cumsum_from_nth (L : list nat) (acc : Z) (j : nat) :
  j < length L ->
  nth_error (cumsum_from acc (map Z.of_nat L)) j
  = Some (acc + prefix_sum L (S j))%Z.
Proof.
  revert acc j; induction L as [|x t IH]; intros acc j Hj; simpl in Hj.
  - lia.
  - destruct j as [|j]; simpl.
    + rewrite prefix_sum_cons, prefix_sum_0; f_equal; lia.
    + rewrite IH by lia. rewrite (prefix_sum_cons x t (S j)); f_equal; lia.
Qed.

(** The scan for the first cumulative sum above [f], started at position
    [s] with [acc] values already counted. *)
Lemma first_exceeding_from (L : list nat) (acc f : Z) (s : nat) :
  (acc <= f < acc + Z.of_nat (list_sum L))%Z ->
  exists k,
    getitem (argwhere_from (fun c => (f <? c)%Z) s
               (cumsum_from acc (map Z.of_nat L))) 0 = Ok (s + k)
    /\ k < length L
    /\ (acc + prefix_sum L k <= f < acc + prefix_sum L (S k))%Z.
Proof.
  revert acc s; induction L as [|x t IH]; intros acc s H; simpl in H |- *.
  - lia.
  - destruct (f <? acc + Z.of_nat x)%Z eqn:E.
    + apply Z.ltb_lt in E.
      exists 0; split; [unfold getitem; simpl; f_equal; lia|].
      split; [lia|].
      rewrite prefix_sum_cons, !prefix_sum_0; lia.
    + apply Z.ltb_ge in E.
      destruct (IH (acc + Z.of_nat x)%Z (S s)) as [k [Hg [Hk Hp]]]; [lia|].
      exists (S k); split; [rewrite Hg; f_equal; lia|].
      split; [lia|].
      rewrite (prefix_sum_cons x t k), (prefix_sum_cons x t (S k)); lia.
Qed.

Lemma lengths_cumsum_eq (values : list (list float)) :
  lengths_cumsum values
  = cumsum (map Z.of_nat (map (@length float) values)).
Proof. unfold lengths_cumsum; rewrite map_map; reflexivity. Qed.

Lemma length_lengths_cumsum (values : list (list float)) :
  length (lengths_cumsum values) = length values.
Proof.
  unfold lengths_cumsum, cumsum; rewrite length_cumsum_from; apply length_map.
Qed.

(** Inside the scan every flat position of the value array maps to a
    sample. *)
Lemma sample_index_total (values : list (list float)) (i : nat) :
  i < length (concat values) ->
  exists s,
    _sample_index_from_flatten_index (lengths_cumsum values) (Z.of_nat i) = Ok s
    /\ s < length values.
Proof.
  intros Hi; rewrite length_concat in Hi.
  destruct (first_exceeding_from (map (@length float) values) 0 (Z.of_nat i) 0)
    as [k [Hg [Hk _]]]; [lia|].
  exists k; rewrite lengths_cumsum_eq; split; [exact Hg|].
  rewrite length_map in Hk; exact Hk.
Qed.

(** C2.  For per-sample contribution lengths [L] and a flat index [f] with
    [0 <= f < sum L], the mapper applied to the cumulative sums of [L]
    returns a sample index [i] such that the samples before [i] contribute
    at most [f] values and those up to [i] more than [f]; [i] is the only
    index with this property, and it is the smallest position whose
    cumulative sum exceeds [f]. *)
Theorem sample_index_from_flatten_index_correct (L : list nat) (f : Z) :
  (0 <= f < Z.of_nat (list_sum L))%Z ->
  exists i,
    _sample_index_from_flatten_index (cumsum (map Z.of_nat L)) f = Ok i
    /\ i < length L
    /\ (prefix_sum L i <= f < prefix_sum L (S i))%Z
    /\ (forall j, (prefix_sum L j <= f < prefix_sum L (S j))%Z -> j = i)
    /\ (exists c, nth_error (cumsum (map Z.of_nat L)) i = Some c /\ (f < c)%Z)
    /\ (forall j c, j < i ->
          nth_error (cumsum (map Z.of_nat L)) j = Some c -> (c <= f)%Z).
Proof.
  intros Hf.
  destruct (first_exceeding_from L 0 f 0) as [i [Hg [Hi Hp]]]; [lia|].
  exists i; repeat split; try lia.
  - exact Hg.
  - intros j Hj.
    destruct (Nat.lt_trichotomy j i) as [Hlt | [Heq | Hgt]]; [|exact Heq|].
    + pose proof (prefix_sum_mono L (S j) i Hlt); lia.
    + pose proof (prefix_sum_mono L (S i) j Hgt); lia.
  - exists (prefix_sum L (S i)); split; [|lia].
    unfold cumsum; rewrite cumsum_from_nth by exact Hi; f_equal.
  - intros j c Hj Hn.
    unfold cumsum in Hn; rewrite cumsum_from_nth in Hn by lia.
    inversion Hn; subst c.
    pose proof (prefix_sum_mono L (S j) i Hj); lia.
Qed.

(** The example of the source comment: cumulative lengths
    [1; 6; 11; 13; 16; 20] and flat index 6 give the third sample. *)
Lemma sample_index_from_flatten_index_correct_witness :
  exists i,
    _sample_index_from_flatten_index
      (cumsum (map Z.of_nat [1; 5; 5; 2; 3; 4])) 6%Z = Ok i
    /\ i < 6
    /\ (prefix_sum [1; 5; 5; 2; 3; 4]%nat i <= 6
        < prefix_sum [1; 5; 5; 2; 3; 4]%nat (S i))%Z.
Proof.
  destruct (sample_index_from_flatten_index_correct [1; 5; 5; 2; 3; 4] 6%Z)
    as [i [H1 [H2 [H3 _]]]].
  - simpl; lia.
  - exists i; auto.
Defined.

Example sample_index_source_comment :
  _sample_index_from_flatten_index [1; 6; 11; 13; 16; 20]%Z 6%Z = Ok 2.
Proof. reflexivity. Qed.

Example sample_index_first_and_last :
  _sample_index_from_flatten_index [1; 6; 11; 13; 16; 20]%Z 0%Z = Ok 0
  /\ _sample_index_from_flatten_index [1; 6; 11; 13; 16; 20]%Z 19%Z = Ok 5
  /\ _sample_index_from_flatten_index [1; 6; 11; 13; 16; 20]%Z 20%Z = Raise IndexError.
Proof. repeat split. Qed.

End MapperFacts.

(* ----------------------------------------------------------------- *)
(** ** The property outlier scan *)

Module ScanFacts.
Import TextPropertyOutliers PyFacts NpFacts FloatFacts MapperFacts.

Lemma In_top_outliers (values_arr : list float) (upper : float) (i : nat) :
  In i (top_outliers values_arr upper) <->
  exists v, nth_error values_arr i = Some v /\ fgt v upper = true.
Proof.
  unfold top_outliers.
  set (top := argwhere (fun v => fgt v upper) values_arr).
  assert (Hperm : Permutation (take 0 top (argsort (take NaN values_arr top))) top)
    by (apply take_argsort_perm, length_take).
  rewrite <- (In_argwhere (fun v => fgt v upper) values_arr i); fold top.
  split; intros H.
  - exact (Permutation_in _ Hperm H).
  - exact (Permutation_in _ (Permutation_sym Hperm) H).
Qed.

Lemma In_bottom_outliers (values_arr : list float) (lower : float) (i : nat) :
  In i (bottom_outliers values_arr lower) <->
  exists v, nth_error values_arr i = Some v /\ flt v lower = true.
Proof.
  unfold bottom_outliers.
  set (bottom := argwhere (fun v => flt v lower) values_arr).
  assert (Hperm : Permutation (take 0 bottom (argsort (take NaN values_arr bottom))) bottom)
    by (apply take_argsort_perm, length_take).
  rewrite <- (In_argwhere (fun v => flt v lower) values_arr i); fold bottom.
  split; intros H.
  - exact (Permutation_in _ Hperm H).
  - exact (Permutation_in _ (Permutation_sym Hperm) H).
Qed.

Lemma In_outliers (values_arr : list float) (lower upper : float) (i : nat) :
  In i (bottom_outliers values_arr lower ++ top_outliers values_arr upper) <->
  exists v, nth_error values_arr i = Some v
            /\ (flt v lower = true \/ fgt v upper = true).
Proof.
  rewrite in_app_iff, In_bottom_outliers, In_top_outliers.
  split.
  - intros [[v [Hn Hv]] | [v [Hn Hv]]]; exists v; auto.
  - intros [v [Hn [Hv | Hv]]]; [left | right]; exists v; auto.
Qed.

Lemma outlier_position_lt (values_arr : list float) (lower upper : float) (i : nat) :
  In i (bottom_outliers values_arr lower ++ top_outliers values_arr upper) ->
  i < length values_arr.
Proof.
  rewrite In_outliers; intros [v [Hn _]].
  apply nth_error_Some; congruence.
Qed.


Section ScanProofs.
Variable iqr_outliers_range : list float -> Z * Z -> Q -> result (float * float).
Variable trim : string -> Z -> string.

Let scan_property := scan_property iqr_outliers_range trim.
Let scan_loop := scan_loop iqr_outliers_range trim.

Lemma corpus_item_total (dataset : TextData) (values : list (list float)) (i : nat) :
  length (text dataset) = length values ->
  i < length (concat values) ->
  exists r, corpus_item trim dataset values (lengths_cumsum values)
              (concat values) i = Ok r.
Proof.
  intros Htext Hi; unfold corpus_item.
  destruct (sample_index_total values i Hi) as [s [Hs Hlt]].
  rewrite Hs; simpl.
  unfold getitem at 1.
  rewrite (nth_error_nth' (concat values) NaN Hi); simpl.
  unfold getitem at 1.
  rewrite (nth_error_nth' (lengths_cumsum values) 0%Z)
    by (rewrite length_lengths_cumsum; exact Hlt); simpl.
  unfold getitem at 1.
  rewrite (nth_error_nth' values [] Hlt); simpl.
  unfold plot_text, getitem.
  rewrite (nth_error_nth' (text dataset) EmptyString) by (rewrite Htext; exact Hlt); simpl.
  eexists; reflexivity.
Qed.

Lemma In_slice_to {A : Type} (l : list A) (k : Z) (x : A) :
  In x (slice_to l k) -> In x l.
Proof.
  unfold slice_to; intros H.
  rewrite <- (firstn_skipn (slice_bound (length l) k) l).
  apply in_or_app; left; exact H.
Qed.

Lemma In_slice_from {A : Type} (l : list A) (k : Z) (x : A) :
  In x (slice_from l k) -> In x l.
Proof.
  unfold slice_from; intros H.
  rewrite <- (firstn_skipn (slice_bound (length l) k) l).
  apply in_or_app; right; exact H.
Qed.

Lemma mapM_getitem_total {A : Type} (l : list A) (idx : list nat) :
  (forall i, In i idx -> i < length l) ->
  exists r, mapM (getitem l) idx = Ok r.
Proof.
  intros H; apply mapM_total; intros i Hi.
  unfold getitem.
  destruct (nth_error l i) eqn:E; [eexists; reflexivity|].
  apply nth_error_None in E; specialize (H i Hi); lia.
Qed.

Lemma mapM_In {A B : Type} (f : A -> result B) (l : list A) (r : list B) (y : B) :
  mapM f l = Ok r -> In y r -> exists x, In x l /\ f x = Ok y.
Proof.
  revert r; induction l as [|x t IH]; simpl; intros r H Hy.
  - inversion H; subst; contradiction.
  - destruct (f x) as [y0|e] eqn:Efx; [|discriminate].
    destruct (mapM f t) as [ys|e]; [|discriminate].
    inversion H; subst r; destruct Hy as [<- | Hy].
    + exists x; auto.
    + destruct (IH ys eq_refl Hy) as [x' [Hx' Hf]]; exists x'; auto.
Qed.

(** When the estimator returns bounds for a property of a well-formed
    dataset (one text and one index label per sample, at least one value),
    the scan of the property returns an outlier record, built as follows. *)
Lemma scan_property_found (self : Check) (dataset : TextData) (col : column)
  (values : list (list float)) (lower upper : float) :
  wrap_values col = Ok values ->
  iqr_outliers_range (concat values) (iqr_percentiles self) (iqr_scale self)
  = Ok (lower, upper) ->
  concat values <> [] ->
  length (index dataset) = length values ->
  length (text dataset) = length values ->
  exists text_outliers ids lo hi,
    mapM (fun i => _sample_index_from_flatten_index (lengths_cumsum values)
                     (Z.of_nat i))
         (bottom_outliers (concat values) lower
          ++ top_outliers (concat values) upper) = Ok text_outliers
    /\ mapM (getitem (index dataset)) text_outliers = Ok ids
    /\ min_of (concat values) = Ok lo
    /\ max_of (concat values) = Ok hi
    /\ scan_property self dataset col
       = Ok (Found {| indices := ids;
                      lower_limit := max2 lower lo;
                      upper_limit := min2 upper hi |}).
Proof.
  intros Hwrap Hiqr Hne Hindex Htext.
  assert (Hmin : exists lo, min_of (concat values) = Ok lo)
    by (destruct (concat values); [congruence | eexists; reflexivity]).
  assert (Hmax : exists hi, max_of (concat values) = Ok hi)
    by (destruct (concat values); [congruence | eexists; reflexivity]).
  destruct Hmin as [lo Hlo], Hmax as [hi Hhi].
  set (arr := concat values) in *.
  set (flagged := bottom_outliers arr lower ++ top_outliers arr upper).
  destruct (mapM_total (corpus_item trim dataset values (lengths_cumsum values) arr)
              (slice_to (bottom_outliers arr lower) (n_show_top self)
               ++ slice_from (top_outliers arr upper) (- n_show_top self)%Z))
    as [corpus Hcorpus].
  { intros i Hi; apply corpus_item_total; [exact Htext|].
    apply (outlier_position_lt arr lower upper).
    apply in_app_or in Hi as [Hi | Hi]; apply in_or_app;
      [left; exact (In_slice_to _ _ _ Hi) | right; exact (In_slice_from _ _ _ Hi)]. }
  destruct (mapM_total
              (fun i => _sample_index_from_flatten_index (lengths_cumsum values)
                          (Z.of_nat i)) flagged)
    as [text_outliers Hto].
  { intros i Hi.
    destruct (sample_index_total values i (outlier_position_lt arr lower upper i Hi))
      as [s [Hs _]]; exists s; exact Hs. }
  destruct (mapM_getitem_total (index dataset) text_outliers) as [ids Hids].
  { intros s Hs.
    destruct (mapM_In _ _ _ _ Hto Hs) as [i [Hi Hmap]].
    destruct (sample_index_total values i (outlier_position_lt arr lower upper i Hi))
      as [s' [Hs' Hlt]].
    rewrite Hmap in Hs'; inversion Hs'; subst s'; rewrite Hindex; exact Hlt. }
  exists text_outliers, ids, lo, hi.
  repeat (split; [assumption|]).
  unfold scan_property, TextPropertyOutliers.scan_property.
  rewrite Hwrap; simpl; fold arr; rewrite Hiqr.
  fold flagged; rewrite Hcorpus; simpl.
  rewrite Hto; simpl; rewrite Hids; simpl; rewrite Hlo; simpl; rewrite Hhi; simpl.
  reflexivity.
Qed.

Lemma scan_property_found_inv (self : Check) (dataset : TextData) (col : column)
  (values : list (list float)) (lower upper : float) (r : outlier_record) :
  wrap_values col = Ok values ->
  iqr_outliers_range (concat values) (iqr_percentiles self) (iqr_scale self)
  = Ok (lower, upper) ->
  scan_property self dataset col = Ok (Found r) ->
  exists lo hi,
    min_of (concat values) = Ok lo
    /\ max_of (concat values) = Ok hi
    /\ lower_limit r = max2 lower lo
    /\ upper_limit r = min2 upper hi.
Proof.
  intros Hwrap Hiqr.
  unfold scan_property, TextPropertyOutliers.scan_property.
  rewrite Hwrap; simpl; rewrite Hiqr.
  destruct (mapM _ _) as [corpus|e]; simpl; [|discriminate].
  destruct (mapM _ _) as [text_outliers|e]; simpl; [|discriminate].
  destruct (mapM _ _) as [ids|e]; simpl; [|discriminate].
  destruct (min_of (concat values)) as [lo|e]; simpl; [|discriminate].
  destruct (max_of (concat values)) as [hi|e]; simpl; [|discriminate].
  intros H; inversion H; subst r; simpl.
  exists lo, hi; auto.
Qed.

(** What the clipping achieves when the first value is a number. *)
Lemma clipped_within_observed (arr : list float) (lower upper lo hi : float) :
  min_of arr = Ok lo -> max_of arr = Ok hi ->
  is_finite lower = true -> is_finite upper = true ->
  starts_with_number arr = true ->
  In lo arr /\ In hi arr
  /\ (forall v, In v arr -> is_finite v = true ->
        fle lo v = true /\ fle v hi = true)
  /\ fle lo (max2 lower lo) = true
  /\ fle (min2 upper hi) hi = true.
Proof.
  intros Hlo Hhi Hl Hu Hfirst.
  destruct arr as [|x t]; [discriminate|]; simpl in Hfirst.
  simpl in Hlo, Hhi; inversion Hlo; inversion Hhi; clear Hlo Hhi.
  destruct (fold_min2_spec t x Hfirst) as [Hmf [Hmin Hmle]].
  destruct (fold_max2_spec t x Hfirst) as [HMf [HMin HMle]].
  split; [exact Hmin|]; split; [exact HMin|]; split; [|split].
  - intros v Hv Hfin; split; [apply Hmle | apply HMle]; assumption.
  - apply (max2_ge_r lower _ Hl Hmf).
  - apply (min2_le_r upper _ Hu HMf).
Qed.

(** For a property on which the estimator returns [(lower, upper)], every
    outlier record that the scan produces reports
    [max(lower, min(values))] and [min(upper, max(values))], the builtins
    ranging over all flattened values, and on a well-formed dataset (one
    text and one index label per sample, at least one value) the scan does
    produce the record.  When the first value is a number, [min(values)]
    and [max(values)] are the least and the greatest observed number and
    the reported limits stay inside them. *)
Lemma limits_clipped_from_first_number (self : Check) (dataset : TextData)
  (col : column) (values : list (list float)) (lower upper : float) :
  wrap_values col = Ok values ->
  iqr_outliers_range (concat values) (iqr_percentiles self) (iqr_scale self)
  = Ok (lower, upper) ->
  (forall r, scan_property self dataset col = Ok (Found r) ->
     exists lo hi,
       min_of (concat values) = Ok lo
       /\ max_of (concat values) = Ok hi
       /\ lower_limit r = max2 lower lo
       /\ upper_limit r = min2 upper hi
       /\ (is_finite lower = true -> is_finite upper = true ->
           starts_with_number (concat values) = true ->
           In lo (concat values) /\ In hi (concat values)
           /\ (forall v, In v (concat values) -> is_finite v = true ->
                 fle lo v = true /\ fle v hi = true)
           /\ fle lo (lower_limit r) = true
           /\ fle (upper_limit r) hi = true))
  /\ (concat values <> [] ->
      length (index dataset) = length values ->
      length (text dataset) = length values ->
      exists r, scan_property self dataset col = Ok (Found r)).
Proof.
  intros Hwrap Hiqr; split.
  - intros r Hr.
    destruct (scan_property_found_inv self dataset col values lower upper r
                Hwrap Hiqr Hr) as [lo [hi [Hlo [Hhi [HL HU]]]]].
    exists lo, hi; repeat (split; [assumption|]).
    intros Hl Hu Hfirst; rewrite HL, HU.
    exact (clipped_within_observed _ _ _ _ _ Hlo Hhi Hl Hu Hfirst).
  - intros Hne Hindex Htext.
    destruct (scan_property_found self dataset col values lower upper
                Hwrap Hiqr Hne Hindex Htext)
      as [text_outliers [ids [lo [hi [_ [_ [_ [_ H]]]]]]]].
    eexists; exact H.
Qed.

(** C3 does not hold of the code when the first value of a property is
    null.  The builtins [min(values_arr)] and [max(values_arr)] then end on
    the null they started from, every comparison with it is false, and the
    record reports the bounds of the estimator as they are, whatever was
    observed; on a well-formed dataset the scan does produce that
    record. *)
Theorem leading_null_leaves_limits_unclipped (self : Check) (dataset : TextData)
  (col : column) (values : list (list float)) (rest : list float)
  (lower upper : float) :
  wrap_values col = Ok values ->
  concat values = NaN :: rest ->
  iqr_outliers_range (concat values) (iqr_percentiles self) (iqr_scale self)
  = Ok (lower, upper) ->
  (forall r, scan_property self dataset col = Ok (Found r) ->
     lower_limit r = lower /\ upper_limit r = upper)
  /\ (length (index dataset) = length values ->
      length (text dataset) = length values ->
      exists r, scan_property self dataset col = Ok (Found r)).
Proof.
  intros Hwrap Hnull Hiqr; split.
  - intros r Hr.
    destruct (scan_property_found_inv self dataset col values lower upper r
                Hwrap Hiqr Hr) as [lo [hi [Hlo [Hhi [HL HU]]]]].
    rewrite Hnull in Hlo, Hhi; simpl in Hlo, Hhi.
    rewrite fold_min2_NaN in Hlo; rewrite fold_max2_NaN in Hhi.
    inversion Hlo; inversion Hhi; subst lo hi.
    rewrite HL, HU; unfold max2, min2, fgt.
    destruct lower, upper; auto.
  - intros Hindex Htext.
    destruct (scan_property_found self dataset col values lower upper
                Hwrap Hiqr) as [text_outliers [ids [lo [hi [_ [_ [_ [_ H]]]]]]]];
      [rewrite Hnull; discriminate | exact Hindex | exact Htext |].
    eexists; exact H.
Qed.

End ScanProofs.

(** The scan of the sample dataset: one outlier in the text lengths, no
    estimate for the sentiment, one outlier among the word lengths. *)
Example scan_of_sample_dataset :
  ScanSamples.scan
  = Ok [("Text Length",
         Found {| indices := [LInt 109];
                  lower_limit := Fin (inject_Z 10);
                  upper_limit := Fin (151 # 8) |});
        ("Sentiment", Message not_enough_message);
        ("Word Lengths",
         Found {| indices := [LInt 103];
                  lower_limit := Fin (inject_Z 3);
                  upper_limit := Fin (13 # 2) |})].
Proof. vm_compute; reflexivity. Qed.

(** Ten text lengths behind a first one that is unknown: the estimator
    has its ten values and returns 7.875 and 18.875; the least observed
    length is 10, and the reported lower limit is the estimator's
    7.875. *)
Lemma leading_null_leaves_limits_unclipped_witness :
  scan_property ScanSamples.estimator ScanSamples.trim default_check
    ScanSamples.null_first_data ScanSamples.null_first_col
  = Ok (Found {| indices := [LInt 110];
                 lower_limit := Fin (63 # 8);
                 upper_limit := Fin (151 # 8) |})
  /\ min_of (map ScanSamples.F [10; 11; 12; 12; 13; 13; 14; 15; 16; 90]%Z)
     = Ok (Fin (inject_Z 10)).
Proof.
  split; [|reflexivity].
  pose proof (leading_null_leaves_limits_unclipped ScanSamples.estimator
                ScanSamples.trim default_check ScanSamples.null_first_data
                ScanSamples.null_first_col
                (map (fun x => [x])
                   (NaN :: map ScanSamples.F
                             [10; 11; 12; 12; 13; 13; 14; 15; 16; 90]%Z))
                (map ScanSamples.F [10; 11; 12; 12; 13; 13; 14; 15; 16; 90]%Z)
                (Fin (63 # 8)) (Fin (151 # 8))) as H.
  destruct H as [Hlimits Hfound];
    [reflexivity | reflexivity | vm_compute; reflexivity |].
  destruct Hfound as [r Hr]; [reflexivity | reflexivity |].
  destruct (Hlimits r Hr) as [HL HU].
  rewrite Hr; destruct r as [ids lo hi]; simpl in HL, HU; subst lo hi.
  assert (Hids : ids = [LInt 110]).
  { vm_compute in Hr; inversion Hr; reflexivity. }
  rewrite Hids; reflexivity.
Defined.

(** The same lengths without the unknown one: the lower limit is
    clipped to the least observed length. *)
Example limits_clipped_on_sample_lengths :
  scan_property ScanSamples.estimator ScanSamples.trim default_check
    ScanSamples.data ScanSamples.lengths_col
  = Ok (Found {| indices := [LInt 109];
                 lower_limit := Fin (inject_Z 10);
                 upper_limit := Fin (151 # 8) |}).
Proof. vm_compute; reflexivity. Qed.

End ScanFacts.

(* ----------------------------------------------------------------- *)
(** ** Task inference *)

Module TaskInferenceFacts.
Import TaskInference.

(** C10.  When the class list that [get_possible_classes] resolves has
    exactly one class, [infer_task_type] returns multiclass (so neither
    binary nor regression); it returns regression exactly when no class
    list is resolved ([None]). *)
Theorem single_class_is_multiclass
  (is_string_column : option (list (option Z)) -> bool)
  (is_categorical : list (option Z) -> Q -> bool)
  (doclink : string -> string -> string)
  (model : option Model) (train_dataset test_dataset : option Dataset) :
  (forall c,
     get_possible_classes is_string_column is_categorical doclink model
       train_dataset test_dataset false = Ok (Some [c]) ->
     infer_task_type is_string_column is_categorical doclink model
       train_dataset test_dataset = Ok MULTICLASS)
  /\ (infer_task_type is_string_column is_categorical doclink model
        train_dataset test_dataset = Ok REGRESSION
      <-> get_possible_classes is_string_column is_categorical doclink model
            train_dataset test_dataset false = Ok None).
Proof.
  unfold infer_task_type.
  destruct (get_possible_classes is_string_column is_categorical doclink model
              train_dataset test_dataset false) as [[cs|]|e]; simpl.
  - split.
    + intros c H; inversion H; reflexivity.
    + destruct (length cs =? 2); split; discriminate.
  - split; [discriminate | split; reflexivity].
  - split; [discriminate | split; discriminate].
Qed.

(** A train dataset whose three labels are all the same class. *)
Lemma single_class_is_multiclass_witness :
  infer_task_type (fun _ => false) (fun _ _ => true) (fun _ t => t) None
    (Some (TabularSamples.dataset [1; 1; 1]%Z)) None = Ok MULTICLASS.
Proof.
  refine (proj1 (single_class_is_multiclass (fun _ => false) (fun _ _ => true)
                   (fun _ t => t) None
                   (Some (TabularSamples.dataset [1; 1; 1]%Z)) None)
            1%Z _).
  vm_compute; reflexivity.
Defined.

Example two_classes_are_binary :
  infer_task_type (fun _ => false) (fun _ _ => true) (fun _ t => t) None
    (Some (TabularSamples.dataset [0; 1; 1]%Z)) None = Ok BINARY.
Proof. reflexivity. Qed.

Example no_classes_are_regression :
  infer_task_type (fun _ => false) (fun _ _ => false) (fun _ t => t) None
    (Some (TabularSamples.dataset [3; 1; 4]%Z)) None = Ok REGRESSION.
Proof. reflexivity. Qed.

End TaskInferenceFacts.

(* ----------------------------------------------------------------- *)
(** ** Context construction *)

Module ContextFacts.
Import StaticPredictions TabularContext.

Lemma list_eqb_eq (a b : list Z) : list_eqb a b = true <-> a = b.
Proof.
  unfold list_eqb; destruct (list_eq_dec Z.eq_dec a b); split; intros H;
    congruence.
Qed.

Lemma insert_sorted (x : Z) (l : list Z) :
  Sorted Z.le l -> Sorted Z.le (insert Z.leb x l).
Proof.
  induction l as [|y t IH]; simpl; intros Hs.
  - repeat constructor.
  - destruct (x <=? y)%Z eqn:E.
    + apply Z.leb_le in E; constructor; [exact Hs | constructor; exact E].
    + apply Z.leb_gt in E.
      apply Sorted_inv in Hs as [Ht Hhd].
      constructor; [apply IH; exact Ht|].
      destruct t as [|z t]; simpl.
      * constructor; lia.
      * destruct (x <=? z)%Z; constructor; [lia|].
        apply HdRel_inv in Hhd; exact Hhd.
Qed.

Lemma isort_sorted (l : list Z) : Sorted Z.le (isort Z.leb l).
Proof.
  induction l as [|x t IH]; simpl; [constructor | apply insert_sorted, IH].
Qed.

Lemma isort_of_sorted (l : list Z) : Sorted Z.le l -> isort Z.leb l = l.
Proof.
  induction 1 as [|a l Hs IH Hhd]; simpl; [reflexivity|].
  rewrite IH.
  destruct Hhd as [|b l Hab]; simpl; [reflexivity|].
  apply Z.leb_le in Hab; rewrite Hab; reflexivity.
Qed.

(** [sorted(l) == l] says that [l] is in ascending order, repeats
    allowed. *)
Lemma sorted_fixpoint_iff (l : list Z) :
  list_eqb (sorted l) l = true <-> Sorted Z.le l.
Proof.
  rewrite list_eqb_eq; unfold sorted; split.
  - intros H; rewrite <- H; apply isort_sorted.
  - apply isort_of_sorted.
Qed.

Section InitProofs.
Variable X : Collaborators.

Lemma validate_inputs_ok (a : Args) (tr te : option Dataset) (fi : option (list Q)) :
  validate_inputs X a = Ok (tr, te, fi) ->
  tr = named_train X a /\ te = named_test X a.
Proof.
  unfold validate_inputs.
  destruct (raise_unless _ _); simpl; [|discriminate].
  destruct (match named_train X a with
            | Some _ => _ | None => _ end); simpl; [|discriminate].
  destruct (raise_unless _ _); simpl; [|discriminate].
  destruct (match model a with Some _ => _ | None => _ end); simpl;
    [|discriminate].
  destruct (match feature_importance a with Some _ => _ | None => _ end);
    simpl; [|discriminate].
  intros H; inversion H; auto.
Qed.

(** What a successful construction went through. *)
Lemma Context_init_ok (a : Args) (w : list string) (ctx : Context) :
  Context_init X a = (w, Ok ctx) ->
  exists fi,
    validate_inputs X a = Ok (named_train X a, named_test X a, fi)
    /\ check_model_classes X (model_classes a) = Ok tt
    /\ _task_type ctx
       = snd (fst (resolve_task X a (named_train X a) (named_test X a)))
    /\ _model_classes ctx = resolved_classes a.
Proof.
  unfold Context_init.
  destruct (validate_inputs X a) as [[[tr te] fi]|e] eqn:Hv; [|discriminate].
  destruct (validate_inputs_ok a tr te fi Hv) as [-> ->].
  destruct (check_model_classes X (model_classes a)) as [[]|e]; [|discriminate].
  assert (Hmc : fst (fst (resolve_task X a (named_train X a) (named_test X a)))
                = resolved_classes a).
  { unfold resolve_task.
    destruct (declared_type X (named_train X a)); [reflexivity|].
    destruct (truthy_opt (resolved_classes a)); reflexivity. }
  destruct (resolve_task X a (named_train X a) (named_test X a))
    as [[mc task] labels]; simpl in *.
  intros H; exists fi; split; [reflexivity|]; split; [reflexivity|].
  destruct (model a).
  - inversion H; subst; simpl; auto.
  - destruct (is_some (y_pred_train a) || is_some (y_pred_test a)
              || is_some (y_proba_train a) || is_some (y_proba_test a)).
    + inversion H as [[Hw Hr]]; clear H.
      destruct (out_model _) as [d|e]; [|discriminate].
      inversion Hr; subst; simpl; auto.
    + inversion H; subst; simpl; auto.
Qed.

(** C4.  The task type of a constructed context follows the precedence:
    a label type declared by the train dataset is the task type;
    otherwise a non-empty resolved class list decides by its size (2
    classes binary, more than 2 multiclass); otherwise the observed labels
    decide: categorical labels with 2 classes give binary, with 3 or more
    multiclass, and no observed label at all gives regression. *)
Theorem task_type_resolution_precedence (a : Args) (w : list string)
  (ctx : Context) :
  Context_init X a = (w, Ok ctx) ->
  let labels :=
    get_all_labels (model a) (named_train X a) (named_test X a)
      (y_pred_train a) (y_pred_test a) in
  (forall tr t,
     named_train X a = Some tr -> dataset_bool X tr = true ->
     label_type tr = Some t -> _task_type ctx = t)
  /\ (declared_type X (named_train X a) = None ->
      forall cls, resolved_classes a = Some cls -> cls <> [] ->
        _task_type ctx = infer_task_type_by_class_number (length cls)
        /\ (length cls = 2 -> _task_type ctx = BINARY)
        /\ (2 < length cls -> _task_type ctx = MULTICLASS))
  /\ (declared_type X (named_train X a) = None ->
      truthy_opt (resolved_classes a) = false ->
        _task_type ctx = infer_task_type_by_labels (is_categorical X) labels
        /\ (is_categorical X labels 0.05%Q = true ->
            length (unique (dropna labels)) = 2 -> _task_type ctx = BINARY)
        /\ (is_categorical X labels 0.05%Q = true ->
            3 <= length (unique (dropna labels)) -> _task_type ctx = MULTICLASS)
        /\ (unique (dropna labels) = [] -> _task_type ctx = REGRESSION)).
Proof.
  intros Hinit labels.
  destruct (Context_init_ok a w ctx Hinit) as [fi [_ [_ [Htask _]]]].
  unfold resolve_task in Htask; fold labels in Htask.
  split; [|split].
  - intros tr t Htr Hb Ht.
    unfold declared_type in Htask; rewrite Htr, Hb, Ht in Htask; exact Htask.
  - intros Hdecl cls Hcls Hne.
    rewrite Hdecl, Hcls in Htask.
    destruct cls as [|c cls]; [contradiction|].
    change (truthy_opt (Some (c :: cls))) with true in Htask.
    cbn [fst snd] in Htask.
    set (n := length (c :: cls)) in *.
    split; [exact Htask|]; rewrite Htask; unfold infer_task_type_by_class_number.
    split; intros Hlen.
    + rewrite Hlen; reflexivity.
    + destruct (n =? 2) eqn:E; [|reflexivity].
      apply Nat.eqb_eq in E; lia.
  - intros Hdecl Hfalsy.
    rewrite Hdecl, Hfalsy in Htask; cbn [fst snd] in Htask.
    split; [exact Htask|]; rewrite Htask; unfold infer_task_type_by_labels.
    split; [|split].
    + intros Hcat Hlen.
      destruct (unique (dropna labels)) as [|c cs]; [discriminate|].
      rewrite Hcat; unfold infer_task_type_by_class_number.
      rewrite Hlen; reflexivity.
    + intros Hcat Hlen.
      destruct (unique (dropna labels)) as [|c cs]; [simpl in Hlen; lia|].
      rewrite Hcat; unfold infer_task_type_by_class_number.
      set (n := length (c :: cs)) in *.
      destruct (n =? 2) eqn:E; [|reflexivity].
      apply Nat.eqb_eq in E; lia.
    + intros ->; reflexivity.
Qed.

Lemma check_sorted_classes (l : list Z) :
  Sorted Z.le l -> check_model_classes X (Some l) = Ok tt.
Proof.
  intros Hs; apply sorted_fixpoint_iff in Hs.
  unfold check_model_classes; destruct l as [|c l]; [reflexivity|].
  change (truthy_opt (Some (c :: l))) with true.
  cbn [length Nat.eqb andb Py.bind]; rewrite Hs; reflexivity.
Qed.

Lemma check_unsorted_classes (l : list Z) :
  ~ Sorted Z.le l ->
  check_model_classes X (Some l)
  = Raise (DeepchecksValueError (unsorted_classes_message X)).
Proof.
  intros Hs.
  assert (Hne : list_eqb (sorted l) l = false).
  { destruct (list_eqb (sorted l) l) eqn:E; [|reflexivity].
    apply sorted_fixpoint_iff in E; contradiction. }
  unfold check_model_classes; destruct l as [|c l].
  - exfalso; apply Hs; constructor.
  - change (truthy_opt (Some (c :: l))) with true.
    cbn [length Nat.eqb andb Py.bind]; rewrite Hne; reflexivity.
Qed.

(** C8, as the code has it.  An explicit [model_classes] that is not in
    ascending order is rejected: the class-list check raises the
    unsorted-classes error, so construction fails, with that error
    whenever the earlier validations pass.  A list in ascending order,
    repeated classes included, passes the check. *)
Theorem unsorted_model_classes_rejected (a : Args) (l : list Z) :
  model_classes a = Some l ->
  (~ Sorted Z.le l ->
     check_model_classes X (Some l)
     = Raise (DeepchecksValueError (unsorted_classes_message X))
     /\ (exists e, Context_init X a = ([], Raise e))
     /\ (forall r, validate_inputs X a = Ok r ->
           Context_init X a
           = ([], Raise (DeepchecksValueError (unsorted_classes_message X)))))
  /\ (Sorted Z.le l -> check_model_classes X (Some l) = Ok tt).
Proof.
  intros Hmc; split; [|apply check_sorted_classes].
  intros Hs; pose proof (check_unsorted_classes l Hs) as Hc.
  split; [exact Hc|].
  unfold Context_init; rewrite Hmc, Hc.
  split.
  - destruct (validate_inputs X a) as [[[tr te] fi]|e]; eexists; reflexivity.
  - intros [[tr te] fi] ->; reflexivity.
Qed.

(** C9, as the code has it.  The test for an empty class list sits behind
    the truth value of the list, which is false for the empty list: the
    check lets [[]] through, no class list at all makes it raise the
    empty-classes error, and a construction without static predictions
    whose other validations pass succeeds and keeps [[]] as its class
    list. *)
Theorem empty_model_classes_pass_the_check :
  check_model_classes X (Some []) = Ok tt
  /\ (forall model_classes,
        check_model_classes X model_classes
        <> Raise (DeepchecksValueError empty_classes_message))
  /\ (forall a r,
        model_classes a = Some [] -> validate_inputs X a = Ok r ->
        y_pred_train a = None -> y_pred_test a = None ->
        y_proba_train a = None -> y_proba_test a = None ->
        exists ctx,
          Context_init X a = ([], Ok ctx) /\ _model_classes ctx = Some []).
Proof.
  split; [reflexivity|]; split.
  - intros [[|c l]|]; unfold check_model_classes; try discriminate.
    change (truthy_opt (Some (c :: l))) with true.
    cbn [length Nat.eqb andb Py.bind].
    destruct (list_eqb _ _); cbn [negb]; [discriminate|].
    unfold unsorted_classes_message, empty_classes_message; simpl.
    intros H; inversion H.
  - intros a r Hmc Hv H1 H2 H3 H4.
    assert (Hex : exists ctx, Context_init X a = ([], Ok ctx)).
    { unfold Context_init; rewrite Hv.
      destruct r as [[tr te] fi]; rewrite Hmc.
      change (check_model_classes X (Some [])) with (Ok (A := unit) tt).
      destruct (resolve_task X a tr te) as [[mc task] labels].
      rewrite H1, H2, H3, H4.
      destruct (model a); eexists; reflexivity. }
    destruct Hex as [ctx Hctx]; exists ctx; split; [exact Hctx|].
    destruct (Context_init_ok a [] ctx Hctx) as [fi [_ [_ [_ Hcls]]]].
    rewrite Hcls; unfold resolved_classes; rewrite Hmc; reflexivity.
Qed.

End InitProofs.

End ContextFacts.

(* ----------------------------------------------------------------- *)
(** ** Context construction on sample inputs *)

Module ContextExamples.
Import StaticPredictions TabularContext TabularSamples ContextFacts.

Example two_observed_classes_binary :
  task_type_of (Context_init lenient (args (Some (dataset [0; 1; 1]%Z)) None))
  = Some BINARY.
Proof. reflexivity. Qed.

Example three_observed_classes_multiclass :
  task_type_of (Context_init lenient (args (Some (dataset [0; 1; 2]%Z)) None))
  = Some MULTICLASS.
Proof. reflexivity. Qed.

Example no_label_regression :
  task_type_of (Context_init lenient (args (Some unlabelled) None))
  = Some REGRESSION.
Proof. reflexivity. Qed.

Example declared_type_wins :
  task_type_of
    (Context_init lenient
       (args (Some (declared REGRESSION (dataset [0; 1; 1]%Z)))
             (Some [0; 1; 2]%Z)))
  = Some REGRESSION.
Proof. reflexivity. Qed.

Example class_list_beats_labels :
  task_type_of
    (Context_init lenient (args (Some (dataset [0; 1; 1]%Z)) (Some [0; 1; 2]%Z)))
  = Some MULTICLASS.
Proof. reflexivity. Qed.

Lemma task_type_resolution_precedence_witness :
  match Context_init lenient (args (Some (dataset [0; 1; 1]%Z)) None) with
  | (_, Ok ctx) => _task_type ctx = BINARY
  | (_, Raise _) => False
  end.
Proof.
  destruct (Context_init lenient (args (Some (dataset [0; 1; 1]%Z)) None))
    as [w [ctx|e]] eqn:E.
  - refine (proj1 (proj2 (proj2 (proj2
              (task_type_resolution_precedence lenient
                 (args (Some (dataset [0; 1; 1]%Z)) None) w ctx E)) _ _)) _ _);
      vm_compute; reflexivity.
  - vm_compute in E; discriminate.
Defined.

(** [model_classes=[2,1,0]] is refused. *)
Lemma unsorted_model_classes_rejected_witness :
  Context_init lenient (args (Some (dataset [0; 1; 1]%Z)) (Some [2; 1; 0]%Z))
  = ([], Raise (DeepchecksValueError (unsorted_classes_message lenient))).
Proof.
  refine (proj2 (proj2 (proj1
            (unsorted_model_classes_rejected lenient
               (args (Some (dataset [0; 1; 1]%Z)) (Some [2; 1; 0]%Z))
               [2; 1; 0]%Z eq_refl) _))
            (Some (with_name (dataset [0; 1; 1]%Z) "Train"), None, None) _).
  - intros H; apply Sorted_inv in H as [_ H]; apply HdRel_inv in H; lia.
  - vm_compute; reflexivity.
Defined.

(** [model_classes=[0,1,2]] is accepted. *)
Example sorted_model_classes_accepted :
  is_ok (snd (Context_init lenient
                (args (Some (dataset [0; 1; 1]%Z)) (Some [0; 1; 2]%Z))))
  = true.
Proof. reflexivity. Qed.

(** C8 as stated fails: [[0; 0; 1]] is not strictly ascending, and the
    construction accepts it and keeps it as the class list. *)
Lemma repeated_classes_accepted :
  ~ Sorted Z.lt [0; 0; 1]%Z
  /\ exists ctx,
       Context_init lenient
         (args (Some (dataset [0; 1; 1]%Z)) (Some [0; 0; 1]%Z)) = ([], Ok ctx)
       /\ _model_classes ctx = Some [0; 0; 1]%Z.
Proof.
  split.
  - intros H; apply Sorted_inv in H as [_ H]; apply HdRel_inv in H; lia.
  - eexists; split; reflexivity.
Qed.

(** C9 at a concrete input: a train dataset and [model_classes=[]]. *)
Lemma empty_model_classes_pass_the_check_witness :
  exists ctx,
    Context_init lenient (args (Some (dataset [0; 1; 1]%Z)) (Some []))
    = ([], Ok ctx)
    /\ _model_classes ctx = Some [].
Proof.
  refine (proj2 (proj2 (empty_model_classes_pass_the_check lenient))
            (args (Some (dataset [0; 1; 1]%Z)) (Some []))
            (Some (with_name (dataset [0; 1; 1]%Z) "Train"), None, None)
            eq_refl _ eq_refl eq_refl eq_refl eq_refl).
  vm_compute; reflexivity.
Defined.

End ContextExamples.

(* ----------------------------------------------------------------- *)
(** ** The static-prediction adapter *)

Module AdapterFacts.
Import StaticPredictions TabularSamples.

Lemma label_eqb_eq (a b : label) : label_eqb a b = true <-> a = b.
Proof.
  destruct a as [x|s], b as [y|t]; simpl.
  - rewrite Z.eqb_eq; split; congruence.
  - split; discriminate.
  - split; discriminate.
  - rewrite String.eqb_eq; split; congruence.
Qed.

Lemma label_eqb_refl (a : label) : label_eqb a a = true.
Proof. apply label_eqb_eq; reflexivity. Qed.

Lemma mem_In (x : label) (l : list label) : mem x l = true <-> In x l.
Proof.
  unfold mem; rewrite existsb_exists; split.
  - intros [y [Hy Heq]]; apply label_eqb_eq in Heq; subst; exact Hy.
  - intros H; exists x; split; [exact H | apply label_eqb_refl].
Qed.

Lemma sets_intersect_iff (a b : list label) :
  sets_intersect a b = true <-> exists x, In x a /\ In x b.
Proof.
  unfold sets_intersect; rewrite existsb_exists; split.
  - intros [x [Ha Hb]]; exists x; split; [exact Ha | apply mem_In; exact Hb].
  - intros [x [Ha Hb]]; exists x; split; [exact Ha | apply mem_In; exact Hb].
Qed.

Lemma issubset_iff (a b : list label) :
  issubset a b = true <-> incl a b.
Proof.
  unfold issubset; rewrite forallb_forall; split.
  - intros H x Hx; apply mem_In, H, Hx.
  - intros H x Hx; apply mem_In, H, Hx.
Qed.

Lemma index_of_set_index {R : Type} (df : indexed R) (labels : list label) :
  length labels = length df ->
  index_of (set_index df labels) = labels
  /\ map snd (set_index df labels) = map snd df.
Proof.
  unfold index_of, set_index; revert labels.
  induction df as [|r df IH]; intros [|x labels] Hlen; simpl in *;
    try discriminate; [auto|].
  destruct (IH labels) as [H1 H2]; [lia|].
  rewrite H1, H2; auto.
Qed.

(** Rewriting the index of a dataset renames its rows and nothing else. *)
Lemma reindex_spec (f : label -> label) (d : Dataset) :
  index_of (data (reindex f d)) = map f (index_of (data d))
  /\ map snd (data (reindex f d)) = map snd (data d)
  /\ length (data (reindex f d)) = length (data d)
  /\ features (reindex f d) = features d
  /\ label_col (reindex f d) = label_col d.
Proof.
  unfold reindex; simpl.
  destruct (index_of_set_index (data d) (map f (index_of (data d)))) as [H1 H2].
  { unfold index_of; rewrite !length_map; reflexivity. }
  split; [exact H1|]; split; [exact H2|]; split; [|auto].
  rewrite <- (length_map snd), H2; apply length_map.
Qed.

Section AdapterProofs.
Variable validate_proba : proba -> option (list Z) -> result unit.
Variable ensure_predictions_shape : ndarray -> DataFrame -> result unit.
Variable ensure_predictions_proba : proba -> ndarray -> result unit.

Let store_role :=
  store_role validate_proba ensure_predictions_shape ensure_predictions_proba.
Let build := build validate_proba ensure_predictions_shape ensure_predictions_proba.
Let _DummyModel_init :=
  _DummyModel_init validate_proba ensure_predictions_shape
    ensure_predictions_proba.

Lemma store_role_ok (mc : option (list Z)) (d : option Dataset)
  (y_pred : option ndarray) (acc : stores) :
  (forall y df, ensure_predictions_shape y df = Ok tt) ->
  match d with Some ds => pred_fits y_pred ds | None => True end ->
  exists acc', store_role mc d y_pred None acc = Ok acc'.
Proof.
  intros Hshape Hfit.
  unfold store_role, StaticPredictions.store_role.
  destruct d as [ds|]; [|eexists; reflexivity].
  destruct acc as [[features preds] probs].
  destruct y_pred as [[xs|rows]|]; simpl in Hfit; try contradiction; simpl.
  - rewrite Hshape; simpl.
    unfold index_of; rewrite length_map, Hfit, Nat.eqb_refl; simpl.
    eexists; reflexivity.
  - eexists; reflexivity.
Qed.

(** Without probabilities, with well-shaped predictions and a shape
    validator that accepts them, the adapter is built. *)
Lemma build_ok (train test : option Dataset) (y_pred_train y_pred_test : option ndarray)
  (validate : bool) (mc : option (list Z)) :
  (forall y df, ensure_predictions_shape y df = Ok tt) ->
  match train with Some ds => pred_fits y_pred_train ds | None => True end ->
  match test with Some ds => pred_fits y_pred_test ds | None => True end ->
  exists d, build train test y_pred_train y_pred_test None None validate mc = Ok d.
Proof.
  intros Hshape Htr Hte; unfold build, StaticPredictions.build.
  destruct (store_role_ok mc train y_pred_train ([], [], []) Hshape Htr)
    as [acc1 H1].
  unfold store_role in H1; rewrite H1; simpl.
  destruct (store_role_ok mc test y_pred_test acc1 Hshape Hte) as [acc2 H2].
  unfold store_role in H2; rewrite H2; simpl.
  destruct acc2 as [[features preds] probs]; eexists; reflexivity.
Qed.

Lemma pred_fits_reindex (f : label -> label) (y : option ndarray) (d : Dataset) :
  pred_fits y d -> pred_fits y (reindex f d).
Proof.
  destruct (reindex_spec f d) as [_ [_ [Hlen _]]].
  destruct y as [[xs|rows]|]; simpl; auto.
  intros H; rewrite H; symmetry; exact Hlen.
Qed.

Lemma prefixed_labels (prefix : string) (idx : list label) (i : nat) :
  (forall z, nth_error idx i = Some (LInt z) ->
     nth_error (map (fun x => LStr (prefix ++ str x)) idx) i
     = Some (LStr (prefix ++ NilZero.string_of_int (Z.to_int z))))
  /\ (forall t, nth_error idx i = Some (LStr t) ->
        nth_error (map (fun x => LStr (prefix ++ str x)) idx) i
        = Some (LStr (prefix ++ t))).
Proof.
  split; intros x H; rewrite nth_error_map, H; reflexivity.
Qed.

(** C6.  Built on a train and a test dataset whose row indices have a
    label in common, the adapter renames the rows of both datasets, label
    by label and in place: the row of train labelled with the integer [z]
    gets the string ['train-'] followed by the decimal writing of [z], the
    row labelled with the string [t] gets ['train-' ++ t], and likewise
    with ['test-'] for the rows of test; the rows keep their cells.  It
    logs one warning and goes on exactly as it would on the renamed
    datasets: the collision raises nothing, and with well-shaped
    predictions the construction succeeds.  On datasets with no label in
    common the datasets are left as they are and nothing is logged. *)
Theorem common_index_gets_role_prefixes (tr te : Dataset)
  (y_proba_test : option proba) (y_pred_test y_pred_train : option ndarray)
  (y_proba_train : option proba) (validate : bool) (mc : option (list Z)) :
  let built :=
    _DummyModel_init (Some te) y_proba_test y_pred_test
      (Some tr) y_pred_train y_proba_train validate mc in
  ((exists x, In x (index_of (data tr)) /\ In x (index_of (data te))) ->
     exists tr' te',
       out_train built = Some tr' /\ out_test built = Some te'
       /\ length (index_of (data tr')) = length (index_of (data tr))
       /\ length (index_of (data te')) = length (index_of (data te))
       /\ (forall i z,
             nth_error (index_of (data tr)) i = Some (LInt z) ->
             nth_error (index_of (data tr')) i
             = Some (LStr ("train-" ++ NilZero.string_of_int (Z.to_int z))))
       /\ (forall i t,
             nth_error (index_of (data tr)) i = Some (LStr t) ->
             nth_error (index_of (data tr')) i = Some (LStr ("train-" ++ t)))
       /\ (forall i z,
             nth_error (index_of (data te)) i = Some (LInt z) ->
             nth_error (index_of (data te')) i
             = Some (LStr ("test-" ++ NilZero.string_of_int (Z.to_int z))))
       /\ (forall i t,
             nth_error (index_of (data te)) i = Some (LStr t) ->
             nth_error (index_of (data te')) i = Some (LStr ("test-" ++ t)))
       /\ map snd (data tr') = map snd (data tr)
       /\ map snd (data te') = map snd (data te)
       /\ out_warnings built = [common_index_warning]
       /\ out_model built
          = build (Some tr') (Some te') y_pred_train y_pred_test
              y_proba_train y_proba_test validate mc)
  /\ ((forall x, In x (index_of (data tr)) -> ~ In x (index_of (data te))) ->
      out_train built = Some tr /\ out_test built = Some te
      /\ out_warnings built = []
      /\ out_model built
         = build (Some tr) (Some te) y_pred_train y_pred_test
             y_proba_train y_proba_test validate mc)
  /\ (y_proba_train = None -> y_proba_test = None ->
      pred_fits y_pred_train tr -> pred_fits y_pred_test te ->
      (forall y df, ensure_predictions_shape y df = Ok tt) ->
      exists d, out_model built = Ok d).
Proof.
  intros built; subst built.
  unfold _DummyModel_init, StaticPredictions._DummyModel_init,
    prefix_common_index.
  destruct (sets_intersect (index_of (data tr)) (index_of (data te))) eqn:E.
  - split; [|split].
    + intros _.
      destruct (reindex_spec train_prefix tr) as [H1 [H2 _]].
      destruct (reindex_spec test_prefix te) as [H3 [H4 _]].
      exists (reindex train_prefix tr), (reindex test_prefix te).
      cbn [out_train out_test out_warnings out_model].
      rewrite H1, H3, H2, H4, !length_map.
      repeat (split; [reflexivity|]).
      split; [intros i z; apply (prefixed_labels "train-")|].
      split; [intros i t; apply (prefixed_labels "train-")|].
      split; [intros i z; apply (prefixed_labels "test-")|].
      split; [intros i t; apply (prefixed_labels "test-")|].
      repeat split; reflexivity.
    + intros Hdisj; apply sets_intersect_iff in E as [x [Ha Hb]].
      exfalso; exact (Hdisj x Ha Hb).
    + intros -> -> Htr Hte Hshape; simpl.
      apply build_ok; [exact Hshape | |]; apply pred_fits_reindex; assumption.
  - split; [|split].
    + intros Hex; apply sets_intersect_iff in Hex; congruence.
    + intros _; simpl; auto.
    + intros -> -> Htr Hte Hshape; simpl.
      apply build_ok; assumption.
Qed.

End AdapterProofs.

(** Train and test on the identifiers 0, 1, 2: the rows are renamed
    train-0, train-1, train-2 and test-0, test-1, test-2, one warning is
    logged and the construction succeeds. *)
Lemma common_index_gets_role_prefixes_witness :
  exists tr' te' d,
    out_train
      (_DummyModel_init (fun _ _ => Ok tt) (fun _ _ => Ok tt) (fun _ _ => Ok tt)
         (Some (dataset [1; 0; 1]%Z)) None (Some (Arr1 [1; 0; 1]%Z))
         (Some (dataset [0; 1; 1]%Z)) (Some (Arr1 [0; 1; 0]%Z)) None true None)
    = Some tr'
    /\ out_test
         (_DummyModel_init (fun _ _ => Ok tt) (fun _ _ => Ok tt)
            (fun _ _ => Ok tt)
            (Some (dataset [1; 0; 1]%Z)) None (Some (Arr1 [1; 0; 1]%Z))
            (Some (dataset [0; 1; 1]%Z)) (Some (Arr1 [0; 1; 0]%Z)) None true
            None)
       = Some te'
    /\ index_of (data tr') = [LStr "train-0"; LStr "train-1"; LStr "train-2"]
    /\ index_of (data te') = [LStr "test-0"; LStr "test-1"; LStr "test-2"]
    /\ out_warnings
         (_DummyModel_init (fun _ _ => Ok tt) (fun _ _ => Ok tt)
            (fun _ _ => Ok tt)
            (Some (dataset [1; 0; 1]%Z)) None (Some (Arr1 [1; 0; 1]%Z))
            (Some (dataset [0; 1; 1]%Z)) (Some (Arr1 [0; 1; 0]%Z)) None true
            None)
       = [common_index_warning]
    /\ out_model
         (_DummyModel_init (fun _ _ => Ok tt) (fun _ _ => Ok tt)
            (fun _ _ => Ok tt)
            (Some (dataset [1; 0; 1]%Z)) None (Some (Arr1 [1; 0; 1]%Z))
            (Some (dataset [0; 1; 1]%Z)) (Some (Arr1 [0; 1; 0]%Z)) None true
            None)
       = Ok d.
Proof.
  destruct (common_index_gets_role_prefixes
              (fun _ _ => Ok tt) (fun _ _ => Ok tt) (fun _ _ => Ok tt)
              (dataset [0; 1; 1]%Z) (dataset [1; 0; 1]%Z)
              None (Some (Arr1 [1; 0; 1]%Z)) (Some (Arr1 [0; 1; 0]%Z)) None
              true None) as [Hcommon [_ Hbuilt]].
  destruct Hcommon
    as [tr' [te' [Htr [Hte [Hltr [Hlte [Htri [_ [Htei [_ [_ [_ [Hw _]]]]]]]]]]]]].
  { exists (LInt 0); split; left; reflexivity. }
  destruct Hbuilt as [d Hd];
    [reflexivity | reflexivity | reflexivity | reflexivity
    | intros y df; reflexivity |].
  exists tr', te', d.
  split; [exact Htr|]; split; [exact Hte|].
  split; [|split; [|split; [exact Hw | exact Hd]]].
  - pose proof (Htri 0 0%Z eq_refl) as H0.
    pose proof (Htri 1 1%Z eq_refl) as H1.
    pose proof (Htri 2 2%Z eq_refl) as H2.
    destruct (index_of (data tr')) as [|a [|b [|c [|]]]]; try discriminate.
    simpl in H0, H1, H2; congruence.
  - pose proof (Htei 0 0%Z eq_refl) as H0.
    pose proof (Htei 1 1%Z eq_refl) as H1.
    pose proof (Htei 2 2%Z eq_refl) as H2.
    destruct (index_of (data te')) as [|a [|b [|c [|]]]]; try discriminate.
    simpl in H0, H1, H2; congruence.
Defined.

Example colliding_context :
  exists ctx d,
    TabularContext.Context_init lenient colliding = ([common_index_warning], Ok ctx)
    /\ TabularContext._model ctx = Some (TabularContext.Static d)
    /\ option_map (fun t => index_of (data t)) (TabularContext._train ctx)
       = Some [LStr "train-0"; LStr "train-1"; LStr "train-2"]
    /\ option_map (fun t => index_of (data t)) (TabularContext._test ctx)
       = Some [LStr "test-0"; LStr "test-1"; LStr "test-2"]
    /\ option_map (fun t => _predict d (all_rows 3) (features_columns t))
         (TabularContext._test ctx)
       = Some (Ok [1; 0; 1]%Z).
Proof. do 2 eexists; repeat split; vm_compute; reflexivity. Qed.

(** *** Validation and lookup *)

Lemma rows_by_position_In {R : Type} (l : list R) (positions : list nat) (r : R) :
  In r (rows_by_position l positions) <->
  exists i, In i positions /\ nth_error l i = Some r.
Proof.
  unfold rows_by_position; rewrite in_flat_map; split.
  - intros [i [Hi Hr]]; exists i; split; [exact Hi|].
    destruct (nth_error l i); [|contradiction].
    destruct Hr as [<- | []]; reflexivity.
  - intros [i [Hi Hn]]; exists i; split; [exact Hi|].
    rewrite Hn; left; reflexivity.
Qed.

Lemma rows_by_position_incl {R : Type} (l : list R) (positions : list nat) :
  incl (rows_by_position l positions) l.
Proof.
  intros r Hr; apply rows_by_position_In in Hr as [i [_ Hn]].
  exact (nth_error_In _ _ Hn).
Qed.

(** A valid sample of a frame of at most 100 rows draws every row. *)
Lemma sample_covers_all (n : nat) (rnd : Draws) :
  n <= 100 -> sample_ok n rnd ->
  forall i, i < n -> In i (sample_positions rnd).
Proof.
  intros Hn [Hnd [Hlen Hall]] i Hi.
  apply (@NoDup_length_incl nat (sample_positions rnd) (seq 0 n) Hnd).
  - rewrite length_seq, Hlen; lia.
  - intros j Hj; rewrite Forall_forall in Hall.
    apply in_seq; specialize (Hall j Hj); lia.
  - apply in_seq; lia.
Qed.

Lemma sample_keeps_labels (data : DataFrame) (rnd : Draws) (x : label) :
  length data <= 100 -> sample_ok (length data) rnd ->
  In x (index_of data) ->
  In x (index_of (rows_by_position data (sample_positions rnd))).
Proof.
  intros Hn Hok Hx; unfold index_of in *.
  apply in_map_iff in Hx as [r [Hfst Hr]].
  apply in_map_iff; exists r; split; [exact Hfst|].
  apply In_nth_error in Hr as [i Hi].
  apply rows_by_position_In; exists i; split; [|exact Hi].
  apply (sample_covers_all (length data) rnd Hn Hok).
  apply nth_error_Some; congruence.
Qed.

Lemma validate_loop_unseen (tables : list DataFrame) (data : DataFrame)
  (choice : list nat) (x : label) :
  In x (index_of data) ->
  (forall df, In df tables -> ~ In x (index_of df)) ->
  validate_loop tables data choice
  = Raise (DeepchecksValueError unseen_data_message).
Proof.
  intros Hx; induction tables as [|t rest IH]; intros Hout; simpl.
  - reflexivity.
  - destruct (issubset (index_of data) (index_of t)) eqn:E.
    + apply issubset_iff in E.
      exfalso; apply (Hout t (or_introl eq_refl)), E, Hx.
    + apply IH; intros df Hdf; apply Hout; right; exact Hdf.
Qed.

Lemma loc_raises_KeyError {R : Type} (df : indexed R) (labels : list label)
  (e : exn) : loc df labels = Raise e -> e = KeyError.
Proof.
  induction labels as [|x t IH]; simpl; [discriminate|].
  destruct (rows_at df x); [intros H; inversion H; reflexivity|].
  destruct (loc df t); [discriminate|].
  intros H; inversion H; subst; apply IH; reflexivity.
Qed.

Lemma rows_at_In {R : Type} (df : indexed R) (x : label) (r : label * R) :
  In r (rows_at df x) <-> In r df /\ fst r = x.
Proof.
  unfold rows_at; rewrite filter_In, label_eqb_eq; reflexivity.
Qed.

Lemma loc_ok_present {R : Type} (df : indexed R) (labels : list label)
  (rows : indexed R) :
  loc df labels = Ok rows -> forall x, In x labels -> In x (index_of df).
Proof.
  revert rows; induction labels as [|y t IH]; simpl; intros rows H x Hx;
    [contradiction|].
  destruct (rows_at df y) as [|r rs] eqn:E; [discriminate|].
  destruct (loc df t) as [rest|e]; [|discriminate].
  destruct Hx as [<- | Hx]; [|exact (IH rest eq_refl x Hx)].
  assert (Hr : In r (rows_at df y)) by (rewrite E; left; reflexivity).
  apply rows_at_In in Hr as [Hr Hfst].
  unfold index_of; apply in_map_iff; exists r; auto.
Qed.

Lemma loc_missing {R : Type} (df : indexed R) (labels : list label) (x : label) :
  In x labels -> ~ In x (index_of df) -> loc df labels = Raise KeyError.
Proof.
  intros Hx Hout.
  destruct (loc df labels) as [rows|e] eqn:E.
  - exfalso; exact (Hout (loc_ok_present df labels rows E x Hx)).
  - f_equal; exact (loc_raises_KeyError df labels e E).
Qed.

Lemma rows_at_absent {R : Type} (df : indexed R) (x : label) :
  ~ In x (index_of df) -> rows_at df x = [].
Proof.
  intros Hout; destruct (rows_at df x) as [|r rs] eqn:E; [reflexivity|].
  assert (Hr : In r (rows_at df x)) by (rewrite E; left; reflexivity).
  apply rows_at_In in Hr as [Hr Hfst].
  exfalso; apply Hout; unfold index_of; apply in_map_iff; exists r; auto.
Qed.

Lemma rows_at_unique {R : Type} (df : indexed R) (x : label) (v : R) :
  NoDup (index_of df) -> In (x, v) df -> rows_at df x = [(x, v)].
Proof.
  induction df as [|[y w] t IH]; simpl; intros Hnd Hin; [contradiction|].
  inversion Hnd as [|? ? Hy Ht]; subst.
  destruct Hin as [Heq | Hin].
  - inversion Heq; subst y w.
    rewrite label_eqb_refl; f_equal.
    exact (rows_at_absent t x Hy).
  - assert (Hne : label_eqb y x = false).
    { destruct (label_eqb y x) eqn:E; [|reflexivity].
      apply label_eqb_eq in E; subst y.
      exfalso; apply Hy; unfold index_of; apply in_map_iff.
      exists (x, v); auto. }
    rewrite Hne; exact (IH Ht Hin).
Qed.

(** Two frames with unique labels, one holding rows of the other, answer
    a lookup alike. *)
Lemma loc_agree (df sampled : DataFrame) (s : list label) :
  NoDup (index_of df) -> NoDup (index_of sampled) -> incl sampled df ->
  incl s (index_of sampled) ->
  exists r, loc df s = Ok r /\ loc sampled s = Ok r.
Proof.
  intros Hdf Hsa Hincl; induction s as [|x t IH]; intros Hs; simpl.
  - exists []; auto.
  - destruct IH as [r [H1 H2]]; [intros y Hy; apply Hs; right; exact Hy|].
    assert (Hx : In x (index_of sampled)) by (apply Hs; left; reflexivity).
    unfold index_of in Hx; apply in_map_iff in Hx as [[x' v] [Hfst Hr]].
    simpl in Hfst; subst x'.
    rewrite (rows_at_unique df x v Hdf (Hincl _ Hr)).
    rewrite (rows_at_unique sampled x v Hsa Hr).
    rewrite H1, H2; eexists; split; reflexivity.
Qed.

Lemma equals_refl (a : DataFrame) : equals a a = true.
Proof.
  induction a as [|r a IH]; simpl; [reflexivity|].
  unfold row_eqb; rewrite label_eqb_refl, IH.
  rewrite (proj2 (ContextFacts.list_eqb_eq (snd r) (snd r)) eq_refl).
  reflexivity.
Qed.

Lemma sampled_index_NoDup (data : DataFrame) (positions : list nat) :
  NoDup (index_of data) -> NoDup positions ->
  NoDup (index_of (rows_by_position data positions)).
Proof.
  intros Hdata; induction positions as [|i t IH]; intros Hpos; simpl.
  - constructor.
  - inversion Hpos as [|? ? Hi Ht]; subst.
    unfold index_of; rewrite map_app; fold (index_of (rows_by_position data t)).
    destruct (nth_error data i) as [r|] eqn:Er; simpl; [|exact (IH Ht)].
    constructor; [|exact (IH Ht)].
    intros Hin; unfold index_of in Hin.
    apply in_map_iff in Hin as [r' [Hfst Hr']].
    apply rows_by_position_In in Hr' as [j [Hj Ej]].
    assert (Hij : i = j).
    { apply (proj1 (NoDup_nth_error (index_of data)) Hdata).
      - unfold index_of; rewrite length_map.
        apply nth_error_Some; congruence.
      - unfold index_of; rewrite !nth_error_map, Er, Ej; simpl; congruence. }
    subst j; contradiction.
Qed.

Lemma dedup_incl (l : list label) : incl (dedup l) l.
Proof.
  induction l as [|x t IH]; simpl; intros y Hy; [contradiction|].
  destruct Hy as [<- | Hy]; [left; reflexivity|].
  apply filter_In in Hy as [Hy _]; right; exact (IH y Hy).
Qed.

Lemma np_unique_incl (l u : list label) : np_unique l = Ok u -> incl u l.
Proof.
  unfold np_unique; destruct (one_kind l); [|discriminate].
  intros H x Hx; inversion H; subst u; apply dedup_incl in Hx.
  exact (Permutation_in _ (PyFacts.isort_perm label_leb l) Hx).
Qed.

Lemma one_kind_incl (l l' : list label) :
  incl l' l -> one_kind l = true -> one_kind l' = true.
Proof.
  unfold one_kind; intros Hincl H.
  apply orb_true_iff in H as [H | H]; apply orb_true_iff; [left | right];
    rewrite forallb_forall in *; intros x Hx; apply H, Hincl, Hx.
Qed.

Lemma np_unique_one_kind (l : list label) :
  one_kind l = true -> exists u, np_unique l = Ok u.
Proof. unfold np_unique; intros ->; eexists; reflexivity. Qed.

Lemma np_unique_mixed (l : list label) (z : Z) (t : string) :
  In (LInt z) l -> In (LStr t) l -> np_unique l = Raise TypeError.
Proof.
  intros Hz Ht; unfold np_unique, one_kind.
  destruct (forallb is_int l) eqn:E1.
  { rewrite forallb_forall in E1; specialize (E1 _ Ht); discriminate. }
  destruct (forallb (fun x => negb (is_int x)) l) eqn:E2.
  { rewrite forallb_forall in E2; specialize (E2 _ Hz); discriminate. }
  reflexivity.
Qed.

(** On rows of one fitted frame, with labels of one kind, the validation
    passes, whatever is drawn. *)
Lemma validate_known_rows (tables : list DataFrame) (df data : DataFrame)
  (rnd : Draws) :
  In df tables -> NoDup (index_of df) -> NoDup (index_of data) ->
  incl data df ->
  (forall df', In df' tables ->
     df' = df \/ forall x, In x (index_of data) -> ~ In x (index_of df')) ->
  NoDup (sample_positions rnd) ->
  rows_by_position data (sample_positions rnd) <> [] ->
  one_kind (index_of data) = true ->
  validate_loop tables (rows_by_position data (sample_positions rnd))
    (choice_positions rnd) = Ok tt.
Proof.
  intros Hdf Hnd_df Hnd_data Hincl Hothers Hnd_pos Hne Hkind.
  set (sampled := rows_by_position data (sample_positions rnd)) in *.
  assert (Hsub : incl sampled df).
  { intros r Hr; apply Hincl; exact (rows_by_position_incl _ _ r Hr). }
  assert (Hnd_s : NoDup (index_of sampled))
    by (apply sampled_index_NoDup; assumption).
  assert (Hidx : incl (index_of sampled) (index_of df)).
  { intros x Hx; unfold index_of in *; apply in_map_iff in Hx as [r [Hf Hr]].
    apply in_map_iff; exists r; auto. }
  set (drawn := rows_by_position (index_of sampled) (choice_positions rnd)).
  assert (Hdrawn : incl drawn (index_of sampled))
    by apply rows_by_position_incl.
  assert (Hkind_d : one_kind drawn = true).
  { apply (one_kind_incl (index_of data)); [|exact Hkind].
    intros x Hx; apply Hdrawn in Hx.
    unfold index_of in *; apply in_map_iff in Hx as [r [Hf Hr]].
    apply in_map_iff; exists r; split; [exact Hf|].
    exact (rows_by_position_incl _ _ r Hr). }
  destruct (np_unique_one_kind drawn Hkind_d) as [u Hu].
  assert (Hpass : forall t, t = df ->
            match index_of sampled with
            | [] => Raise ValueError
            | _ :: _ =>
                sample_data <- np_unique drawn ;;
                a <- loc t sample_data ;;
                b <- loc sampled sample_data ;;
                (if equals a b then Ok tt
                 else Raise (DeepchecksValueError unseen_data_message))
            end = Ok tt).
  { intros t ->.
    destruct (loc_agree df sampled u Hnd_df Hnd_s Hsub) as [r [H1 H2]].
    { intros x Hx; apply Hdrawn; exact (np_unique_incl drawn u Hu x Hx). }
    destruct (index_of sampled) as [|x0 rest0] eqn:Eidx.
    - destruct sampled; [contradiction | discriminate].
    - rewrite Hu; simpl; rewrite H1, H2; simpl; rewrite equals_refl.
      reflexivity. }
  clear Hnd_df.
  induction tables as [|t rest IH]; [contradiction|]; simpl.
  destruct (issubset (index_of sampled) (index_of t)) eqn:E.
  - destruct (Hothers t (or_introl eq_refl)) as [Heq | Hnone].
    + specialize (Hpass t Heq).
      destruct (index_of sampled); exact Hpass.
    + exfalso; apply issubset_iff in E.
      destruct sampled as [|r rs] eqn:Es; [contradiction|].
      apply (Hnone (fst r)).
      * unfold index_of; apply in_map_iff; exists r; split; [reflexivity|].
        apply (rows_by_position_incl data (sample_positions rnd)).
        fold sampled; rewrite Es; left; reflexivity.
      * apply E; left; reflexivity.
  - destruct Hdf as [-> | Hdf].
    + apply issubset_iff in Hidx; congruence.
    + apply IH; [exact Hdf|].
      intros df' Hdf'; apply Hothers; right; exact Hdf'.
Qed.

Lemma valid_sample_nonempty (data : DataFrame) (rnd : Draws) :
  data <> [] -> sample_ok (length data) rnd ->
  rows_by_position data (sample_positions rnd) <> [].
Proof.
  intros Hne [_ [Hlen Hall]].
  destruct (sample_positions rnd) as [|i t] eqn:E.
  - destruct data; [contradiction | simpl in Hlen; discriminate].
  - inversion Hall as [|? ? Hi _]; subst.
    destruct (nth_error data i) as [r|] eqn:Er.
    + simpl; rewrite Er; discriminate.
    + apply nth_error_None in Er; lia.
Qed.

Lemma predict_without_validation (self : _DummyModel) (rnd : Draws)
  (data : DataFrame) :
  validate_data_on_predict self = false ->
  _predict self rnd data
  = match predictions self with
    | None => Raise AttributeError
    | Some p => rows <- loc p (index_of data) ;; Ok (map snd rows)
    end.
Proof. intros H; unfold _predict; rewrite H; reflexivity. Qed.

(** C7, as the code has it.  With validation enabled, [predict] raises the
    unseen-data error whenever the sample that validation draws from the
    query holds a row label found in no fitted feature frame, which is
    every time for a query of at most 100 rows.  With validation disabled
    the unseen-data error is never raised: the outcome is that of the
    lookup by label alone.  A non-empty query made of rows of a fitted
    frame (unique labels, all integers or all strings, the other fitted
    frames sharing none of them) passes validation whatever is drawn, so
    that with the flag on or off the outcome is again that of the lookup
    alone: the stored predictions of its labels when predictions are
    stored under every one of them, a key error when one of them has
    none (as for the rows of a dataset given without predictions). *)
Theorem static_predictions_guard_unseen_rows (self : _DummyModel) (rnd : Draws)
  (data : DataFrame) :
  (validate_data_on_predict self = true ->
   forall x,
     In x (index_of (rows_by_position data (sample_positions rnd))) ->
     (forall df, In df (feature_df_list self) -> ~ In x (index_of df)) ->
     _predict self rnd data = Raise (DeepchecksValueError unseen_data_message))
  /\ (validate_data_on_predict self = true ->
      length data <= 100 -> sample_ok (length data) rnd ->
      forall x,
        In x (index_of data) ->
        (forall df, In df (feature_df_list self) -> ~ In x (index_of df)) ->
        _predict self rnd data
        = Raise (DeepchecksValueError unseen_data_message))
  /\ (validate_data_on_predict self = false ->
      (forall msg, _predict self rnd data <> Raise (DeepchecksValueError msg))
      /\ _predict self rnd data
         = match predictions self with
           | None => Raise AttributeError
           | Some p => rows <- loc p (index_of data) ;; Ok (map snd rows)
           end)
  /\ (forall df,
        In df (feature_df_list self) ->
        NoDup (index_of df) -> NoDup (index_of data) ->
        incl data df -> data <> [] ->
        one_kind (index_of data) = true ->
        (forall df', In df' (feature_df_list self) ->
           df' = df \/ forall x, In x (index_of data) -> ~ In x (index_of df')) ->
        sample_ok (length data) rnd ->
        _predict self rnd data
        = match predictions self with
          | None => Raise AttributeError
          | Some p => rows <- loc p (index_of data) ;; Ok (map snd rows)
          end
        /\ (forall p rows,
              predictions self = Some p -> loc p (index_of data) = Ok rows ->
              _predict self rnd data = Ok (map snd rows))
        /\ (forall p x,
              predictions self = Some p ->
              In x (index_of data) -> ~ In x (index_of p) ->
              _predict self rnd data = Raise KeyError)).
Proof.
  assert (Hsampled : validate_data_on_predict self = true ->
            forall x,
              In x (index_of (rows_by_position data (sample_positions rnd))) ->
              (forall df, In df (feature_df_list self) -> ~ In x (index_of df)) ->
              _predict self rnd data
              = Raise (DeepchecksValueError unseen_data_message)).
  { intros Hon x Hx Hout; unfold _predict, _validate_data; rewrite Hon.
    rewrite (validate_loop_unseen _ _ _ x Hx Hout); reflexivity. }
  split; [exact Hsampled|]; split; [|split].
  - intros Hon Hlen Hok x Hx Hout.
    apply (Hsampled Hon x); [|exact Hout].
    apply sample_keeps_labels; assumption.
  - intros Hoff; rewrite (predict_without_validation self rnd data Hoff).
    split; [|reflexivity].
    intros msg; destruct (predictions self) as [p|]; [|discriminate].
    destruct (loc p (index_of data)) as [rows|e] eqn:E; simpl; [discriminate|].
    rewrite (loc_raises_KeyError _ _ _ E); discriminate.
  - intros df Hdf Hnd_df Hnd_data Hincl Hne Hkind Hothers Hok.
    assert (Hlookup : _predict self rnd data
                      = match predictions self with
                        | None => Raise AttributeError
                        | Some p =>
                            rows <- loc p (index_of data) ;; Ok (map snd rows)
                        end).
    { unfold _predict, _validate_data.
      rewrite (validate_known_rows (feature_df_list self) df data rnd
                 Hdf Hnd_df Hnd_data Hincl Hothers (proj1 Hok)
                 (valid_sample_nonempty data rnd Hne Hok) Hkind).
      destruct (validate_data_on_predict self); reflexivity. }
    split; [exact Hlookup|]; split.
    + intros p rows Hp Hloc; rewrite Hlookup, Hp, Hloc; reflexivity.
    + intros p x Hp Hx Hout; rewrite Hlookup, Hp.
      rewrite (loc_missing p (index_of data) x Hx Hout); reflexivity.
Qed.

Lemma fitted_index_NoDup : NoDup (index_of fitted).
Proof.
  unfold index_of, fitted; rewrite map_map.
  apply NoDup_map_NoDup_ForallPairs; [|apply seq_NoDup].
  intros i j _ _ H; simpl in H; inversion H; lia.
Qed.

(** Three rows of the fitted frame, in another order, with validation
    enabled: the stored predictions of rows 7, 5 and 6 come back. *)
Lemma static_predictions_guard_unseen_rows_witness :
  _predict (adapter true) (all_rows 3) known_query = Ok [1; 1; 0]%Z.
Proof.
  refine (proj1 (proj2
            (proj2 (proj2 (proj2
               (static_predictions_guard_unseen_rows (adapter true)
                  (all_rows 3) known_query)))
               fitted _ fitted_index_NoDup _ _ _ _ _ _))
            (map (fun i => (LInt (Z.of_nat i), (Z.of_nat i mod 2)%Z)) (seq 0 100))
            [(LInt 7, 1%Z); (LInt 5, 1%Z); (LInt 6, 0%Z)]
            eq_refl _).
  - left; reflexivity.
  - repeat constructor; simpl; intuition discriminate.
  - intros r Hr; apply rows_by_position_incl with (positions := [7; 5; 6]).
    exact Hr.
  - discriminate.
  - reflexivity.
  - intros df' [<- | []]; left; reflexivity.
  - repeat split; [repeat constructor; simpl; intuition discriminate
                  | repeat constructor].
  - vm_compute; reflexivity.
Defined.

(** C7 as stated fails twice.  A query of 101 rows whose last row is
    unseen, of which validation draws the first hundred, passes validation
    and ends in the key error of the lookup, not in the unseen-data error;
    and with validation disabled a query with an unseen row raises that
    key error too. *)
Lemma unseen_row_beyond_the_sample :
  sample_ok (length large_query) first_hundred
  /\ choice_ok 100 first_hundred
  /\ In (LInt 1000) (index_of large_query)
  /\ ~ In (LInt 1000) (index_of fitted)
  /\ _predict (adapter true) first_hundred large_query = Raise KeyError
  /\ In (LInt 1000) (index_of small_query)
  /\ _predict (adapter false) (all_rows 2) small_query = Raise KeyError.
Proof.
  split; [|split; [|split; [|split; [|split; [|split]]]]].
  - split; [apply seq_NoDup|]; split; [reflexivity|].
    apply Forall_forall; intros i Hi; apply in_seq in Hi.
    change (length large_query) with 101; lia.
  - split; [reflexivity|].
    apply Forall_forall; intros i Hi; apply in_seq in Hi; simpl in Hi; lia.
  - apply mem_In; vm_compute; reflexivity.
  - intros H; apply mem_In in H; vm_compute in H; discriminate.
  - vm_compute; reflexivity.
  - apply mem_In; vm_compute; reflexivity.
  - vm_compute; reflexivity.
Qed.

Example unseen_row_in_small_query :
  _predict (adapter true) (all_rows 2) small_query
  = Raise (DeepchecksValueError unseen_data_message).
Proof. vm_compute; reflexivity. Qed.

End AdapterFacts.

(* ================================================================= *)
(** * Part III. Further properties of the embedded code *)
(* ================================================================= *)

(* ----------------------------------------------------------------- *)
(** ** Order and multiplicity of the flagged positions *)

Module OrderFacts.
Import TextPropertyOutliers PyFacts NpFacts FloatFacts.

Section Insertion.
Context {A : Type} (leb : A -> A -> bool).
Hypothesis leb_total : forall a b, leb a b = true \/ leb b a = true.

Lemma insert_Sorted (x : A) (l : list A) :
  Sorted (fun a b => leb a b = true) l ->
  Sorted (fun a b => leb a b = true) (insert leb x l).
Proof.
  induction l as [|y t IH]; simpl; intros Hs.
  - repeat constructor.
  - destruct (leb x y) eqn:E.
    + constructor; [exact Hs | constructor; exact E].
    + apply Sorted_inv in Hs as [Ht Hhd].
      constructor; [apply IH; exact Ht|].
      assert (Hyx : leb y x = true)
        by (destruct (leb_total x y); congruence).
      destruct t as [|z t]; simpl.
      * constructor; exact Hyx.
      * destruct (leb x z); constructor; [exact Hyx|].
        apply HdRel_inv in Hhd; exact Hhd.
Qed.

Lemma isort_Sorted (l : list A) :
  Sorted (fun a b => leb a b = true) (isort leb l).
Proof.
  induction l as [|x t IH]; simpl; [constructor | apply insert_Sorted, IH].
Qed.

End Insertion.

Lemma Sorted_map {A B : Type} (R : B -> B -> Prop) (f : A -> B) (l : list A) :
  Sorted (fun a b => R (f a) (f b)) l -> Sorted R (map f l).
Proof.
  induction 1 as [|a l Hs IH Hhd]; simpl; constructor; [exact IH|].
  destruct Hhd; simpl; constructor; assumption.
Qed.

Lemma Sorted_weaken {A : Type} (R R' : A -> A -> Prop) (l : list A) :
  (forall a b, In a l -> In b l -> R a b -> R' a b) ->
  Sorted R l -> Sorted R' l.
Proof.
  intros Himp Hs; induction Hs as [|a l Hs IH Hhd]; constructor.
  - apply IH; intros x y Hx Hy; apply Himp; right; assumption.
  - destruct Hhd as [|b l Hab]; constructor.
    apply Himp; [left; reflexivity | right; left; reflexivity | exact Hab].
Qed.

Lemma sort_leb_total (a b : float) : sort_leb a b = true \/ sort_leb b a = true.
Proof.
  destruct a as [|x], b as [|y]; simpl; auto.
  destruct (Qlt_le_dec y x) as [H | H].
  - right; apply Qle_bool_iff, Qlt_le_weak; exact H.
  - left; apply Qle_bool_iff; exact H.
Qed.

Lemma key_leb_total (a b : float * nat) : key_leb a b = true \/ key_leb b a = true.
Proof. apply sort_leb_total. Qed.

Lemma In_combine_seq {A : Type} (l : list A) (s : nat) (k : A) (j : nat) :
  In (k, j) (combine l (seq s (length l))) ->
  s <= j /\ nth_error l (j - s) = Some k.
Proof.
  revert s; induction l as [|x t IH]; intros s; simpl; [contradiction|].
  intros [H | H].
  - inversion H; subst; rewrite Nat.sub_diag; auto.
  - destruct (IH (S s) H) as [Hle Hn]; split; [lia|].
    replace (j - s) with (S (j - S s)) by lia; exact Hn.
Qed.

(** Reordering positions by the [argsort] of their values lists the
    values in the order of the sort. *)
Lemma values_of_sorted_positions (arr : list float) (P : list nat) :
  take NaN arr (take 0 P (argsort (take NaN arr P)))
  = map fst (isort key_leb (combine (take NaN arr P)
                              (seq 0 (length (take NaN arr P))))).
Proof.
  unfold argsort, take at 1 2.
  rewrite !map_map; apply map_ext_in; intros [k j] Hin; simpl.
  apply (Permutation_in _ (isort_perm key_leb _)) in Hin.
  apply In_combine_seq in Hin as [_ Hn].
  rewrite Nat.sub_0_r in Hn.
  unfold take in Hn; rewrite nth_error_map in Hn.
  destruct (nth_error P j) as [i|] eqn:E; [|discriminate].
  simpl in Hn; inversion Hn.
  rewrite (nth_error_nth P j 0 E); reflexivity.
Qed.

Lemma positions_ordered (p : float -> bool) (arr : list float) :
  (forall v, p v = true -> is_finite v = true) ->
  Sorted (fun a b => fle a b = true)
    (take NaN arr (take 0 (argwhere p arr)
                     (argsort (take NaN arr (argwhere p arr))))).
Proof.
  intros Hfin; rewrite values_of_sorted_positions.
  set (P := argwhere p arr).
  set (pairs := combine (take NaN arr P) (seq 0 (length (take NaN arr P)))).
  assert (Hkeys : forall k, In k (map fst (isort key_leb pairs)) ->
                            is_finite k = true).
  { intros k Hk; apply in_map_iff in Hk as [[k' j] [Hfst Hin]].
    simpl in Hfst; subst k'.
    apply (Permutation_in _ (isort_perm key_leb _)) in Hin.
    apply In_combine_seq in Hin as [_ Hn]; rewrite Nat.sub_0_r in Hn.
    unfold take in Hn; rewrite nth_error_map in Hn.
    destruct (nth_error P j) as [i|] eqn:E; [|discriminate].
    simpl in Hn; inversion Hn as [Hk].
    apply nth_error_In in E; apply In_argwhere in E as [v [Hv Hp]].
    rewrite (nth_error_nth arr i NaN Hv); apply Hfin; exact Hp. }
  apply (Sorted_weaken (fun a b => sort_leb a b = true)).
  - intros a b Ha Hb Hab.
    pose proof (Hkeys a Ha) as Fa; pose proof (Hkeys b Hb) as Fb.
    destruct a, b; simpl in *; try discriminate; exact Hab.
  - apply Sorted_map, (isort_Sorted key_leb key_leb_total).
Qed.

(** X1.  Each group of outliers is listed in ascending order of value:
    the most extreme bottom outlier comes first, the most extreme top
    outlier last. *)
Theorem outliers_listed_by_ascending_value (values_arr : list float)
  (lower upper : float) :
  Sorted (fun a b => fle a b = true)
    (take NaN values_arr (bottom_outliers values_arr lower))
  /\ Sorted (fun a b => fle a b = true)
       (take NaN values_arr (top_outliers values_arr upper)).
Proof.
  split; unfold bottom_outliers, top_outliers; apply positions_ordered.
  - intros v Hv; apply (flt_finite v lower Hv).
  - intros v Hv; unfold fgt in Hv; apply (flt_finite upper v Hv).
Qed.

Lemma argwhere_from_NoDup {A : Type} (p : A -> bool) (s : nat) (l : list A) :
  NoDup (argwhere_from p s l).
Proof.
  revert s; induction l as [|x t IH]; intros s; simpl; [constructor|].
  destruct (p x); [|apply IH].
  constructor; [|apply IH].
  intros Hin; apply In_argwhere_from in Hin as [Hle _]; lia.
Qed.

Lemma sorted_positions_NoDup (p : float -> bool) (arr : list float) :
  NoDup (take 0 (argwhere p arr) (argsort (take NaN arr (argwhere p arr)))).
Proof.
  apply (Permutation_NoDup
           (Permutation_sym (take_argsort_perm _ _ (length_take NaN arr _)))).
  apply argwhere_from_NoDup.
Qed.

(** X2.  No flat position is listed twice within a group, and with bounds
    in order ([lower <= upper]) no position is both a bottom and a top
    outlier: every outlying value is reported once. *)
Theorem outliers_listed_once (values_arr : list float) (lower upper : float) :
  NoDup (bottom_outliers values_arr lower)
  /\ NoDup (top_outliers values_arr upper)
  /\ (fle lower upper = true ->
      NoDup (bottom_outliers values_arr lower ++ top_outliers values_arr upper)).
Proof.
  split; [apply sorted_positions_NoDup|].
  split; [apply sorted_positions_NoDup|].
  intros Hord; apply NoDup_app; try apply sorted_positions_NoDup.
  intros i Hb Ht.
  apply ScanFacts.In_bottom_outliers in Hb as [v [Hn Hlow]].
  apply ScanFacts.In_top_outliers in Ht as [v' [Hn' Hup]].
  rewrite Hn in Hn'; inversion Hn'; subst v'.
  unfold fgt in Hup.
  destruct v as [|x], lower as [|l], upper as [|u]; simpl in *;
    try discriminate.
  unfold Qltb in *.
  apply negb_true_iff in Hlow, Hup.
  apply Qle_bool_iff in Hord.
  assert (Hxl : ~ (l <= x)%Q)
    by (intros H; apply Qle_bool_iff in H; congruence).
  assert (Hux : ~ (x <= u)%Q)
    by (intros H; apply Qle_bool_iff in H; congruence).
  apply Hux, Qle_trans with l; [|exact Hord].
  apply Qlt_le_weak, Qnot_le_lt; exact Hxl.
Qed.

End OrderFacts.

(* ----------------------------------------------------------------- *)
(** ** The mapper outside its range, and positions inside a sample *)

Module MapperEdges.
Import TextPropertyOutliers PyFacts NpFacts MapperFacts.

Lemma no_cumsum_exceeds (L : list nat) (acc f : Z) (s : nat) :
  (acc + Z.of_nat (list_sum L) <= f)%Z ->
  argwhere_from (fun c => (f <? c)%Z) s (cumsum_from acc (map Z.of_nat L)) = [].
Proof.
  revert acc s; induction L as [|x t IH]; intros acc s H; simpl in *; auto.
  destruct (f <? acc + Z.of_nat x)%Z eqn:E.
  - apply Z.ltb_lt in E; lia.
  - apply IH; lia.
Qed.

(** X3.  A flat index at or beyond the number of values has no sample:
    the mapper raises [IndexError].  A negative flat index is not
    rejected: it is mapped to the first sample, the cumulative sums
    being non-negative. *)
Theorem flat_index_outside_the_values (L : list nat) (f : Z) :
  (f < 0 \/ Z.of_nat (list_sum L) <= f)%Z ->
  _sample_index_from_flatten_index (cumsum (map Z.of_nat L)) f
  = match L with
    | [] => Raise IndexError
    | _ :: _ => if (f <? 0)%Z then Ok 0 else Raise IndexError
    end.
Proof.
  intros H; unfold _sample_index_from_flatten_index, argwhere, cumsum.
  destruct L as [|x t]; [reflexivity|].
  destruct (f <? 0)%Z eqn:E.
  - apply Z.ltb_lt in E; simpl.
    replace (f <? Z.of_nat x)%Z with true
      by (symmetry; apply Z.ltb_lt; lia).
    reflexivity.
  - apply Z.ltb_ge in E.
    rewrite no_cumsum_exceeds by lia; reflexivity.
Qed.

Lemma flat_index_outside_the_values_witness :
  _sample_index_from_flatten_index (cumsum (map Z.of_nat [1; 5])) 6%Z
  = Raise IndexError
  /\ _sample_index_from_flatten_index (cumsum (map Z.of_nat [1; 5])) (-1)%Z
     = Ok 0.
Proof.
  split.
  - apply (flat_index_outside_the_values [1; 5] 6%Z); right; simpl; lia.
  - apply (flat_index_outside_the_values [1; 5] (-1)%Z); left; lia.
Defined.

Lemma prefix_sum_S (L : list nat) (s n : nat) :
  nth_error L s = Some n ->
  prefix_sum L (S s) = (prefix_sum L s + Z.of_nat n)%Z.
Proof.
  revert s; induction L as [|x t IH]; intros s H.
  - destruct s; discriminate.
  - destruct s as [|s]; simpl in H.
    + inversion H; subst; rewrite prefix_sum_cons, !prefix_sum_0; lia.
    + rewrite (prefix_sum_cons x t (S s)), (prefix_sum_cons x t s), (IH s H); lia.
Qed.

Lemma prefix_interval_unique (L : list nat) (f : Z) (i j : nat) :
  (prefix_sum L i <= f < prefix_sum L (S i))%Z ->
  (prefix_sum L j <= f < prefix_sum L (S j))%Z ->
  i = j.
Proof.
  intros Hi Hj.
  destruct (Nat.lt_trichotomy i j) as [Hlt | [Heq | Hgt]]; [|exact Heq|].
  - pose proof (prefix_sum_mono L (S i) j Hlt); lia.
  - pose proof (prefix_sum_mono L (S j) i Hgt); lia.
Qed.

(** The value at a flat position is the value of its sample at the
    offset from the start of the sample. *)
Lemma nth_error_concat {A : Type} (values : list (list A)) (s i : nat) :
  (prefix_sum (map (@length A) values) s <= Z.of_nat i
   < prefix_sum (map (@length A) values) (S s))%Z ->
  exists vs,
    nth_error values s = Some vs
    /\ nth_error (concat values) i
       = nth_error vs (i - Z.to_nat (prefix_sum (map (@length A) values) s)).
Proof.
  revert s i; induction values as [|v t IH]; intros s i H; simpl in H.
  - rewrite !prefix_sum_nil in H; lia.
  - destruct s as [|s].
    + rewrite prefix_sum_cons, !prefix_sum_0 in H.
      exists v; split; [reflexivity|]; simpl.
      rewrite nth_error_app1 by lia.
      rewrite Nat.sub_0_r; reflexivity.
    + rewrite (prefix_sum_cons _ _ (S s)), (prefix_sum_cons _ _ s) in H.
      pose proof (prefix_sum_nonneg (map (@length A) t) s) as Hnn.
      destruct (IH s (i - length v)) as [vs [Hvs Hn]]; [lia|].
      exists vs; split; [exact Hvs|]; simpl.
      rewrite nth_error_app2 by lia.
      rewrite Hn, (prefix_sum_cons _ _ s); f_equal; lia.
Qed.

(** What the mapper returns inside the scan. *)
Lemma sample_index_bounds (values : list (list float)) (i s : nat) :
  i < length (concat values) ->
  _sample_index_from_flatten_index (lengths_cumsum values) (Z.of_nat i) = Ok s ->
  (prefix_sum (map (@length float) values) s <= Z.of_nat i
   < prefix_sum (map (@length float) values) (S s))%Z.
Proof.
  intros Hi Hs; rewrite length_concat in Hi.
  destruct (first_exceeding_from (map (@length float) values) 0 (Z.of_nat i) 0)
    as [k [Hg [_ Hp]]]; [lia|].
  rewrite lengths_cumsum_eq in Hs.
  unfold _sample_index_from_flatten_index, argwhere, cumsum in Hs.
  rewrite Hg in Hs; inversion Hs; subst s; simpl; lia.
Qed.

Lemma sample_index_of_bounds (values : list (list float)) (i s : nat) :
  (prefix_sum (map (@length float) values) s <= Z.of_nat i
   < prefix_sum (map (@length float) values) (S s))%Z ->
  _sample_index_from_flatten_index (lengths_cumsum values) (Z.of_nat i) = Ok s.
Proof.
  intros Hb.
  assert (Hi : i < length (concat values)).
  { rewrite length_concat.
    pose proof (prefix_sum_mono (map (@length float) values) (S s)
                  (length (map (@length float) values))) as Hm.
    unfold prefix_sum at 2 in Hm; rewrite firstn_all in Hm.
    destruct (le_lt_dec (S s) (length (map (@length float) values))) as [Hle|Hgt].
    - specialize (Hm Hle); lia.
    - unfold prefix_sum in Hb.
      rewrite (firstn_all2 (n := S s)) in Hb by lia. lia. }
  destruct (sample_index_total values i Hi) as [s' [Hs' _]].
  pose proof (sample_index_bounds values i s' Hi Hs') as Hb'.
  rewrite (prefix_interval_unique _ _ _ _ Hb Hb'); exact Hs'.
Qed.

(** X4.  Lines 145-151: for a flat position of the value array, the
    mapper finds a sample, and the index that the scan computes from the
    cumulative length of that sample,
    [(values_lengths_cumsum[sample_index] - outlier_index) * -1],
    is a valid index from the end of the sample's own list and points at
    the same value as the flat position. *)
Theorem index_of_value_in_sample_points_at_the_value
  (values : list (list float)) (i : nat) :
  i < length (concat values) ->
  exists s c vs,
    _sample_index_from_flatten_index (lengths_cumsum values) (Z.of_nat i) = Ok s
    /\ getitem (lengths_cumsum values) s = Ok c
    /\ getitem values s = Ok vs
    /\ let k := ((c - Z.of_nat i) * -1)%Z in
       (- Z.of_nat (length vs) <= k <= -1)%Z
       /\ nth_error vs (Z.to_nat (Z.of_nat (length vs) + k))
          = nth_error (concat values) i.
Proof.
  intros Hi.
  destruct (sample_index_total values i Hi) as [s [Hs Hlt]].
  pose proof (sample_index_bounds values i s Hi Hs) as Hb.
  destruct (nth_error_concat values s i Hb) as [vs [Hvs Hn]].
  set (L := map (@length float) values) in *.
  assert (HL : nth_error L s = Some (length vs))
    by (unfold L; rewrite nth_error_map, Hvs; reflexivity).
  pose proof (prefix_sum_S L s _ HL) as HS.
  pose proof (prefix_sum_nonneg L s) as Hnn.
  exists s, (prefix_sum L (S s)), vs.
  split; [exact Hs|]; split; [|split].
  - unfold getitem; rewrite lengths_cumsum_eq; fold L; unfold cumsum.
    rewrite cumsum_from_nth by (unfold L; rewrite length_map; exact Hlt).
    reflexivity.
  - unfold getitem; rewrite Hvs; reflexivity.
  - cbv zeta; split; [lia|].
    rewrite Hn; f_equal; lia.
Qed.

Lemma index_of_value_in_sample_points_at_the_value_witness :
  exists s c vs,
    _sample_index_from_flatten_index
      (lengths_cumsum [[Fin 3; Fin 4]; []; [Fin 5; Fin 6; Fin 7]]) 3%Z = Ok s
    /\ getitem (lengths_cumsum [[Fin 3; Fin 4]; []; [Fin 5; Fin 6; Fin 7]]) s
       = Ok c
    /\ getitem [[Fin 3; Fin 4]; []; [Fin 5; Fin 6; Fin 7]] s = Ok vs
    /\ nth_error vs (Z.to_nat (Z.of_nat (length vs) + (c - 3) * -1))
       = Some (Fin 6).
Proof.
  destruct (index_of_value_in_sample_points_at_the_value
              [[Fin 3; Fin 4]; []; [Fin 5; Fin 6; Fin 7]] 3)
    as [s [c [vs [H1 [H2 [H3 [_ H4]]]]]]].
  - simpl; lia.
  - exists s, c, vs; repeat split; assumption.
Defined.

End MapperEdges.

(* ----------------------------------------------------------------- *)
(** ** The scan as a whole *)

Module ScanWhole.
Import TextPropertyOutliers PyFacts NpFacts FloatFacts MapperFacts ScanFacts
       MapperEdges.

Lemma mapM_In_image {A B : Type} (f : A -> result B) (l : list A) (r : list B)
  (x : A) (y : B) :
  mapM f l = Ok r -> In x l -> f x = Ok y -> In y r.
Proof.
  revert r; induction l as [|a t IH]; simpl; intros r H Hx Hf; [contradiction|].
  destruct (f a) as [b|e] eqn:Efa; [|discriminate].
  destruct (mapM f t) as [ys|e]; [|discriminate].
  inversion H; subst r.
  destruct Hx as [-> | Hx].
  - left; congruence.
  - right; apply (IH ys eq_refl Hx Hf).
Qed.

Lemma In_dict_set {V : Type} (d : list (string * V)) (k : string) (v : V)
  (kv : string * V) :
  In kv (dict_set d k v) -> kv = (k, v) \/ In kv d.
Proof.
  induction d as [|[k' v'] t IH]; simpl.
  - intros [H | []]; auto.
  - destruct (String.eqb k' k) eqn:E.
    + apply String.eqb_eq in E; subst k'.
      intros [H | H]; auto.
    + intros [H | H]; auto.
      destruct (IH H); auto.
Qed.

Lemma keys_dict_set {V : Type} (d : list (string * V)) (k : string) (v : V)
  (k0 : string) :
  In k0 (map fst (dict_set d k v)) <-> k0 = k \/ In k0 (map fst d).
Proof.
  induction d as [|[k' v'] t IH]; simpl.
  - split; [intros [H | []]; auto | intros [H | []]; auto].
  - destruct (String.eqb k' k) eqn:E; simpl.
    + apply String.eqb_eq in E; subst k'.
      split; [intros [H | H]; auto | intros [H | [H | H]]; auto].
    + rewrite IH; split;
        [intros [H | [H | H]]; auto | intros [H | [H | H]]; auto].
Qed.

Lemma keys_dict_set_NoDup {V : Type} (d : list (string * V)) (k : string) (v : V) :
  NoDup (map fst d) -> NoDup (map fst (dict_set d k v)).
Proof.
  induction d as [|[k' v'] t IH]; simpl; intros Hnd.
  - constructor; [intros [] | constructor].
  - inversion Hnd as [|? ? Hnot Ht]; subst.
    destruct (String.eqb k' k) eqn:E; simpl.
    + constructor; assumption.
    + constructor; [|apply IH; exact Ht].
      rewrite keys_dict_set; intros [H | H]; [|contradiction].
      subst k'; rewrite String.eqb_refl in E; discriminate.
Qed.

Lemma to_dict_from {V : Type} (cols acc : list (string * V)) :
  let d := fold_left (fun d kv => dict_set d (fst kv) (snd kv)) cols acc in
  (NoDup (map fst acc) -> NoDup (map fst d))
  /\ (forall k, In k (map fst d) <-> In k (map fst acc) \/ In k (map fst cols))
  /\ (forall kv, In kv d -> In kv acc \/ In kv cols).
Proof.
  revert acc; induction cols as [|[k v] t IH]; intros acc; simpl.
  - split; [auto|]; split; [|auto].
    intros k; split; [auto | intros [H | []]; exact H].
  - destruct (IH (dict_set acc k v)) as [Hnd [Hkeys Hin]]; simpl in *.
    split; [|split].
    + intros H; apply Hnd, keys_dict_set_NoDup, H.
    + intros k0; rewrite Hkeys, keys_dict_set.
      split; [intros [[H | H] | H] | intros [H | [H | H]]]; auto.
    + intros kv H; destruct (Hin kv H) as [H' | H']; [|auto].
      destruct (In_dict_set _ _ _ _ H'); subst; auto.
Qed.

Lemma numeric_columns_In (types : list (string * string))
  (cols r : list (string * column)) :
  numeric_columns types cols = Ok r ->
  forall name col,
    In (name, col) r
    <-> In (name, col) cols /\ dict_get types name = Some "numeric".
Proof.
  revert r; induction cols as [|[n c] t IH]; simpl; intros r H name col.
  - inversion H; subst; simpl; tauto.
  - destruct (dict_get types n) as [ty|] eqn:Ety; [|discriminate].
    destruct (numeric_columns types t) as [rest|e]; [|discriminate].
    simpl in H; inversion H; subst r; clear H.
    specialize (IH rest eq_refl name col).
    destruct (String.eqb ty "numeric") eqn:E.
    + apply String.eqb_eq in E; subst ty; simpl; rewrite IH.
      split.
      * intros [Heq | [Hin Hty]]; [inversion Heq; subst; auto | auto].
      * intros [[Heq | Hin] Hty]; auto.
    + apply String.eqb_neq in E; rewrite IH.
      split.
      * intros [Hin Hty]; auto.
      * intros [[Heq | Hin] Hty]; [|auto].
        inversion Heq; subst; congruence.
Qed.

Lemma numeric_columns_untyped (types : list (string * string))
  (cols : list (string * column)) (name : string) :
  In name (map fst cols) -> dict_get types name = None ->
  numeric_columns types cols = Raise KeyError.
Proof.
  induction cols as [|[n c] t IH]; simpl; [contradiction|].
  intros Hin Hnone.
  destruct (dict_get types n) as [ty|] eqn:Ety; [|reflexivity].
  destruct Hin as [-> | Hin]; [congruence|].
  rewrite (IH Hin Hnone); reflexivity.
Qed.

Lemma numeric_columns_typed (types : list (string * string))
  (cols : list (string * column)) :
  (forall name, In name (map fst cols) -> dict_get types name <> None) ->
  exists r, numeric_columns types cols = Ok r.
Proof.
  induction cols as [|[n c] t IH]; simpl; intros H; [eexists; reflexivity|].
  destruct (dict_get types n) as [ty|] eqn:Ety;
    [|exfalso; apply (H n); auto].
  destruct IH as [r Hr]; [intros name Hn; apply H; auto|].
  rewrite Hr; simpl; eexists; reflexivity.
Qed.

Section WholeProofs.
Variable iqr_outliers_range : list float -> Z * Z -> Q -> result (float * float).
Variable trim : string -> Z -> string.

Let mapper (values : list (list float)) (i : nat) : result nat :=
  _sample_index_from_flatten_index (lengths_cumsum values) (Z.of_nat i).

Lemma scan_property_record_inv (self : Check) (dataset : TextData) (col : column)
  (values : list (list float)) (lower upper : float) (r : outlier_record) :
  wrap_values col = Ok values ->
  iqr_outliers_range (concat values) (iqr_percentiles self) (iqr_scale self)
  = Ok (lower, upper) ->
  scan_property iqr_outliers_range trim self dataset col = Ok (Found r) ->
  exists text_outliers,
    mapM (mapper values)
      (bottom_outliers (concat values) lower
       ++ top_outliers (concat values) upper) = Ok text_outliers
    /\ mapM (getitem (index dataset)) text_outliers = Ok (indices r).
Proof.
  intros Hwrap Hiqr.
  unfold scan_property; rewrite Hwrap; simpl; rewrite Hiqr.
  destruct (mapM _ _) as [corpus|e]; simpl; [|discriminate].
  unfold mapper.
  destruct (mapM _ _) as [text_outliers|e]; simpl; [|discriminate].
  destruct (mapM _ _) as [ids|e] eqn:Eids; simpl; [|discriminate].
  destruct (min_of (concat values)) as [lo|e]; simpl; [|discriminate].
  destruct (max_of (concat values)) as [hi|e]; simpl; [|discriminate].
  intros H; inversion H; subst r; simpl.
  exists text_outliers; auto.
Qed.

(** X5.  Lines 157-161: the labels reported under ['indices'] are exactly
    the index labels of the samples that hold at least one value strictly
    outside the estimator's bounds, whatever the number of values per
    sample. *)
Theorem reported_indices_are_the_outlying_samples
  (self : Check) (dataset : TextData) (col : column)
  (values : list (list float)) (lower upper : float) (r : outlier_record) :
  wrap_values col = Ok values ->
  iqr_outliers_range (concat values) (iqr_percentiles self) (iqr_scale self)
  = Ok (lower, upper) ->
  scan_property iqr_outliers_range trim self dataset col = Ok (Found r) ->
  forall lbl,
    In lbl (indices r)
    <-> exists s vs v,
          nth_error values s = Some vs
          /\ In v vs
          /\ (flt v lower = true \/ fgt v upper = true)
          /\ nth_error (index dataset) s = Some lbl.
Proof.
  intros Hwrap Hiqr Hscan lbl.
  destruct (scan_property_record_inv _ _ _ _ _ _ _ Hwrap Hiqr Hscan)
    as [text_outliers [Hto Hids]].
  split.
  - intros Hin.
    destruct (mapM_In _ _ _ _ Hids Hin) as [s [Hs Hget]].
    destruct (mapM_In _ _ _ _ Hto Hs) as [i [Hi Hmap]].
    pose proof (outlier_position_lt _ _ _ _ Hi) as Hlt.
    apply In_outliers in Hi as [v [Hv Hout]].
    pose proof (sample_index_bounds values i s Hlt Hmap) as Hb.
    destruct (nth_error_concat values s i Hb) as [vs [Hvs Hn]].
    exists s, vs, v; repeat split; auto.
    + rewrite Hv in Hn; symmetry in Hn; apply (nth_error_In _ _ Hn).
    + unfold getitem in Hget.
      destruct (nth_error (index dataset) s); [congruence | discriminate].
  - intros [s [vs [v [Hvs [Hv [Hout Hlbl]]]]]].
    apply In_nth_error in Hv as [j Hj].
    set (L := map (@length float) values).
    assert (HL : nth_error L s = Some (length vs))
      by (unfold L; rewrite nth_error_map, Hvs; reflexivity).
    pose proof (prefix_sum_S L s _ HL) as HS.
    pose proof (prefix_sum_nonneg L s) as Hnn.
    assert (Hjlt : j < length vs) by (apply nth_error_Some; congruence).
    set (i := Z.to_nat (prefix_sum L s) + j).
    assert (Hb : (prefix_sum L s <= Z.of_nat i < prefix_sum L (S s))%Z)
      by (unfold i; lia).
    destruct (nth_error_concat values s i Hb) as [vs' [Hvs' Hn]].
    rewrite Hvs in Hvs'; inversion Hvs'; subst vs'.
    fold L in Hn.
    replace (i - Z.to_nat (prefix_sum L s)) with j in Hn by (unfold i; lia).
    rewrite Hj in Hn.
    assert (Hflag : In i (bottom_outliers (concat values) lower
                          ++ top_outliers (concat values) upper))
      by (apply In_outliers; exists v; auto).
    pose proof (sample_index_of_bounds values i s Hb) as Hmap.
    pose proof (mapM_In_image (mapper values) _ _ i s Hto Hflag Hmap) as Hs.
    apply (mapM_In_image _ _ _ s lbl Hids Hs).
    unfold getitem; rewrite Hlbl; reflexivity.
Qed.

(** The number of texts to show has no part in the entry of a property
    when every sample has its text. *)
Lemma scan_property_n_show_top (self self' : Check) (dataset : TextData)
  (col : column) :
  iqr_percentiles self' = iqr_percentiles self ->
  iqr_scale self' = iqr_scale self ->
  (forall values, wrap_values col = Ok values ->
     length (text dataset) = length values) ->
  scan_property iqr_outliers_range trim self' dataset col
  = scan_property iqr_outliers_range trim self dataset col.
Proof.
  intros Hp Hs Htext; unfold scan_property.
  destruct (wrap_values col) as [values|e] eqn:Hwrap; simpl; [|reflexivity].
  rewrite Hp, Hs.
  destruct (iqr_outliers_range _ _ _) as [[lower upper]|e]; [|reflexivity].
  set (arr := concat values).
  assert (Hshow : forall n,
    exists c,
      mapM (corpus_item trim dataset values (lengths_cumsum values) arr)
        (slice_to (bottom_outliers arr lower) n
         ++ slice_from (top_outliers arr upper) (- n)%Z) = Ok c).
  { intros n; apply mapM_total; intros i Hi.
    apply corpus_item_total; [apply Htext; reflexivity|].
    apply (outlier_position_lt arr lower upper).
    apply in_app_or in Hi as [Hi | Hi]; apply in_or_app;
      [left; exact (In_slice_to _ _ _ Hi) | right; exact (In_slice_from _ _ _ Hi)]. }
  destruct (Hshow (n_show_top self)) as [c Hc].
  destruct (Hshow (n_show_top self')) as [c' Hc'].
  rewrite Hc, Hc'; reflexivity.
Qed.

Lemma scan_loop_n_show_top (self self' : Check) (dataset : TextData)
  (props : list (string * column)) (res : list (string * entry)) :
  iqr_percentiles self' = iqr_percentiles self ->
  iqr_scale self' = iqr_scale self ->
  (forall kv values, In kv props -> wrap_values (snd kv) = Ok values ->
     length (text dataset) = length values) ->
  scan_loop iqr_outliers_range trim self' dataset props res
  = scan_loop iqr_outliers_range trim self dataset props res.
Proof.
  intros Hp Hs; revert res; induction props as [|[name col] t IH];
    intros res Htext; simpl; [reflexivity|].
  rewrite (scan_property_n_show_top self self' dataset col Hp Hs)
    by (intros values; apply (Htext (name, col)); left; reflexivity).
  destruct (scan_property _ _ self dataset col) as [e|e]; simpl; [|reflexivity].
  apply IH; intros kv values Hin; apply Htext; right; exact Hin.
Qed.

(** X6.  The texts gathered for display (lines 142-154) are dropped:
    on a dataset that has one text per sample of every property, the
    value that [run_logic] returns does not depend on [n_show_top]. *)
Theorem n_show_top_does_not_change_the_result
  (self : Check) (n : Z) (dataset : TextData) :
  (forall name col values,
     In (name, col) (properties dataset) -> wrap_values col = Ok values ->
     length (text dataset) = length values) ->
  run_logic iqr_outliers_range trim
    {| n_show_top := n; iqr_percentiles := iqr_percentiles self;
       iqr_scale := iqr_scale self |} dataset
  = run_logic iqr_outliers_range trim self dataset.
Proof.
  intros Htext; unfold run_logic.
  destruct (numeric_columns _ _) as [cols|e] eqn:Hcols; simpl; [|reflexivity].
  apply scan_loop_n_show_top; try reflexivity.
  intros [name col] values Hin Hwrap; simpl in Hwrap.
  destruct (to_dict_from cols []) as [_ [_ Hsub]].
  destruct (Hsub _ Hin) as [[] | Hin'].
  apply (numeric_columns_In _ _ _ Hcols) in Hin' as [Hin' _].
  apply (Htext name col values Hin' Hwrap).
Qed.

Lemma scan_loop_keys (self : Check) (dataset : TextData)
  (props : list (string * column)) (res final : list (string * entry)) :
  scan_loop iqr_outliers_range trim self dataset props res = Ok final ->
  (NoDup (map fst res) -> NoDup (map fst final))
  /\ (forall k, In k (map fst final)
                <-> In k (map fst res) \/ In k (map fst props)).
Proof.
  revert res; induction props as [|[name col] t IH]; simpl; intros res H.
  - inversion H; subst; split; [auto | intros k; tauto].
  - destruct (scan_property _ _ self dataset col) as [e|e]; simpl in H;
      [|discriminate].
    destruct (IH _ H) as [Hnd Hkeys]; split.
    + intros Hres; apply Hnd, keys_dict_set_NoDup, Hres.
    + intros k; rewrite Hkeys, keys_dict_set.
      split; [intros [[E | E] | E] | intros [E | [E | E]]]; auto.
Qed.

(** X7.  Lines 106-112: when the scan returns, its result has one entry
    for each property whose declared type is ['numeric'], under the
    property's name, and no entry for any other property. *)
Theorem result_has_the_numeric_properties
  (self : Check) (dataset : TextData) (res : list (string * entry)) :
  run_logic iqr_outliers_range trim self dataset = Ok res ->
  NoDup (map fst res)
  /\ forall name,
       In name (map fst res)
       <-> In name (map fst (properties dataset))
           /\ dict_get (properties_types dataset) name = Some "numeric".
Proof.
  unfold run_logic; intros H.
  destruct (numeric_columns _ _) as [cols|e] eqn:Hcols; simpl in H;
    [|discriminate].
  destruct (scan_loop_keys _ _ _ _ _ H) as [Hnd Hkeys].
  destruct (to_dict_from cols []) as [Hnd' [Hkeys' _]]; simpl in *.
  split; [apply Hnd; constructor|].
  intros name; rewrite Hkeys, Hkeys'.
  split.
  - intros [[] | [[] | Hin]].
    apply in_map_iff in Hin as [[n c] [Hfst Hin]]; simpl in Hfst; subst n.
    apply (numeric_columns_In _ _ _ Hcols) in Hin as [Hin Hty].
    split; [|exact Hty].
    apply in_map_iff; exists (name, c); auto.
  - intros [Hin Hty]; right; right.
    apply in_map_iff in Hin as [[n c] [Hfst Hin]]; simpl in Hfst; subst n.
    apply in_map_iff; exists (name, c); split; [reflexivity|].
    apply (numeric_columns_In _ _ _ Hcols); auto.
Qed.

(** X8.  Line 107: the type of every property is looked up, numeric or
    not; a property without a declared type makes the scan raise
    [KeyError] before any property is scanned. *)
Theorem property_without_type_is_KeyError
  (self : Check) (dataset : TextData) (name : string) :
  In name (map fst (properties dataset)) ->
  dict_get (properties_types dataset) name = None ->
  run_logic iqr_outliers_range trim self dataset = Raise KeyError.
Proof.
  intros Hin Hnone; unfold run_logic.
  rewrite (numeric_columns_untyped _ _ name Hin Hnone); reflexivity.
Qed.

Lemma scan_property_total (self : Check) (dataset : TextData) (col : column) :
  (forall arr e,
     iqr_outliers_range arr (iqr_percentiles self) (iqr_scale self) = Raise e ->
     e = NotEnoughSamplesError) ->
  (exists values,
     wrap_values col = Ok values
     /\ concat values <> []
     /\ length (index dataset) = length values
     /\ length (text dataset) = length values) ->
  exists e, scan_property iqr_outliers_range trim self dataset col = Ok e.
Proof.
  intros Hest [values [Hwrap [Hne [Hindex Htext]]]].
  destruct (iqr_outliers_range (concat values) (iqr_percentiles self)
              (iqr_scale self)) as [[lower upper]|e] eqn:Hiqr.
  - destruct (scan_property_found iqr_outliers_range trim self dataset col
                values lower upper Hwrap Hiqr Hne Hindex Htext)
      as [to [ids [lo [hi [_ [_ [_ [_ H]]]]]]]].
    eexists; exact H.
  - exists (Message not_enough_message).
    unfold scan_property; rewrite Hwrap; simpl; rewrite Hiqr.
    rewrite (Hest _ _ Hiqr); reflexivity.
Qed.

Lemma scan_loop_total (self : Check) (dataset : TextData)
  (props : list (string * column)) (res : list (string * entry)) :
  (forall kv, In kv props ->
     exists e, scan_property iqr_outliers_range trim self dataset (snd kv) = Ok e) ->
  exists final,
    scan_loop iqr_outliers_range trim self dataset props res = Ok final.
Proof.
  revert res; induction props as [|[name col] t IH]; intros res H; simpl.
  - eexists; reflexivity.
  - destruct (H (name, col)) as [e He]; [left; reflexivity|].
    simpl in He; rewrite He; simpl.
    apply IH; intros kv Hin; apply H; right; exact Hin.
Qed.

(** X9.  Lines 100-166 raise nothing on a well-formed dataset of
    numbers: when every property has a declared type, every property
    column has at least one value (numbers and nulls, which is all that a
    column of the embedding holds) and one entry per index label and per
    text, and the estimator fails only for want of samples, [run_logic]
    called without display returns its result with no display, and
    called with display returns the same result whenever the building of
    the display returns. *)
Theorem scan_of_well_formed_dataset_returns
  (D : Type) (build_display : TextData -> list (string * entry) -> result D)
  (self : Check) (dataset : TextData) :
  (forall arr e,
     iqr_outliers_range arr (iqr_percentiles self) (iqr_scale self) = Raise e ->
     e = NotEnoughSamplesError) ->
  (forall name, In name (map fst (properties dataset)) ->
     dict_get (properties_types dataset) name <> None) ->
  (forall name col, In (name, col) (properties dataset) ->
     exists values,
       wrap_values col = Ok values
       /\ concat values <> []
       /\ length (index dataset) = length values
       /\ length (text dataset) = length values) ->
  exists value,
    run_logic_CheckResult iqr_outliers_range trim D build_display false self
      dataset = Ok (value, None)
    /\ forall display,
         build_display dataset value = Ok display ->
         run_logic_CheckResult iqr_outliers_range trim D build_display true
           self dataset = Ok (value, Some display).
Proof.
  intros Hest Htyped Hshape.
  assert (Hvalue : exists value,
            run_logic iqr_outliers_range trim self dataset = Ok value).
  { unfold run_logic.
    destruct (numeric_columns_typed _ _ Htyped) as [cols Hcols].
    rewrite Hcols; simpl.
    apply scan_loop_total; intros [name col] Hin; simpl.
    apply scan_property_total; [exact Hest|].
    destruct (to_dict_from cols []) as [_ [_ Hsub]].
    destruct (Hsub _ Hin) as [[] | Hin'].
    apply (numeric_columns_In _ _ _ Hcols) in Hin' as [Hin' _].
    apply (Hshape name col Hin'). }
  destruct Hvalue as [value Hvalue]; exists value.
  unfold run_logic_CheckResult; rewrite Hvalue; simpl.
  split; [reflexivity|].
  intros display ->; reflexivity.
Qed.

Lemma scan_loop_Forall2 (self : Check) (dataset : TextData)
  (props : list (string * column)) (entries : list entry)
  (res : list (string * entry)) :
  Forall2 (fun p e =>
             scan_property iqr_outliers_range trim self dataset (snd p) = Ok e)
    props entries ->
  NoDup (map fst props) ->
  exists final,
    scan_loop iqr_outliers_range trim self dataset props res = Ok final
    /\ (forall k, ~ In k (map fst props) -> dict_get final k = dict_get res k)
    /\ (forall p e, In (p, e) (combine props entries) ->
          dict_get final (fst p) = Some e).
Proof.
  intros Hall; revert res.
  induction Hall as [|[name col] e props entries He Hall IH]; intros res Hnd.
  - exists res; simpl; repeat split; auto; intros p e [].
  - simpl in He, Hnd; inversion Hnd as [|? ? Hfresh Hnd']; subst.
    destruct (IH (dict_set res name e) Hnd') as [final [Hfinal [Hkeep Hget]]].
    exists final; simpl; rewrite He; simpl.
    split; [exact Hfinal|]; split.
    + intros k Hk; rewrite Hkeep by tauto.
      apply dict_get_set_other; intros ->; apply Hk; left; reflexivity.
    + intros p e' [Heq | Hin].
      * inversion Heq; subst p e'; simpl.
        rewrite (Hkeep name Hfresh); apply dict_get_set_same.
      * apply Hget; exact Hin.
Qed.

Lemma combine_around {A B : Type} (l1 l2 : list A) (m1 m2 : list B)
  (x : A) (y : B) :
  length l1 = length m1 ->
  combine (l1 ++ x :: l2) (m1 ++ y :: m2)
  = combine l1 m1 ++ (x, y) :: combine l2 m2.
Proof.
  revert m1; induction l1 as [|a l1 IH]; intros [|b m1] H; simpl in *;
    try discriminate; [reflexivity|].
  rewrite IH by lia; reflexivity.
Qed.

(** C5.  When the estimator signals too few samples for a property, the
    scan of that property yields the textual placeholder and raises
    nothing, and the scan goes on: provided the other numeric properties
    are scanned without error, [run_logic] returns, its result holds the
    placeholder (and so no outlier record) under the name of that
    property, and it holds under their names the entries of the
    properties scanned before it and of those scanned after it. *)
Theorem insufficient_samples_give_placeholder (self : Check) (dataset : TextData)
  (cols before after : list (string * column)) (name : string) (col : column)
  (values : list (list float)) (entries_before entries_after : list entry) :
  numeric_columns (properties_types dataset) (properties dataset) = Ok cols ->
  to_dict cols = before ++ (name, col) :: after ->
  wrap_values col = Ok values ->
  iqr_outliers_range (concat values) (iqr_percentiles self) (iqr_scale self)
  = Raise NotEnoughSamplesError ->
  Forall2 (fun p e =>
             scan_property iqr_outliers_range trim self dataset (snd p) = Ok e)
    before entries_before ->
  Forall2 (fun p e =>
             scan_property iqr_outliers_range trim self dataset (snd p) = Ok e)
    after entries_after ->
  scan_property iqr_outliers_range trim self dataset col
  = Ok (Message not_enough_message)
  /\ exists final,
       run_logic iqr_outliers_range trim self dataset = Ok final
       /\ dict_get final name = Some (Message not_enough_message)
       /\ (forall r, dict_get final name <> Some (Found r))
       /\ (forall p e, In (p, e) (combine before entries_before) ->
             dict_get final (fst p) = Some e)
       /\ (forall p e, In (p, e) (combine after entries_after) ->
             dict_get final (fst p) = Some e).
Proof.
  intros Hcols Hdict Hwrap Hiqr Hbefore Hafter.
  assert (Hscan : scan_property iqr_outliers_range trim self dataset col
                  = Ok (Message not_enough_message)).
  { unfold scan_property; rewrite Hwrap; simpl; rewrite Hiqr; reflexivity. }
  split; [exact Hscan|].
  assert (Hall : Forall2
                   (fun p e =>
                      scan_property iqr_outliers_range trim self dataset (snd p)
                      = Ok e)
                   (before ++ (name, col) :: after)
                   (entries_before ++ Message not_enough_message :: entries_after)).
  { apply Forall2_app; [exact Hbefore|].
    constructor; [exact Hscan | exact Hafter]. }
  assert (Hnd : NoDup (map fst (before ++ (name, col) :: after))).
  { rewrite <- Hdict.
    destruct (to_dict_from cols []) as [Hnd _]; apply Hnd; constructor. }
  destruct (scan_loop_Forall2 self dataset _ _ [] Hall Hnd)
    as [final [Hfinal [_ Hget]]].
  rewrite (combine_around _ _ _ _ _ _ (Forall2_length Hbefore)) in Hget.
  assert (Hname : dict_get final name = Some (Message not_enough_message)).
  { apply (Hget (name, col)), in_or_app; right; left; reflexivity. }
  exists final; unfold run_logic; rewrite Hcols; simpl; rewrite Hdict.
  split; [exact Hfinal|]; split; [exact Hname|]; split; [|split].
  - intros r; rewrite Hname; discriminate.
  - intros p e Hin; apply Hget, in_or_app; left; exact Hin.
  - intros p e Hin; apply Hget, in_or_app; right; right; exact Hin.
Qed.

End WholeProofs.

End ScanWhole.

Module ScanWholeExamples.
Import TextPropertyOutliers ScanSamples ScanWhole.

(** Among the word lengths of the sample dataset the estimator's bounds
    are 2.5 and 6.5; the only sample reported is the one holding the
    length 40. *)
Lemma reported_indices_are_the_outlying_samples_witness :
  In (LInt 103) [LInt 103]
  <-> exists s vs v,
        nth_error
          [[F 3; F 4]; []; [F 5]; [F 4; F 4; F 40]; [F 3]; [F 5]; [F 4];
           [F 5; F 3]; [F 4]; [F 4; F 5]] s = Some vs
        /\ In v vs
        /\ (flt v (Fin (5 # 2)) = true \/ fgt v (Fin (13 # 2)) = true)
        /\ nth_error (index data) s = Some (LInt 103).
Proof.
  refine (reported_indices_are_the_outlying_samples estimator trim
            default_check data words_col _ (Fin (5 # 2)) (Fin (13 # 2))
            {| indices := [LInt 103];
               lower_limit := Fin (inject_Z 3);
               upper_limit := Fin (13 # 2) |} _ _ _ (LInt 103)).
  - reflexivity.
  - vm_compute; reflexivity.
  - vm_compute; reflexivity.
Defined.

Lemma sample_dataset_has_its_texts (name : string) (col : column)
  (values : list (list float)) :
  In (name, col) (properties data) -> wrap_values col = Ok values ->
  length (text data) = length values.
Proof.
  intros Hin Hwrap; simpl in Hin.
  destruct Hin as [H | [H | [H | [H | []]]]]; inversion H; subst col;
    vm_compute in Hwrap; inversion Hwrap; reflexivity.
Qed.

Lemma n_show_top_does_not_change_the_result_witness :
  run_logic estimator trim
    {| n_show_top := 0; iqr_percentiles := (25, 75)%Z; iqr_scale := 1.5%Q |}
    data
  = run_logic estimator trim default_check data.
Proof.
  apply (n_show_top_does_not_change_the_result estimator trim default_check
           0%Z data).
  exact sample_dataset_has_its_texts.
Defined.

Lemma result_has_the_numeric_properties_witness :
  NoDup ["Text Length"; "Sentiment"; "Word Lengths"]
  /\ forall name,
       In name ["Text Length"; "Sentiment"; "Word Lengths"]
       <-> In name (map fst (properties data))
           /\ dict_get (properties_types data) name = Some "numeric".
Proof.
  refine (result_has_the_numeric_properties estimator trim default_check data
            [("Text Length",
              Found {| indices := [LInt 109];
                       lower_limit := Fin (inject_Z 10);
                       upper_limit := Fin (151 # 8) |});
             ("Sentiment", Message not_enough_message);
             ("Word Lengths",
              Found {| indices := [LInt 103];
                       lower_limit := Fin (inject_Z 3);
                       upper_limit := Fin (13 # 2) |})] _).
  vm_compute; reflexivity.
Defined.

Lemma property_without_type_is_KeyError_witness :
  run_logic estimator trim default_check
    {| index := [LInt 0]; text := ["a"];
       properties := [("Text Length", Scalars [F 1])];
       properties_types := [("Sentiment", "numeric")] |}
  = Raise KeyError.
Proof.
  apply (property_without_type_is_KeyError estimator trim default_check _
           "Text Length").
  - left; reflexivity.
  - reflexivity.
Defined.

Lemma estimator_fails_for_want_of_samples_only (arr : list float)
  (iqr_range : Z * Z) (scale : Q) (e : exn) :
  estimator arr iqr_range scale = Raise e -> e = NotEnoughSamplesError.
Proof.
  unfold estimator, Estimator.iqr_outliers_range.
  destruct (_ <? _); intros H; [inversion H; reflexivity | discriminate].
Qed.

Lemma scan_of_well_formed_dataset_returns_witness :
  exists value,
    run_logic_CheckResult estimator trim unit (fun _ _ => Raise ValueError)
      false default_check data = Ok (value, None).
Proof.
  destruct (scan_of_well_formed_dataset_returns estimator trim unit
              (fun _ _ => Raise ValueError) default_check data)
    as [value [Hvalue _]].
  - intros arr e; apply estimator_fails_for_want_of_samples_only.
  - intros name Hin; simpl in Hin.
    destruct Hin as [H | [H | [H | [H | []]]]]; subst name; discriminate.
  - intros name col Hin; simpl in Hin.
    destruct Hin as [H | [H | [H | [H | []]]]]; inversion H; subst col;
      (eexists; split; [reflexivity|]; split; [discriminate|];
       split; reflexivity).
  - exists value; exact Hvalue.
Defined.

(** The sentiment of the sample dataset is known for one text only: its
    entry is the placeholder, and the properties before and after it have
    their records. *)
Lemma insufficient_samples_give_placeholder_witness :
  exists final,
    run_logic estimator trim default_check data = Ok final
    /\ dict_get final "Sentiment" = Some (Message not_enough_message)
    /\ dict_get final "Text Length"
       = Some (Found {| indices := [LInt 109];
                        lower_limit := Fin (inject_Z 10);
                        upper_limit := Fin (151 # 8) |})
    /\ dict_get final "Word Lengths"
       = Some (Found {| indices := [LInt 103];
                        lower_limit := Fin (inject_Z 3);
                        upper_limit := Fin (13 # 2) |}).
Proof.
  destruct (insufficient_samples_give_placeholder estimator trim default_check
              data
              [("Text Length", lengths_col); ("Sentiment", sentiment_col);
               ("Word Lengths", words_col)]
              [("Text Length", lengths_col)] [("Word Lengths", words_col)]
              "Sentiment" sentiment_col
              (map (fun x => [x])
                 [NaN; NaN; NaN; F 1; NaN; NaN; NaN; NaN; NaN; NaN])
              [Found {| indices := [LInt 109];
                        lower_limit := Fin (inject_Z 10);
                        upper_limit := Fin (151 # 8) |}]
              [Found {| indices := [LInt 103];
                        lower_limit := Fin (inject_Z 3);
                        upper_limit := Fin (13 # 2) |}])
    as [_ [final [Hfinal [Hname [_ [Hbefore Hafter]]]]]].
  - reflexivity.
  - reflexivity.
  - reflexivity.
  - vm_compute; reflexivity.
  - constructor; [vm_compute; reflexivity | constructor].
  - constructor; [vm_compute; reflexivity | constructor].
  - exists final; split; [exact Hfinal|]; split; [exact Hname|]; split.
    + apply (Hbefore ("Text Length", lengths_col)); left; reflexivity.
    + apply (Hafter ("Word Lengths", words_col)); left; reflexivity.
Defined.

End ScanWholeExamples.

(* ----------------------------------------------------------------- *)
(** ** Class lists gathered from observed values *)

Module ClassListFacts.
Import PyFacts ContextFacts.

Lemma In_unique (l : list Z) (z : Z) : In z (unique l) <-> In z l.
Proof.
  induction l as [|x t IH]; simpl; [tauto|].
  rewrite filter_In, IH.
  destruct (Z.eq_dec x z) as [-> | Hne].
  - split; auto.
  - split.
    + intros [H | [H _]]; auto.
    + intros [H | H]; [auto|].
      right; split; [exact H|].
      apply negb_true_iff, Z.eqb_neq; exact Hne.
Qed.

Lemma NoDup_unique (l : list Z) : NoDup (unique l).
Proof.
  induction l as [|x t IH]; simpl; constructor.
  - rewrite filter_In, Z.eqb_refl; intros [_ H]; discriminate.
  - apply NoDup_filter, IH.
Qed.

Lemma In_dropna (l : list (option Z)) (z : Z) :
  In z (dropna l) <-> In (Some z) l.
Proof.
  unfold dropna; rewrite in_flat_map; split.
  - intros [[y|] [Hin Hz]]; simpl in Hz; [|contradiction].
    destruct Hz as [-> | []]; exact Hin.
  - intros H; exists (Some z); split; [exact H | left; reflexivity].
Qed.

Lemma In_map_Some (l : list Z) (z : Z) : In (Some z) (map Some l) <-> In z l.
Proof.
  rewrite in_map_iff; split.
  - intros [x [Hx Hin]]; inversion Hx; subst; exact Hin.
  - intros H; exists z; auto.
Qed.

Lemma In_sorted (l : list Z) (z : Z) : In z (sorted l) <-> In z l.
Proof.
  unfold sorted; split; intros H.
  - exact (Permutation_in _ (isort_perm Z.leb l) H).
  - exact (Permutation_in _ (Permutation_sym (isort_perm Z.leb l)) H).
Qed.

Lemma Sorted_le_NoDup_lt (l : list Z) :
  Sorted Z.le l -> NoDup l -> StronglySorted Z.lt l.
Proof.
  intros Hs Hnd; apply Sorted_StronglySorted; [intros x y z; lia|].
  induction Hs as [|a l Hs IH Hhd]; constructor.
  - apply IH; inversion Hnd; assumption.
  - destruct Hhd as [|b l Hab]; constructor.
    inversion Hnd as [|? ? Hnot _]; subst.
    assert (a <> b) by (intros ->; apply Hnot; left; reflexivity).
    lia.
Qed.

(** [sorted(pd.Series(labels).dropna().unique())]: the non-null values,
    each once, in strictly ascending order. *)
Lemma observed_classes_spec (labels : list (option Z)) :
  StronglySorted Z.lt (sorted (unique (dropna labels)))
  /\ forall z, In z (sorted (unique (dropna labels))) <-> In (Some z) labels.
Proof.
  split.
  - apply Sorted_le_NoDup_lt; [apply isort_sorted|].
    apply (Permutation_NoDup (Permutation_sym (isort_perm Z.leb _))),
      NoDup_unique.
  - intros z; rewrite In_sorted, In_unique, In_dropna; reflexivity.
Qed.

End ClassListFacts.

(* ----------------------------------------------------------------- *)
(** ** Class and task inference *)

Module InferenceFacts.
Import TaskInference ContextFacts ClassListFacts.

Section InferenceProofs.
Variable is_string_column : option (list (option Z)) -> bool.
Variable is_categorical : list (option Z) -> Q -> bool.
Variable doclink : string -> string -> string.

Let get_possible_classes :=
  get_possible_classes is_string_column is_categorical doclink.
Let infer_task_type := infer_task_type is_string_column is_categorical doclink.

(** X10.  With [force_classification] the function never answers
    [None]: it returns a class list or raises. *)
Theorem forced_classification_gives_classes (model : option Model)
  (train_dataset test_dataset : option Dataset) :
  (exists cs,
     get_possible_classes model train_dataset test_dataset true = Ok (Some cs))
  \/ (exists e,
        get_possible_classes model train_dataset test_dataset true = Raise e).
Proof.
  unfold get_possible_classes, TaskInference.get_possible_classes.
  destruct train_dataset as [train|]; [|right; eexists; reflexivity].
  destruct (_label_classes train) as [lc|].
  - destruct (model_classes_attr model) as [cs|];
      [|left; eexists; reflexivity].
    destruct (negb (list_eqb cs lc));
      [right | left]; eexists; reflexivity.
  - destruct (model_classes_attr model) as [cs|];
      [left; eexists; reflexivity|].
    rewrite andb_false_r.
    destruct (label_list train) as [lt|e]; simpl;
      [|right; eexists; reflexivity].
    destruct (match test_dataset with
              | Some test => label_list test
              | None => Ok []
              end) as [lte|e]; simpl; [|right; eexists; reflexivity].
    destruct model; [left; eexists; reflexivity|].
    rewrite orb_true_r; left; eexists; reflexivity.
Qed.

(** X11.  Lines 62-66: the classes that a model declares are never
    contradicted.  Whenever the model has a non-empty [classes_], the
    function returns exactly that list or raises. *)
Theorem declared_model_classes_are_returned (model : option Model)
  (train_dataset test_dataset : option Dataset) (force : bool)
  (cs : list Z) (r : option (list Z)) :
  model_classes_attr model = Some cs ->
  get_possible_classes model train_dataset test_dataset force = Ok r ->
  r = Some cs.
Proof.
  intros Hcs; unfold get_possible_classes, TaskInference.get_possible_classes.
  destruct train_dataset as [train|]; [|discriminate].
  rewrite Hcs.
  destruct (_label_classes train) as [lc|].
  - destruct (list_eqb cs lc) eqn:E; simpl; [|discriminate].
    apply list_eqb_eq in E; subst lc; intros H; inversion H; reflexivity.
  - intros H; inversion H; reflexivity.
Qed.

(** X12.  Lines 77-87: when neither the dataset nor the model declares
    classes, a class list that is returned consists of the non-null
    labels of the datasets and the predictions of the model on them,
    each once, in strictly ascending order. *)
Theorem inferred_classes_are_the_observed_values (model : option Model)
  (train : Dataset) (test_dataset : option Dataset) (force : bool)
  (cs : list Z) :
  _label_classes train = None ->
  model_classes_attr model = None ->
  get_possible_classes model (Some train) test_dataset force = Ok (Some cs) ->
  StronglySorted Z.lt cs
  /\ forall z,
       In z cs
       <-> (exists l, label_col train = Some l /\ In (Some z) l)
           \/ (exists te l, test_dataset = Some te /\ label_col te = Some l
                            /\ In (Some z) l)
           \/ (exists m, model = Some m
                         /\ In z (predict m (features_columns train)))
           \/ (exists m te, model = Some m /\ test_dataset = Some te
                            /\ In z (predict m (features_columns te))).
Proof.
  intros Hlc Hmc; unfold get_possible_classes, TaskInference.get_possible_classes.
  rewrite Hlc, Hmc.
  destruct (_ && negb force).
  { destruct (is_string_column _); [discriminate|].
    destruct (match model with Some m => is_ClassifierMixin m | None => false end);
      discriminate. }
  unfold label_list.
  destruct (label_col train) as [lt|] eqn:Elt; simpl; [|discriminate].
  assert (Hshape : forall labels : list (option Z),
            sorted (unique (dropna labels)) = cs ->
            StronglySorted Z.lt cs
            /\ forall z, In z cs <-> In (Some z) labels).
  { intros labels H; subst cs; apply observed_classes_spec. }
  destruct test_dataset as [te|].
  - destruct (label_col te) as [lte|] eqn:Elte; simpl; [|discriminate].
    destruct model as [m|].
    + intros H; injection H as H'; destruct (Hshape _ H') as [Hs Hin].
      split; [exact Hs|]; intros z.
      rewrite Hin, !in_app_iff, In_map_Some, in_app_iff.
      split.
      * intros [[Hz | Hz] | [Hz | Hz]].
        -- left; exists lt; auto.
        -- right; left; exists te, lte; auto.
        -- right; right; left; exists m; auto.
        -- right; right; right; exists m, te; auto.
      * intros [[l [Hl Hz]] | [[te' [l [Ht [Hl Hz]]]]
                              | [[m' [Hm Hz]] | [m' [te' [Hm [Ht Hz]]]]]]].
        -- inversion Hl; subst l; auto.
        -- inversion Ht; subst te'; rewrite Elte in Hl; inversion Hl; subst l; auto.
        -- inversion Hm; subst m'; auto.
        -- inversion Hm; inversion Ht; subst m' te'; auto.
    + destruct (_ || force); [|discriminate].
      intros H; injection H as H'; destruct (Hshape _ H') as [Hs Hin].
      split; [exact Hs|]; intros z; rewrite Hin, in_app_iff.
      split.
      * intros [Hz | Hz]; [left; exists lt; auto|].
        right; left; exists te, lte; auto.
      * intros [[l [Hl Hz]] | [[te' [l [Ht [Hl Hz]]]]
                              | [[m' [Hm _]] | [m' [_ [Hm _]]]]]];
          try discriminate.
        -- inversion Hl; subst l; auto.
        -- inversion Ht; subst te'; rewrite Elte in Hl; inversion Hl; subst l; auto.
  - simpl; rewrite ?app_nil_r.
    destruct model as [m|]; rewrite ?app_nil_r.
    + intros H; injection H as H'; destruct (Hshape _ H') as [Hs Hin].
      split; [exact Hs|]; intros z.
      rewrite Hin, in_app_iff, In_map_Some.
      split.
      * intros [Hz | Hz].
        -- left; exists lt; auto.
        -- right; right; left; exists m; auto.
      * intros [[l [Hl Hz]] | [[te' [l [Ht _]]]
                              | [[m' [Hm Hz]] | [m' [te' [_ [Ht _]]]]]]];
          try discriminate.
        -- inversion Hl; subst l; auto.
        -- inversion Hm; subst m'; auto.
    + destruct (_ || force); [|discriminate].
      intros H; injection H as H'; destruct (Hshape _ H') as [Hs Hin].
      split; [exact Hs|]; intros z; rewrite Hin.
      split.
      * intros Hz; left; exists lt; auto.
      * intros [[l [Hl Hz]] | [[te' [l [Ht _]]]
                              | [[m' [Hm _]] | [m' [te' [_ [Ht _]]]]]]];
          try discriminate.
        inversion Hl; subst l; auto.
Qed.

(** X13.  The task is inferred to be a regression only when nothing
    declares classes and either the model lacks [predict_proba] (with a
    label column that is not made of strings, and not being a sklearn
    classifier) or there is no model and the observed labels are not
    categorical.  In particular a model that has [predict_proba], or one
    that declares classes, is never taken for a regressor. *)
Theorem regression_is_inferred_only_without_classes (model : option Model)
  (train : Dataset) (test_dataset : option Dataset) :
  infer_task_type model (Some train) test_dataset = Ok REGRESSION ->
  _label_classes train = None
  /\ model_classes_attr model = None
  /\ ((exists m, model = Some m /\ has_predict_proba m = false
                 /\ is_string_column (label_col train) = false
                 /\ is_ClassifierMixin m = false)
      \/ (model = None
          /\ exists lt lte,
               label_col train = Some lt
               /\ match test_dataset with
                  | Some te => label_col te = Some lte
                  | None => lte = []
                  end
               /\ is_categorical (lt ++ lte) 0.05%Q = false)).
Proof.
  unfold infer_task_type, TaskInference.infer_task_type,
    TaskInference.get_possible_classes.
  destruct (_label_classes train) as [lc|].
  { destruct (model_classes_attr model) as [cs|].
    - destruct (negb (list_eqb cs lc)); simpl; [discriminate|].
      destruct (length lc =? 2); discriminate.
    - simpl; destruct (length lc =? 2); discriminate. }
  destruct (model_classes_attr model) as [cs|].
  { simpl; destruct (length cs =? 2); discriminate. }
  intros H; split; [reflexivity|]; split; [reflexivity|].
  destruct model as [m|].
  - left; exists m; split; [reflexivity|].
    rewrite andb_true_r in H.
    destruct (has_predict_proba m); simpl in H.
    + unfold label_list in H.
      destruct (label_col train); simpl in H; [|discriminate].
      destruct test_dataset as [te|]; simpl in H.
      * destruct (label_col te); simpl in H; [|discriminate].
        destruct (length _ =? 2); discriminate.
      * destruct (length _ =? 2); discriminate.
    + destruct (is_string_column (label_col train)); [discriminate|].
      destruct (is_ClassifierMixin m); [discriminate|]; auto.
  - right; split; [reflexivity|].
    simpl in H; unfold label_list in H.
    destruct (label_col train) as [lt|]; simpl in H; [|discriminate].
    destruct test_dataset as [te|]; simpl in H.
    + destruct (label_col te) as [lte|]; simpl in H; [|discriminate].
      rewrite orb_false_r in H.
      destruct (is_categorical (lt ++ lte) 0.05%Q) eqn:E; simpl in H.
      * destruct (length _ =? 2); discriminate.
      * exists lt, lte; auto.
    + rewrite orb_false_r in H.
      destruct (is_categorical (lt ++ []) 0.05%Q) eqn:E; simpl in H.
      * destruct (length _ =? 2); discriminate.
      * exists lt, []; auto.
Qed.

End InferenceProofs.

End InferenceFacts.

Module InferenceExamples.
Import TaskInference InferenceSamples InferenceFacts.

Lemma declared_model_classes_are_returned_witness :
  exists r,
    get_possible_classes (fun _ => false) (fun _ _ => true) (fun _ t => t)
      (Some classifier) (Some (TabularSamples.dataset [0; 1; 1]%Z)) None false
    = Ok r
    /\ r = Some [0; 1]%Z.
Proof.
  exists (Some [0; 1]%Z); split; [reflexivity|].
  apply (declared_model_classes_are_returned (fun _ => false) (fun _ _ => true)
           (fun _ t => t) (Some classifier)
           (Some (TabularSamples.dataset [0; 1; 1]%Z)) None false);
    reflexivity.
Defined.

(** Labels 0, 1, 1 and a model that predicts 2 everywhere: the classes
    are 0, 1 and 2. *)
Lemma inferred_classes_are_the_observed_values_witness :
  get_possible_classes (fun _ => false) (fun _ _ => true) (fun _ t => t)
    (Some undeclared) (Some (TabularSamples.dataset [0; 1; 1]%Z)) None false
  = Ok (Some [0; 1; 2]%Z)
  /\ StronglySorted Z.lt [0; 1; 2]%Z.
Proof.
  split; [reflexivity|].
  apply (inferred_classes_are_the_observed_values (fun _ => false)
           (fun _ _ => true) (fun _ t => t) (Some undeclared)
           (TabularSamples.dataset [0; 1; 1]%Z) None false [0; 1; 2]%Z);
    reflexivity.
Defined.

Lemma regression_is_inferred_only_without_classes_witness :
  _label_classes (TabularSamples.dataset [3; 1; 4]%Z) = None
  /\ model_classes_attr None = None
  /\ ((exists m, None = Some m /\ has_predict_proba m = false
                 /\ false = false /\ is_ClassifierMixin m = false)
      \/ (@None Model = None
          /\ exists lt lte : list (option Z),
               label_col (TabularSamples.dataset [3; 1; 4]%Z) = Some lt
               /\ lte = []
               /\ false = false)).
Proof.
  apply (regression_is_inferred_only_without_classes (fun _ => false)
           (fun _ _ => false) (fun _ t => t) None
           (TabularSamples.dataset [3; 1; 4]%Z) None).
  reflexivity.
Defined.

End InferenceExamples.

(* ----------------------------------------------------------------- *)
(** ** More on the construction of a context *)

Module ConstructionFacts.
Import StaticPredictions TabularContext ContextFacts ClassListFacts.

Section ConstructionProofs.
Variable X : Collaborators.

(** X14.  Lines 212-214: a test dataset that is not accompanied by a
    train dataset (none given, or one whose truth value is false, as an
    empty dataset) is rejected, whatever else is passed. *)
Theorem test_without_train_is_rejected (a : Args) :
  truthy_dataset X (named_test X a) = true ->
  truthy_dataset X (named_train X a) = false ->
  Context_init X a
  = ([], Raise (DatasetValidationError
                  ("Can't initialize context with only test. if you have single dataset, "
                   ++ "initialize it as train"))).
Proof.
  intros Hte Htr; unfold Context_init, validate_inputs.
  assert (Hsome : is_some (test a) = true).
  { unfold named_test, default_name in Hte.
    destruct (test a); [reflexivity | discriminate]. }
  rewrite Hsome, orb_true_r; simpl.
  rewrite Hte, Htr; simpl.
  unfold truthy_dataset in Hte, Htr.
  destruct (named_train X a) as [tr|], (named_test X a) as [te|];
    try discriminate; [rewrite Htr|]; reflexivity.
Qed.

(** X15.  Lines 240-251: a model object takes precedence over static
    predictions.  The context holds the object itself, no adapter is
    built, nothing is logged, the datasets are kept as given (under
    their default names) and no observed classes are recorded. *)
Theorem model_object_takes_precedence (a : Args) (m : Model)
  (w : list string) (ctx : Context) :
  model a = Some m ->
  Context_init X a = (w, Ok ctx) ->
  w = []
  /\ _model ctx = Some (Estimator m)
  /\ _observed_classes ctx = None
  /\ _train ctx = named_train X a
  /\ _test ctx = named_test X a
  /\ _calculated_importance ctx = is_some (feature_importance a).
Proof.
  intros Hm; unfold Context_init.
  destruct (validate_inputs X a) as [[[tr te] fi]|e] eqn:Hv; [|discriminate].
  destruct (validate_inputs_ok X a tr te fi Hv) as [-> ->].
  destruct (check_model_classes X (model_classes a)) as [[]|e]; [|discriminate].
  destruct (resolve_task X a (named_train X a) (named_test X a))
    as [[mc task] labels].
  rewrite Hm; intros H; inversion H; subst; simpl.
  rewrite orb_false_r; repeat split; reflexivity.
Qed.

(** X16.  Lines 245-248: observed classes are recorded at construction
    only for static predictions given without train predictions and
    without any class list; they are then in strictly ascending order,
    without repeats. *)
Theorem recorded_observed_classes_are_ascending (a : Args)
  (w : list string) (ctx : Context) (cs : list Z) :
  Context_init X a = (w, Ok ctx) ->
  _observed_classes ctx = Some cs ->
  StronglySorted Z.lt cs
  /\ model a = None
  /\ y_pred_train a = None
  /\ model_classes a = None
  /\ (y_pred_test a <> None \/ y_proba_train a <> None
      \/ y_proba_test a <> None).
Proof.
  unfold Context_init.
  destruct (validate_inputs X a) as [[[tr te] fi]|e] eqn:Hv; [|discriminate].
  destruct (check_model_classes X (model_classes a)) as [[]|e]; [|discriminate].
  assert (Hmc : fst (fst (resolve_task X a tr te)) = resolved_classes a).
  { unfold resolve_task.
    destruct (declared_type X tr); [reflexivity|].
    destruct (truthy_opt (resolved_classes a)); reflexivity. }
  destruct (resolve_task X a tr te) as [[mc task] labels]; simpl in Hmc.
  subst mc.
  destruct (model a) as [m|] eqn:Hm.
  { intros H; inversion H; subst; simpl; discriminate. }
  destruct (is_some (y_pred_train a) || is_some (y_pred_test a)
            || is_some (y_proba_train a) || is_some (y_proba_test a)) eqn:Hany.
  - intros H; inversion H as [[Hw Hr]]; clear H.
    destruct (out_model _) as [d|e]; [|discriminate].
    inversion Hr; subst ctx; simpl; clear Hr.
    destruct (y_pred_train a) as [y|] eqn:Hy; simpl; [discriminate|].
    unfold resolved_classes in *; rewrite Hm in *; simpl in *.
    destruct (model_classes a) as [l|] eqn:Hl; simpl; [discriminate|].
    intros Hobs; injection Hobs as Hobs; subst cs.
    split; [apply observed_classes_spec|].
    repeat split.
    destruct (y_pred_test a), (y_proba_train a), (y_proba_test a);
      simpl in Hany; try discriminate;
      first [left; discriminate | right; left; discriminate
            | right; right; discriminate].
  - intros H; inversion H; subst; simpl; discriminate.
Qed.

End ConstructionProofs.

End ConstructionFacts.

Module ConstructionExamples.
Import StaticPredictions TabularContext TabularSamples ConstructionSamples
       ConstructionFacts.

Lemma test_without_train_is_rejected_witness :
  Context_init lenient only_test
  = ([], Raise (DatasetValidationError
                  ("Can't initialize context with only test. if you have single dataset, "
                   ++ "initialize it as train"))).
Proof.
  apply (test_without_train_is_rejected lenient only_test); reflexivity.
Defined.

Lemma model_object_takes_precedence_witness :
  match Context_init lenient with_model with
  | (w, Ok ctx) =>
      w = [] /\ _model ctx = Some (Estimator InferenceSamples.classifier)
      /\ _observed_classes ctx = None
  | (_, Raise _) => False
  end.
Proof.
  destruct (Context_init lenient with_model) as [w [ctx|e]] eqn:E.
  - destruct (model_object_takes_precedence lenient with_model
                InferenceSamples.classifier w ctx eq_refl E)
      as [H1 [H2 [H3 _]]]; auto.
  - vm_compute in E; discriminate.
Defined.

Lemma recorded_observed_classes_are_ascending_witness :
  match Context_init lenient test_predictions with
  | (_, Ok ctx) =>
      _observed_classes ctx = Some [0; 1]%Z /\ StronglySorted Z.lt [0; 1]%Z
  | (_, Raise _) => False
  end.
Proof.
  destruct (Context_init lenient test_predictions) as [w [ctx|e]] eqn:E.
  - assert (Hobs : _observed_classes ctx = Some [0; 1]%Z)
      by (vm_compute in E; inversion E; reflexivity).
    split; [exact Hobs|].
    apply (recorded_observed_classes_are_ascending lenient test_predictions
             w ctx [0; 1]%Z E Hobs).
  - vm_compute in E; discriminate.
Defined.

End ConstructionExamples.

(* ----------------------------------------------------------------- *)
(** ** The adapter returns what it was given *)

Module AdapterRoundTrip.
Import StaticPredictions AdapterFacts.

Lemma index_of_features_columns (d : Dataset) :
  index_of (features_columns d) = index_of (data d).
Proof. unfold index_of, features_columns; rewrite map_map; reflexivity. Qed.

Lemma length_features_columns (d : Dataset) :
  length (features_columns d) = length (data d).
Proof. unfold features_columns; apply length_map. Qed.

Lemma combine_index {R : Type} (idx : list label) (ys : list R) :
  length ys = length idx ->
  index_of (combine idx ys) = idx /\ map snd (combine idx ys) = ys.
Proof.
  unfold index_of; revert ys; induction idx as [|x idx IH]; intros [|y ys] H;
    simpl in *; try discriminate; [auto|].
  destruct (IH ys) as [H1 H2]; [lia|].
  rewrite H1, H2; auto.
Qed.

(** Looking up the labels of some rows of a frame with unique labels
    returns these rows. *)
Lemma loc_all_rows {R : Type} (df part : indexed R) :
  NoDup (index_of df) -> incl part df -> loc df (index_of part) = Ok part.
Proof.
  intros Hnd; induction part as [|[x v] t IH]; intros Hincl; simpl;
    [reflexivity|].
  rewrite (rows_at_unique df x v Hnd (Hincl _ (or_introl eq_refl))).
  rewrite IH by (intros r Hr; apply Hincl; right; exact Hr).
  reflexivity.
Qed.

Lemma NoDup_map_injective {A B : Type} (f : A -> B) (l : list A) :
  (forall x y, f x = f y -> x = y) -> NoDup l -> NoDup (map f l).
Proof.
  intros Hinj; induction 1 as [|x l Hnot Hnd IH]; simpl; constructor;
    [|exact IH].
  intros Hin; apply in_map_iff in Hin as [y [Hy Hin]].
  apply Hinj in Hy; subst y; contradiction.
Qed.

Lemma prefixed_index_NoDup (prefix : string) (idx : list label) :
  NoDup (map str idx) ->
  NoDup (map (fun x => LStr (prefix ++ str x)) idx).
Proof.
  intros H.
  rewrite <- (map_map str (fun s => LStr (prefix ++ s))).
  apply NoDup_map_injective; [|exact H].
  intros x y Heq; injection Heq as Heq.
  induction prefix as [|c p IH]; simpl in Heq; [exact Heq|].
  injection Heq as Heq; apply IH; exact Heq.
Qed.

Lemma strings_are_one_kind (f : label -> string) (l : list label) :
  one_kind (map (fun x => LStr (f x)) l) = true.
Proof.
  unfold one_kind; apply orb_true_iff; right.
  apply forallb_forall; intros x Hx.
  apply in_map_iff in Hx as [y [<- _]]; reflexivity.
Qed.

(** After the check for common labels, the two datasets share no label,
    labels that print differently stay distinct, and labels of one kind
    stay of one kind. *)
Lemma prefix_common_index_separates (tr te : Dataset) :
  exists tr' te' w,
    prefix_common_index (Some tr) (Some te) = (Some tr', Some te', w)
    /\ (forall x, In x (index_of (data tr')) -> ~ In x (index_of (data te')))
    /\ (NoDup (map str (index_of (data tr))) -> NoDup (index_of (data tr')))
    /\ (NoDup (map str (index_of (data te))) -> NoDup (index_of (data te')))
    /\ length (data tr') = length (data tr)
    /\ length (data te') = length (data te)
    /\ (one_kind (index_of (data tr)) = true ->
        one_kind (index_of (data tr')) = true)
    /\ (one_kind (index_of (data te)) = true ->
        one_kind (index_of (data te')) = true).
Proof.
  unfold prefix_common_index.
  destruct (sets_intersect (index_of (data tr)) (index_of (data te))) eqn:E.
  - destruct (reindex_spec train_prefix tr) as [H1 [_ [H2 _]]].
    destruct (reindex_spec test_prefix te) as [H3 [_ [H4 _]]].
    exists (reindex train_prefix tr), (reindex test_prefix te),
      [common_index_warning].
    split; [reflexivity|];
      split; [|split; [|split; [|split; [|split; [|split]]]]];
      try assumption.
    + intros x Hx Hx'; rewrite H1 in Hx; rewrite H3 in Hx'.
      apply in_map_iff in Hx as [a [Ha _]], Hx' as [b [Hb _]].
      unfold train_prefix, test_prefix in *; subst x; discriminate.
    + intros Hnd; rewrite H1.
      apply (prefixed_index_NoDup "train-"); exact Hnd.
    + intros Hnd; rewrite H3.
      apply (prefixed_index_NoDup "test-"); exact Hnd.
    + intros _; rewrite H1; apply strings_are_one_kind.
    + intros _; rewrite H3; apply strings_are_one_kind.
  - exists tr, te, []; split; [reflexivity|].
    split; [|split; [|split; [|split; [|split; [|split]]]]];
      try reflexivity; auto.
    + intros x Hx Hx'.
      assert (sets_intersect (index_of (data tr)) (index_of (data te)) = true)
        by (apply sets_intersect_iff; exists x; auto).
      congruence.
    + apply NoDup_map_inv.
    + apply NoDup_map_inv.
Qed.

Section RoundTripProofs.
Variable validate_proba : proba -> option (list Z) -> result unit.
Variable ensure_predictions_shape : ndarray -> DataFrame -> result unit.
Variable ensure_predictions_proba : proba -> ndarray -> result unit.

(** What a successful construction from two prediction arrays holds. *)
Lemma build_stores_predictions (tr te : Dataset) (a b : list Z)
  (validate : bool) (mc : option (list Z)) (d : _DummyModel) :
  build validate_proba ensure_predictions_shape ensure_predictions_proba
    (Some tr) (Some te) (Some (Arr1 a)) (Some (Arr1 b)) None None validate mc
  = Ok d ->
  length a = length (data tr)
  /\ length b = length (data te)
  /\ predictions d
     = Some (combine (index_of (data tr)) a ++ combine (index_of (data te)) b)
  /\ feature_df_list d = [features_columns tr; features_columns te].
Proof.
  unfold build, store_role; simpl.
  destruct (ensure_predictions_shape (Arr1 a) (data tr)); simpl; [|discriminate].
  destruct (length a =? length (index_of (data tr))) eqn:Ea; simpl;
    [|discriminate].
  destruct (ensure_predictions_shape (Arr1 b) (data te)); simpl; [|discriminate].
  destruct (length b =? length (index_of (data te))) eqn:Eb; simpl;
    [|discriminate].
  apply Nat.eqb_eq in Ea, Eb; unfold index_of in Ea, Eb.
  rewrite length_map in Ea, Eb.
  intros H; inversion H; subst d; simpl.
  rewrite app_nil_r; auto.
Qed.

Lemma predict_stored_rows (self : _DummyModel) (rnd : Draws)
  (df : DataFrame) (p part : indexed Z) :
  In df (feature_df_list self) ->
  (forall df', In df' (feature_df_list self) ->
     df' = df \/ forall x, In x (index_of df) -> ~ In x (index_of df')) ->
  NoDup (index_of df) -> df <> [] -> sample_ok (length df) rnd ->
  one_kind (index_of df) = true ->
  predictions self = Some p -> NoDup (index_of p) ->
  incl part p -> index_of part = index_of df ->
  _predict self rnd df = Ok (map snd part).
Proof.
  intros Hin Hothers Hnd Hne Hok Hkind Hp Hndp Hincl Hidx.
  unfold _predict, _validate_data.
  rewrite (validate_known_rows (feature_df_list self) df df rnd Hin Hnd Hnd
             (incl_refl df) Hothers (proj1 Hok)
             (valid_sample_nonempty df rnd Hne Hok) Hkind).
  destruct (validate_data_on_predict self); simpl;
    rewrite Hp, <- Hidx, (loc_all_rows p part Hndp Hincl); reflexivity.
Qed.

(** X17.  The adapter answers [predict] on the features of a dataset
    with the predictions it was given for that dataset, in the order
    given, for the train and for the test dataset alike and also after a
    collision of their indices was resolved by prefixes; it takes the
    labels of each dataset to print differently from one another and to
    be all integers or all strings, as [np.unique] compares the labels
    drawn for validation. *)
Theorem stored_predictions_are_returned (tr te : Dataset)
  (ys_train ys_test : list Z) (validate : bool) (mc : option (list Z))
  (d : _DummyModel) (rnd_train rnd_test : Draws) :
  let built :=
    _DummyModel_init validate_proba ensure_predictions_shape
      ensure_predictions_proba (Some te) None (Some (Arr1 ys_test))
      (Some tr) (Some (Arr1 ys_train)) None validate mc in
  out_model built = Ok d ->
  NoDup (map str (index_of (data tr))) ->
  NoDup (map str (index_of (data te))) ->
  one_kind (index_of (data tr)) = true ->
  one_kind (index_of (data te)) = true ->
  data tr <> [] -> data te <> [] ->
  sample_ok (length (data tr)) rnd_train ->
  sample_ok (length (data te)) rnd_test ->
  exists tr' te',
    out_train built = Some tr' /\ out_test built = Some te'
    /\ _predict d rnd_train (features_columns tr') = Ok ys_train
    /\ _predict d rnd_test (features_columns te') = Ok ys_test.
Proof.
  intros built; subst built; unfold _DummyModel_init.
  destruct (prefix_common_index_separates tr te)
    as [tr' [te' [w [Hpre [Hdisj [Hndtr [Hndte [Hltr [Hlte [Hktr Hkte]]]]]]]]]].
  rewrite Hpre; simpl.
  intros Hbuild Htr Hte Hkindtr Hkindte Hnetr Hnete Hoktr Hokte.
  destruct (build_stores_predictions tr' te' ys_train ys_test validate mc d Hbuild)
    as [Ha [Hb [Hp Hf]]].
  specialize (Hndtr Htr); specialize (Hndte Hte).
  destruct (combine_index (index_of (data tr')) ys_train) as [Hi1 Hs1];
    [unfold index_of; rewrite length_map; exact Ha|].
  destruct (combine_index (index_of (data te')) ys_test) as [Hi2 Hs2];
    [unfold index_of; rewrite length_map; exact Hb|].
  assert (Hndp : NoDup (index_of (combine (index_of (data tr')) ys_train
                                  ++ combine (index_of (data te')) ys_test))).
  { unfold index_of at 1; rewrite map_app.
    fold (index_of (combine (index_of (data tr')) ys_train)).
    fold (index_of (combine (index_of (data te')) ys_test)).
    rewrite Hi1, Hi2; apply NoDup_app; assumption. }
  exists tr', te'; split; [reflexivity|]; split; [reflexivity|]; split.
  - rewrite <- Hs1.
    apply (predict_stored_rows d rnd_train (features_columns tr')
             (combine (index_of (data tr')) ys_train
              ++ combine (index_of (data te')) ys_test)
             (combine (index_of (data tr')) ys_train));
      try exact Hp; try exact Hndp.
    + rewrite Hf; left; reflexivity.
    + rewrite Hf; intros df' [<- | [<- | []]]; [left; reflexivity|].
      right; rewrite !index_of_features_columns; exact Hdisj.
    + rewrite index_of_features_columns; exact Hndtr.
    + intros E; apply Hnetr.
      apply length_zero_iff_nil; rewrite <- Hltr, <- length_features_columns, E.
      reflexivity.
    + rewrite length_features_columns, Hltr; exact Hoktr.
    + rewrite index_of_features_columns; exact (Hktr Hkindtr).
    + apply incl_appl, incl_refl.
    + rewrite index_of_features_columns; exact Hi1.
  - rewrite <- Hs2.
    apply (predict_stored_rows d rnd_test (features_columns te')
             (combine (index_of (data tr')) ys_train
              ++ combine (index_of (data te')) ys_test)
             (combine (index_of (data te')) ys_test));
      try exact Hp; try exact Hndp.
    + rewrite Hf; right; left; reflexivity.
    + rewrite Hf; intros df' [<- | [<- | []]]; [|left; reflexivity].
      right; rewrite !index_of_features_columns.
      intros x Hx Hx'; exact (Hdisj x Hx' Hx).
    + rewrite index_of_features_columns; exact Hndte.
    + intros E; apply Hnete.
      apply length_zero_iff_nil; rewrite <- Hlte, <- length_features_columns, E.
      reflexivity.
    + rewrite length_features_columns, Hlte; exact Hokte.
    + rewrite index_of_features_columns; exact (Hkte Hkindte).
    + apply incl_appr, incl_refl.
    + rewrite index_of_features_columns; exact Hi2.
Qed.

End RoundTripProofs.

End AdapterRoundTrip.

Module AdapterRoundTripExamples.
Import StaticPredictions TabularSamples AdapterRoundTrip.

(** Train and test both on the row identifiers 0, 1, 2: after the
    prefixes each dataset gets its own predictions back. *)
Lemma stored_predictions_are_returned_witness :
  exists d tr' te',
    out_model
      (_DummyModel_init (fun _ _ => Ok tt) (fun _ _ => Ok tt) (fun _ _ => Ok tt)
         (Some (dataset [1; 0; 1]%Z)) None (Some (Arr1 [1; 0; 1]%Z))
         (Some (dataset [0; 1; 1]%Z)) (Some (Arr1 [0; 1; 0]%Z)) None true None)
    = Ok d
    /\ out_train
         (_DummyModel_init (fun _ _ => Ok tt) (fun _ _ => Ok tt)
            (fun _ _ => Ok tt)
            (Some (dataset [1; 0; 1]%Z)) None (Some (Arr1 [1; 0; 1]%Z))
            (Some (dataset [0; 1; 1]%Z)) (Some (Arr1 [0; 1; 0]%Z)) None true
            None)
       = Some tr'
    /\ index_of (data tr') = [LStr "train-0"; LStr "train-1"; LStr "train-2"]
    /\ _predict d (all_rows 3) (features_columns tr') = Ok [0; 1; 0]%Z
    /\ _predict d (all_rows 3) (features_columns te') = Ok [1; 0; 1]%Z.
Proof.
  destruct (out_model
              (_DummyModel_init (fun _ _ => Ok tt) (fun _ _ => Ok tt)
                 (fun _ _ => Ok tt)
                 (Some (dataset [1; 0; 1]%Z)) None (Some (Arr1 [1; 0; 1]%Z))
                 (Some (dataset [0; 1; 1]%Z)) (Some (Arr1 [0; 1; 0]%Z)) None
                 true None)) as [d|e] eqn:E.
  - destruct (stored_predictions_are_returned (fun _ _ => Ok tt)
                (fun _ _ => Ok tt) (fun _ _ => Ok tt)
                (dataset [0; 1; 1]%Z) (dataset [1; 0; 1]%Z)
                [0; 1; 0]%Z [1; 0; 1]%Z true None d (all_rows 3) (all_rows 3) E)
      as [tr' [te' [Htr [Hte [H1 H2]]]]].
    + repeat constructor; simpl; intuition discriminate.
    + repeat constructor; simpl; intuition discriminate.
    + reflexivity.
    + reflexivity.
    + discriminate.
    + discriminate.
    + repeat split; [repeat constructor; simpl; intuition discriminate
                    | repeat constructor].
    + repeat split; [repeat constructor; simpl; intuition discriminate
                    | repeat constructor].
    + exists d, tr', te'; repeat split; try assumption.
      vm_compute in Htr; inversion Htr; reflexivity.
  - vm_compute in E; discriminate.
Defined.

End AdapterRoundTripExamples.

(* ----------------------------------------------------------------- *)
(** ** Predictions derived from probabilities *)

Module DerivedPredictions.
Import StaticPredictions PyFacts AdapterRoundTrip.

Lemma Qltb_lt (x y : Q) : Qltb x y = true <-> (x < y)%Q.
Proof.
  unfold Qltb; rewrite negb_true_iff; split.
  - intros H; apply Qnot_le_lt; intros Hle.
    apply Qle_bool_iff in Hle; congruence.
  - intros H; destruct (Qle_bool y x) eqn:E; [|reflexivity].
    apply Qle_bool_iff in E; exfalso; exact (Qlt_not_le _ _ H E).
Qed.

Lemma Qltb_ge (x y : Q) : Qltb x y = false <-> (y <= x)%Q.
Proof.
  unfold Qltb; rewrite negb_false_iff; apply Qle_bool_iff.
Qed.

(** The scan of [np.argmax] over the rest of a row: either the best
    entry so far stays, or the first entry greater than all before it
    and not exceeded after it is found. *)
Lemma argmax_from_spec (l : list Q) (best : Q) (best_pos pos : nat) :
  (argmax_from best best_pos pos l = best_pos
   /\ forall q', In q' l -> (q' <= best)%Q)
  \/ exists j q,
       argmax_from best best_pos pos l = pos + j
       /\ nth_error l j = Some q
       /\ (best < q)%Q
       /\ (forall q', In q' l -> (q' <= q)%Q)
       /\ (forall j' q', j' < j -> nth_error l j' = Some q' -> (q' < q)%Q).
Proof.
  revert best best_pos pos; induction l as [|x t IH]; intros best bp pos; simpl.
  - left; split; [reflexivity | intros q' []].
  - destruct (Qltb best x) eqn:E.
    + apply Qltb_lt in E; right.
      destruct (IH x pos (S pos)) as [[Hk Hall] | [j [q [Hk [Hn [Hlt [Hall Hbefore]]]]]]].
      * exists 0, x; rewrite Hk; split; [lia|]; split; [reflexivity|].
        split; [exact E|]; split.
        -- intros q' [<- | Hq]; [apply Qle_refl | apply Hall, Hq].
        -- intros j' q' Hj; lia.
      * exists (S j), q; rewrite Hk; split; [lia|]; split; [exact Hn|].
        split; [apply Qlt_trans with x; assumption|]; split.
        -- intros q' [<- | Hq]; [apply Qlt_le_weak, Hlt | apply Hall, Hq].
        -- intros [|j'] q' Hj Hq; simpl in Hq.
           ++ inversion Hq; subst q'; exact Hlt.
           ++ apply (Hbefore j' q'); [lia | exact Hq].
    + apply Qltb_ge in E.
      destruct (IH best bp (S pos)) as [[Hk Hall] | [j [q [Hk [Hn [Hlt [Hall Hbefore]]]]]]].
      * left; split; [exact Hk|].
        intros q' [<- | Hq]; [exact E | apply Hall, Hq].
      * right; exists (S j), q; rewrite Hk; split; [lia|]; split; [exact Hn|].
        split; [exact Hlt|]; split.
        -- intros q' [<- | Hq]; [|apply Hall, Hq].
           apply Qlt_le_weak, Qle_lt_trans with best; assumption.
        -- intros [|j'] q' Hj Hq; simpl in Hq.
           ++ inversion Hq; subst q'.
              apply Qle_lt_trans with best; assumption.
           ++ apply (Hbefore j' q'); [lia | exact Hq].
Qed.

(** [np.argmax] of a row: the first position of its greatest entry. *)
Lemma argmax_spec (row : list Q) (k : nat) :
  argmax row = Ok k ->
  exists q,
    nth_error row k = Some q
    /\ (forall q', In q' row -> (q' <= q)%Q)
    /\ (forall j q', j < k -> nth_error row j = Some q' -> (q' < q)%Q).
Proof.
  destruct row as [|x t]; simpl; [discriminate|].
  intros H; injection H as H.
  destruct (argmax_from_spec t x 0 1) as [[Hk Hall] | [j [q [Hk [Hn [Hlt [Hall Hbefore]]]]]]].
  - exists x; rewrite <- H, Hk; split; [reflexivity|]; split.
    + intros q' [<- | Hq]; [apply Qle_refl | apply Hall, Hq].
    + intros j q' Hj; lia.
  - exists q; rewrite <- H, Hk; split; [exact Hn|]; split.
    + intros q' [<- | Hq]; [apply Qlt_le_weak, Hlt | apply Hall, Hq].
    + intros [|j'] q' Hj Hq; simpl in Hq.
      * inversion Hq; subst q'; exact Hlt.
      * apply (Hbefore j' q'); [lia | exact Hq].
Qed.

Lemma mapM_nth {A B : Type} (f : A -> result B) (l : list A) (r : list B)
  (i : nat) (x : A) :
  mapM f l = Ok r -> nth_error l i = Some x ->
  exists y, nth_error r i = Some y /\ f x = Ok y.
Proof.
  revert r i; induction l as [|a t IH]; simpl; intros r i H Hn.
  - destruct i; discriminate.
  - destruct (f a) as [b|e] eqn:Efa; [|discriminate].
    destruct (mapM f t) as [ys|e]; [|discriminate].
    inversion H; subst r.
    destruct i as [|i]; simpl in Hn |- *.
    + inversion Hn; subst a; exists b; auto.
    + apply (IH ys i eq_refl Hn).
Qed.

Section DerivedProofs.
Variable validate_proba : proba -> option (list Z) -> result unit.
Variable ensure_predictions_shape : ndarray -> DataFrame -> result unit.
Variable ensure_predictions_proba : proba -> ndarray -> result unit.

(** X18.  Lines 97-112: given class probabilities and no predictions
    for a dataset, the adapter stores for each row the class found at
    the position of the row's greatest probability (the first one, when
    several are greatest), next to the probabilities themselves, under
    the row labels of the dataset. *)
Theorem predictions_from_probabilities_are_the_likeliest_classes
  (tr : Dataset) (p : proba) (validate : bool) (cs : list Z)
  (d : _DummyModel) :
  build validate_proba ensure_predictions_shape ensure_predictions_proba
    (Some tr) None None None (Some p) None validate (Some cs) = Ok d ->
  exists ys,
    predictions d = Some (combine (index_of (data tr)) ys)
    /\ probas d = Some (combine (index_of (data tr)) p)
    /\ length ys = length (data tr)
    /\ length p = length (data tr)
    /\ forall i row,
         nth_error p i = Some row ->
         exists k q y,
           nth_error ys i = Some y
           /\ nth_error row k = Some q
           /\ nth_error cs k = Some y
           /\ (forall q', In q' row -> (q' <= q)%Q)
           /\ (forall j q', j < k -> nth_error row j = Some q' -> (q' < q)%Q).
Proof.
  unfold build, store_role; simpl.
  destruct (validate_proba p (Some cs)); simpl; [|discriminate].
  destruct (argmax_rows p) as [positions|e] eqn:Epos; simpl; [|discriminate].
  destruct (mapM (getitem cs) positions) as [ys|e] eqn:Eys; simpl;
    [|discriminate].
  destruct (ensure_predictions_shape (Arr1 ys) (data tr)); simpl;
    [|discriminate].
  destruct (length ys =? length (index_of (data tr))) eqn:Ea; simpl;
    [|discriminate].
  destruct (ensure_predictions_proba p (Arr1 ys)); simpl; [|discriminate].
  unfold proba_frame.
  destruct (length p =? length (index_of (data tr))) eqn:Eb; simpl;
    [|discriminate].
  apply Nat.eqb_eq in Ea, Eb; unfold index_of in Ea, Eb.
  rewrite length_map in Ea, Eb.
  intros H; inversion H; subst d; simpl.
  exists ys; rewrite !app_nil_r.
  repeat (split; [first [reflexivity | assumption]|]).
  intros i row Hrow.
  assert (Hmap : mapM argmax p = Ok positions)
    by (unfold argmax_rows in Epos; destruct p; [discriminate | exact Epos]).
  destruct (mapM_nth _ _ _ i row Hmap Hrow) as [k [Hk Harg]].
  destruct (mapM_nth _ _ _ i k Eys Hk) as [y [Hy Hget]].
  destruct (argmax_spec row k Harg) as [q [Hq [Hall Hfirst]]].
  exists k, q, y; repeat split; try assumption.
  unfold getitem in Hget; destruct (nth_error cs k); [congruence | discriminate].
Qed.

End DerivedProofs.

(** Three rows of probabilities over the classes 4, 7 and 9; the second
    row has its greatest probability twice. *)
Lemma predictions_from_probabilities_are_the_likeliest_classes_witness :
  exists d ys,
    build (fun _ _ => Ok tt) (fun _ _ => Ok tt) (fun _ _ => Ok tt)
      (Some (TabularSamples.dataset [4; 7; 9]%Z)) None None None
      (Some [[0.2; 0.5; 0.3]; [0.4; 0.4; 0.2]; [0.1; 0.2; 0.7]]%Q) None true
      (Some [4; 7; 9]%Z) = Ok d
    /\ predictions d = Some (combine (map LInt [0; 1; 2]%Z) ys)
    /\ ys = [7; 4; 9]%Z.
Proof.
  destruct (build (fun _ _ => Ok tt) (fun _ _ => Ok tt) (fun _ _ => Ok tt)
              (Some (TabularSamples.dataset [4; 7; 9]%Z)) None None None
              (Some [[0.2; 0.5; 0.3]; [0.4; 0.4; 0.2]; [0.1; 0.2; 0.7]]%Q) None
              true (Some [4; 7; 9]%Z)) as [d|e] eqn:E.
  - destruct (predictions_from_probabilities_are_the_likeliest_classes
                _ _ _ _ _ _ _ _ E) as [ys [Hp [_ [Hlen _]]]].
    exists d, ys; split; [reflexivity|]; split; [exact Hp|].
    vm_compute in E; inversion E; subst d; simpl in Hp.
    destruct ys as [|a [|b [|c [|]]]]; try discriminate.
    inversion Hp; reflexivity.
  - vm_compute in E; discriminate.
Defined.

End DerivedPredictions.

(* ----------------------------------------------------------------- *)
(** ** The shape of property values *)

Module PropertyShapeFacts.
Import PropertyShape.

Lemma is_list_of_numbers_iff (l : list pyval) :
  _is_list_of_numbers l = true <-> Forall (fun x => scalar_ok x = true) l.
Proof.
  unfold _is_list_of_numbers; rewrite negb_true_iff, Forall_forall.
  split.
  - intros H x Hx; unfold scalar_ok.
    destruct (is_None x || is_Number x) eqn:E; [reflexivity|].
    apply orb_false_iff in E as [E1 E2].
    assert (existsb (fun i => negb (is_None i) && negb (is_Number i)) l = true)
      by (apply existsb_exists; exists x; rewrite E1, E2; auto).
    congruence.
  - intros H.
    destruct (existsb _ l) eqn:E; [|reflexivity].
    apply existsb_exists in E as [x [Hx E]].
    specialize (H x Hx); unfold scalar_ok in H.
    destruct (is_None x), (is_Number x); simpl in *; discriminate.
Qed.

Lemma existsb_false_Forall {A : Type} (p : A -> bool) (l : list A) :
  existsb (fun x => negb (p x)) l = false <-> Forall (fun x => p x = true) l.
Proof.
  rewrite Forall_forall; split.
  - intros H x Hx; destruct (p x) eqn:E; [reflexivity|].
    assert (existsb (fun x => negb (p x)) l = true)
      by (apply existsb_exists; exists x; rewrite E; auto).
    congruence.
  - intros H; destruct (existsb _ l) eqn:E; [|reflexivity].
    apply existsb_exists in E as [x [Hx E]].
    rewrite (H x Hx) in E; discriminate.
Qed.

(** X19.  The values of a property pass the check exactly when there is
    one value per sample, at least one sample, and either every value is
    [None] or a number, or every value is a sequence made of [None] and
    numbers only. *)
Theorem property_shape_accepted_iff (property_values : list pyval)
  (data_len : nat) (prop_name : string) :
  _ensure_property_shape property_values data_len prop_name = Returns tt
  <-> length property_values = data_len
      /\ property_values <> []
      /\ (Forall (fun x => scalar_ok x = true) property_values
          \/ Forall (fun x => is_Sequence x = true
                              /\ Forall (fun i => scalar_ok i = true) (iter x))
               property_values).
Proof.
  unfold _ensure_property_shape.
  destruct (length property_values =? data_len) eqn:Elen; simpl.
  2:{ apply Nat.eqb_neq in Elen; split; [discriminate | tauto]. }
  apply Nat.eqb_eq in Elen.
  destruct property_values as [|first rest] eqn:Evals.
  { split; [discriminate | intros [_ [H _]]; congruence]. }
  rewrite <- Evals in *.
  assert (Hfirst : In first property_values) by (subst; left; reflexivity).
  destruct (is_Sequence first) eqn:Eseq.
  - destruct (existsb (fun x => negb (is_Sequence x)) property_values) eqn:Emix.
    + split; [discriminate|].
      intros [_ [_ [H | H]]]; exfalso.
      * rewrite Forall_forall in H; specialize (H first Hfirst).
        unfold scalar_ok in H; destruct first; discriminate.
      * apply existsb_exists in Emix as [x [Hx E]].
        rewrite Forall_forall in H; destruct (H x Hx) as [H1 _].
        rewrite H1 in E; discriminate.
    + apply existsb_false_Forall in Emix.
      destruct (existsb (fun x => negb (_is_list_of_numbers (iter x)))
                  property_values) eqn:Enum.
      * split; [discriminate|].
        intros [_ [_ [H | H]]]; exfalso.
        -- rewrite Forall_forall in H; specialize (H first Hfirst).
           unfold scalar_ok in H; destruct first; discriminate.
        -- apply existsb_exists in Enum as [x [Hx E]].
           rewrite Forall_forall in H; destruct (H x Hx) as [_ H2].
           apply is_list_of_numbers_iff in H2; rewrite H2 in E; discriminate.
      * apply (existsb_false_Forall (fun x => _is_list_of_numbers (iter x)))
          in Enum.
        split; [|reflexivity].
        intros _; split; [exact Elen|]; split; [subst; discriminate|].
        right; rewrite Forall_forall in *; intros x Hx; split.
        -- apply Emix, Hx.
        -- apply is_list_of_numbers_iff, Enum, Hx.
  - destruct (_is_list_of_numbers property_values) eqn:Enum; simpl.
    + split; [|reflexivity].
      intros _; split; [exact Elen|]; split; [subst; discriminate|].
      left; apply is_list_of_numbers_iff; exact Enum.
    + split; [discriminate|].
      intros [_ [_ [H | H]]]; exfalso.
      * apply is_list_of_numbers_iff in H; congruence.
      * rewrite Forall_forall in H; destruct (H first Hfirst) as [H1 _].
        congruence.
Qed.

Lemma messages_differ (n data_len : nat) (prop_name : string) :
  mix_message prop_name <> non_numeric_message prop_name
  /\ mix_message prop_name <> length_message n data_len prop_name.
Proof.
  unfold mix_message, non_numeric_message, length_message; simpl.
  split; intros H; discriminate.
Qed.

(** X20.  Lines 139-149: the kind of the first value decides which
    complaint a mixed list gets.  The mix error is raised exactly when
    the first value is a sequence and a later one is not; a list that
    starts with a scalar and holds a sequence further on is reported as
    non-numeric instead. *)
Theorem mix_is_reported_only_after_a_leading_sequence
  (property_values : list pyval) (data_len : nat) (prop_name : string) :
  _ensure_property_shape property_values data_len prop_name
  = Raises (DeepchecksProcessError (mix_message prop_name))
  <-> length property_values = data_len
      /\ exists first rest,
           property_values = first :: rest
           /\ is_Sequence first = true
           /\ exists x, In x rest /\ is_Sequence x = false.
Proof.
  destruct (messages_differ (length property_values) data_len prop_name)
    as [Hd1 Hd2].
  unfold _ensure_property_shape.
  destruct (length property_values =? data_len) eqn:Elen; simpl.
  2:{ apply Nat.eqb_neq in Elen; split; [|tauto].
      intros H; inversion H; congruence. }
  apply Nat.eqb_eq in Elen.
  destruct property_values as [|first rest].
  { split; [discriminate | intros [_ [f [r [H _]]]]; discriminate]. }
  destruct (is_Sequence first) eqn:Eseq.
  - simpl existsb; rewrite Eseq; simpl negb; simpl orb.
    destruct (existsb (fun x => negb (is_Sequence x)) rest) eqn:Emix.
    + split; [|reflexivity].
      intros _; split; [exact Elen|].
      exists first, rest; split; [reflexivity|]; split; [exact Eseq|].
      apply existsb_exists in Emix as [x [Hx E]].
      exists x; split; [exact Hx|].
      destruct (is_Sequence x); [discriminate | reflexivity].
    + assert (Hno : ~ exists x, In x rest /\ is_Sequence x = false).
      { intros [x [Hx E]].
        assert (existsb (fun x => negb (is_Sequence x)) rest = true)
          by (apply existsb_exists; exists x; rewrite E; auto).
        congruence. }
      split.
      * destruct (_ || _); intros H; [inversion H; congruence | discriminate].
      * intros [_ [f [r [Heq [_ Hex]]]]]; inversion Heq; subst f r.
        contradiction.
  - split.
    + destruct (negb _); intros H; [inversion H; congruence | discriminate].
    + intros [_ [f [r [Heq [Hf _]]]]]; inversion Heq; subst f r; congruence.
Qed.

(** X21.  The only exception that is not a [DeepchecksProcessError] is
    the [IndexError] of [property_values[0]], raised exactly for an
    empty list of values checked against a length of zero. *)
Theorem empty_values_escape_as_IndexError (property_values : list pyval)
  (data_len : nat) (prop_name : string) (e : exn) :
  _ensure_property_shape property_values data_len prop_name = Raises (Exn e)
  <-> property_values = [] /\ data_len = 0 /\ e = IndexError.
Proof.
  unfold _ensure_property_shape.
  destruct (length property_values =? data_len) eqn:Elen; simpl.
  - apply Nat.eqb_eq in Elen.
    destruct property_values as [|first rest].
    + simpl in Elen; split.
      * intros H; inversion H; auto.
      * intros [_ [_ ->]]; reflexivity.
    + split; [|intros [H _]; discriminate].
      destruct (is_Sequence first).
      * destruct (existsb _ _); [discriminate|].
        destruct (existsb _ _); discriminate.
      * destruct (negb _); discriminate.
  - apply Nat.eqb_neq in Elen; split; [discriminate|].
    intros [-> [-> _]]; simpl in Elen; congruence.
Qed.

(** Strings are sequences: a list of empty strings passes, and a string
    with characters is reported as non-numeric. *)
Example strings_are_sequences :
  _ensure_property_shape [PyStr EmptyString; PyStr EmptyString] 2 "p"
  = Returns tt
  /\ _ensure_property_shape [PyStr "ab"] 1 "p"
     = Raises (DeepchecksProcessError (non_numeric_message "p"))
  /\ _ensure_property_shape [PyNumber 1; PyList [PyNumber 2]] 2 "p"
     = Raises (DeepchecksProcessError (non_numeric_message "p"))
  /\ _ensure_property_shape [PyList [PyNumber 2]; PyNumber 1] 2 "p"
     = Raises (DeepchecksProcessError (mix_message "p"))
  /\ _ensure_property_shape [PyNumber 1] 3 "p"
     = Raises (DeepchecksProcessError
                 ("Properties are expected to return value per image but "
                  ++ "instead got 1 values for 3 images for property p")).
Proof. repeat split. Qed.

End PropertyShapeFacts.

(* ----------------------------------------------------------------- *)
(** ** The accessors of a context *)

Module AccessorFacts.
Import StaticPredictions TabularContext ContextFacts ClassListFacts
       ContextAccessors.

(** What the constructor leaves in the attributes the accessors read. *)
Lemma Context_init_attributes (X : Collaborators) (a : Args)
  (w : list string) (ctx : Context) :
  Context_init X a = (w, Ok ctx) ->
  _validated_model ctx = false
  /\ _calculated_importance ctx
     = is_some (TabularContext.feature_importance a)
       || negb (is_some (TabularContext.model a))
  /\ (_model ctx = None
      <-> TabularContext.model a = None
          /\ y_pred_train a = None /\ y_pred_test a = None
          /\ y_proba_train a = None /\ y_proba_test a = None).
Proof.
  unfold Context_init.
  destruct (validate_inputs X a) as [[[tr te] fi]|e]; [|discriminate].
  destruct (check_model_classes X (TabularContext.model_classes a)) as [[]|e];
    [|discriminate].
  destruct (resolve_task X a tr te) as [[mc task] labels].
  destruct (TabularContext.model a) as [m|] eqn:Hm.
  - intros H; inversion H; subst; simpl.
    split; [reflexivity|]; split; [reflexivity|].
    split; [discriminate | intros [H' _]; discriminate].
  - destruct (y_pred_train a) as [y1|], (y_pred_test a) as [y2|],
      (y_proba_train a) as [p1|], (y_proba_test a) as [p2|]; simpl;
      intros H; inversion H as [[Hw Hr]]; clear H;
      try (destruct (out_model _) as [d|e]; [|discriminate];
           inversion Hr; subst ctx; simpl;
           split; [reflexivity|]; split; [reflexivity|];
           split; [discriminate|];
           intros [_ [H1 [H2 [H3 H4]]]]; discriminate).
    subst ctx; simpl.
    split; [reflexivity|]; split; [reflexivity|].
    split; auto.
Qed.

(** X22.  Lines 272-281: the model of a context is validated against
    the train dataset at most once.  After an access that returned the
    model, every later access returns it again and leaves the context as
    it is, whatever the validator would say. *)
Theorem model_is_validated_once (X : Collaborators)
  (validate_model : Dataset -> model_obj -> result unit)
  (self self' : Context) (m : model_obj) :
  model X validate_model self = (self', Returns m) ->
  _model self' = Some m
  /\ _validated_model self' = true
  /\ forall validate_model',
       model X validate_model' self' = (self', Returns m).
Proof.
  unfold model.
  destruct (_model self) as [m0|] eqn:Hm; [|discriminate].
  assert (Hagain : forall s, _model s = Some m0 -> _validated_model s = true ->
            forall vm', model X vm' s = (s, Returns m0)).
  { intros s H1 H2 vm'; unfold model; rewrite H1, H2; reflexivity. }
  destruct (_validated_model self) eqn:Hv; simpl.
  - intros H; inversion H; subst self' m.
    split; [exact Hm|]; split; [exact Hv|]; apply Hagain; assumption.
  - destruct (match _train self with
              | Some tr => if dataset_bool X tr then validate_model tr m0 else Ok tt
              | None => Ok tt
              end); [|discriminate].
    intros H; inversion H; subst self' m.
    split; [exact Hm|]; split; [reflexivity|].
    apply Hagain; [exact Hm | reflexivity].
Qed.

(** X23.  A context has no model to hand out exactly when it was built
    without a model object and without any static prediction: on a
    context fresh from the constructor, the accessor raises the
    not-supported error in that case and in no other. *)
Theorem model_is_missing_iff_nothing_was_given (X : Collaborators)
  (validate_model : Dataset -> model_obj -> result unit)
  (a : Args) (w : list string) (ctx : Context) :
  Context_init X a = (w, Ok ctx) ->
  (model X validate_model ctx
   = (ctx, Raises (DeepchecksNotSupportedError no_model_message))
   <-> TabularContext.model a = None
       /\ y_pred_train a = None /\ y_pred_test a = None
       /\ y_proba_train a = None /\ y_proba_test a = None).
Proof.
  intros Hinit.
  destruct (Context_init_attributes X a w ctx Hinit) as [Hv [_ Hnone]].
  rewrite <- Hnone; unfold model; rewrite Hv; simpl.
  destruct (_model ctx) as [m|].
  - split; [|discriminate].
    destruct (match _train ctx with
              | Some tr => if dataset_bool X tr then validate_model tr m else Ok tt
              | None => Ok tt
              end); discriminate.
  - split; reflexivity.
Qed.

Lemma observed_None_means_regression
  (get_all_labels : option model_obj -> option Dataset -> option Dataset ->
                    result (list (option Z)))
  (self self' : Context) :
  observed_classes get_all_labels self = (self', Returns None) ->
  task_type self = REGRESSION.
Proof.
  unfold observed_classes, task_type.
  destruct (_observed_classes self) as [cs0|]; simpl; [discriminate|].
  destruct (_task_type self); simpl; [reflexivity| |];
    destruct (get_all_labels _ _ _); discriminate.
Qed.

(** X24.  Lines 292-299: the observed classes are gathered on the first
    access and kept.  A returned [None] means a regression context that
    holds no observed classes; classes gathered by the access are in
    strictly ascending order; and a later access returns the same answer
    without consulting the labels again. *)
Theorem observed_classes_are_gathered_once
  (get_all_labels : option model_obj -> option Dataset -> option Dataset ->
                    result (list (option Z)))
  (self self' : Context) (r : option (list Z)) :
  observed_classes get_all_labels self = (self', Returns r) ->
  (r = None <-> _observed_classes self = None /\ task_type self = REGRESSION)
  /\ (_observed_classes self = None ->
      forall cs, r = Some cs -> StronglySorted Z.lt cs)
  /\ forall get_all_labels',
       observed_classes get_all_labels' self' = (self', Returns r).
Proof.
  unfold observed_classes, task_type.
  destruct (_observed_classes self) as [cs0|] eqn:Hobs; simpl.
  - intros H; inversion H; subst self' r.
    split; [split; [discriminate | intros [H' _]; discriminate]|].
    split; [discriminate|].
    intros g; rewrite Hobs; reflexivity.
  - destruct (_task_type self) eqn:Ht; simpl.
    + intros H; inversion H; subst self' r.
      split; [split; auto|]; split; [discriminate|].
      intros g; rewrite Hobs, Ht; reflexivity.
    + destruct (get_all_labels _ _ _) as [labels|e]; [|discriminate].
      intros H; inversion H; subst self' r; simpl.
      split; [split; [discriminate | intros [_ H']; discriminate]|].
      split; [|reflexivity].
      intros _ cs Hcs; inversion Hcs; apply observed_classes_spec.
    + destruct (get_all_labels _ _ _) as [labels|e]; [|discriminate].
      intros H; inversion H; subst self' r; simpl.
      split; [split; [discriminate | intros [_ H']; discriminate]|].
      split; [|reflexivity].
      intros _ cs Hcs; inversion Hcs; apply observed_classes_spec.
Qed.

(** X25.  Lines 283-290: on a classification context the class list is
    never [None]: the list held by the context is returned untouched
    and silently, and without one the observed classes are returned and
    one warning is logged. *)
Theorem classification_context_has_classes
  (get_all_labels : option model_obj -> option Dataset -> option Dataset ->
                    result (list (option Z)))
  (self self' : Context) (w : list string) (r : option (list Z)) :
  is_classification (task_type self) = true ->
  model_classes get_all_labels self = (self', w, Returns r) ->
  r <> None
  /\ (forall l, _model_classes self = Some l ->
        r = Some l /\ w = [] /\ self' = self)
  /\ (_model_classes self = None ->
      w = [observed_fallback_warning]
      /\ observed_classes get_all_labels self = (self', Returns r)).
Proof.
  intros Hcls; unfold model_classes; rewrite Hcls.
  destruct (_model_classes self) as [l|] eqn:Hmc; simpl.
  - intros H; inversion H; subst self' w r.
    split; [discriminate|]; split; [|discriminate].
    intros l' Hl; inversion Hl; auto.
  - destruct (observed_classes get_all_labels self) as [s o] eqn:Hobs.
    intros H; inversion H; subst s w o.
    split; [|split; [discriminate | auto]].
    intros Hr; subst r.
    pose proof (observed_None_means_regression get_all_labels self self' Hobs)
      as Hreg.
    rewrite Hreg in Hcls; discriminate.
Qed.

Section ImportanceProofs.
Variable X : Collaborators.
Variable get_all_labels :
  option model_obj -> option Dataset -> option Dataset ->
  result (list (option Z)).
Variable calculate_feature_importance_or_none :
  model_obj -> Dataset -> option (list Z) -> option (list Z) -> TaskType ->
  bool -> Z -> result (option (list Q) * option string).
Variable model_bool : model_obj -> bool.
Variable train : Context -> outcome Dataset.
Variable test : Context -> outcome Dataset.

Lemma calculated_importance_is_returned (self : Context) :
  _calculated_importance self = true ->
  feature_importance X get_all_labels calculate_feature_importance_or_none
    model_bool train test self
  = (self, [], Returns (_feature_importance self)).
Proof. intros H; unfold feature_importance; rewrite H; reflexivity. Qed.

(** X26.  Lines 311-328: the feature importance is settled by the first
    access that returns.  The context it leaves holds the answer and is
    marked as calculated, so that every later access returns the same
    answer, logs nothing and changes nothing, whatever a new calculation
    would give. *)
Theorem feature_importance_is_calculated_once
  (self self' : Context) (w : list string) (r : option (list Q)) :
  feature_importance X get_all_labels calculate_feature_importance_or_none
    model_bool train test self = (self', w, Returns r) ->
  _calculated_importance self' = true
  /\ _feature_importance self' = r
  /\ forall get_all_labels' calculate' model_bool' train' test',
       feature_importance X get_all_labels' calculate' model_bool' train' test'
         self'
       = (self', [], Returns r).
Proof.
  intros H.
  assert (Hgoal : _calculated_importance self' = true
                  /\ _feature_importance self' = r).
  { unfold feature_importance in H.
    destruct (_calculated_importance self) eqn:Hc; simpl in H.
    { inversion H; subst; auto. }
    destruct (_model self) as [m|].
    2:{ inversion H; subst; auto. }
    destruct (model_bool m && _); [|inversion H; subst; auto].
    destruct (if have_test self then test self else train self) as [dataset|e];
      [|discriminate].
    destruct (model_classes get_all_labels self) as [[s ws] [classes|e]];
      [|discriminate].
    destruct (calculate_feature_importance_or_none _ _ _ _ _ _ _)
      as [[importance importance_type]|e]; [|discriminate].
    inversion H; subst; auto. }
  destruct Hgoal as [Hc Hr]; split; [exact Hc|]; split; [exact Hr|].
  intros g c mb tr te; unfold feature_importance.
  rewrite Hc, Hr; reflexivity.
Qed.

(** X27.  Lines 215 and 311-328: without a model object nothing is ever
    calculated.  On a context built without one (static predictions
    included) the accessor returns the importance that the constructor
    stored, the validated one that was passed or none, and leaves the
    context unchanged. *)
Theorem importance_is_not_calculated_without_model_object
  (a : Args) (w : list string) (ctx : Context) :
  TabularContext.model a = None ->
  Context_init X a = (w, Ok ctx) ->
  feature_importance X get_all_labels calculate_feature_importance_or_none
    model_bool train test ctx
  = (ctx, [], Returns (_feature_importance ctx))
  /\ (TabularContext.feature_importance a = None ->
      _feature_importance ctx = None).
Proof.
  intros Hm Hinit.
  destruct (Context_init_attributes X a w ctx Hinit) as [_ [Hc _]].
  rewrite Hm, orb_true_r in Hc.
  split; [apply calculated_importance_is_returned; exact Hc|].
  intros Hfi; revert Hinit; unfold Context_init, validate_inputs.
  rewrite Hfi, Hm.
  destruct (raise_unless _ _); simpl; [|discriminate].
  destruct (match named_train X a with
            | Some _ => _ | None => _ end); simpl; [|discriminate].
  destruct (raise_unless _ _); simpl; [|discriminate].
  destruct (check_model_classes X (TabularContext.model_classes a)) as [[]|e];
    [|discriminate].
  destruct (resolve_task X a (named_train X a) (named_test X a))
    as [[mc task] labels].
  destruct (_ || _).
  - intros H; inversion H as [[Hw Hr]]; clear H.
    destruct (out_model _) as [d|e]; [|discriminate].
    inversion Hr; subst ctx; reflexivity.
  - intros H; inversion H; subst ctx; reflexivity.
Qed.

(** X28.  Lines 348-356: the two task assertions never both fail.  The
    classification assertion can fail on a regression context only and
    the regression assertion on a classification context only; when the
    train dataset is at hand and has a label exactly one of them
    passes, and when it has no label both pass. *)
Theorem task_assertions_are_complementary (self : Context) :
  (assert_classification_task train self = Returns tt
   \/ assert_regression_task train self = Returns tt)
  /\ (forall tr, train self = Returns tr -> has_label tr = true ->
        (assert_classification_task train self = Returns tt
         <-> assert_regression_task train self <> Returns tt))
  /\ (forall tr, train self = Returns tr -> has_label tr = false ->
        assert_classification_task train self = Returns tt
        /\ assert_regression_task train self = Returns tt).
Proof.
  unfold assert_classification_task, assert_regression_task, task_type.
  split; [|split].
  - destruct (_task_type self); auto.
  - intros tr Htr Hl; rewrite Htr, Hl.
    destruct (_task_type self); split; intros H; congruence.
  - intros tr Htr Hl; rewrite Htr, Hl.
    destruct (_task_type self); auto.
Qed.

End ImportanceProofs.

End AccessorFacts.

Module AccessorExamples.
Import StaticPredictions TabularContext TabularSamples ContextAccessors
       AccessorSamples AccessorFacts.

(** After a first access the model is handed out even under a validator
    that rejects everything. *)
Lemma model_is_validated_once_witness :
  model lenient (fun _ _ => Raise (ModelValidationError "rejected"))
    (set_validated_model (context_of None BINARY))
  = (set_validated_model (context_of None BINARY),
     Returns (Estimator InferenceSamples.undeclared)).
Proof.
  apply (model_is_validated_once lenient (fun _ _ => Ok tt)
           (context_of None BINARY)).
  reflexivity.
Defined.

Lemma model_is_missing_iff_nothing_was_given_witness :
  match Context_init lenient (args (Some (dataset [0; 1; 1]%Z)) None) with
  | (_, Ok ctx) =>
      model lenient (fun _ _ => Ok tt) ctx
      = (ctx, Raises (DeepchecksNotSupportedError no_model_message))
  | (_, Raise _) => False
  end.
Proof.
  destruct (Context_init lenient (args (Some (dataset [0; 1; 1]%Z)) None))
    as [w [ctx|e]] eqn:E.
  - apply (model_is_missing_iff_nothing_was_given lenient (fun _ _ => Ok tt)
             _ w ctx E).
    repeat split.
  - vm_compute in E; discriminate.
Defined.

(** Labels 0, 1, 1 and a model predicting 2: the first access gathers
    the classes 0, 1, 2; the second returns them although the labels can
    no longer be read. *)
Lemma observed_classes_are_gathered_once_witness :
  observed_classes (fun _ _ _ => Raise ValueError)
    (set_observed_classes (context_of None MULTICLASS) (Some [0; 1; 2]%Z))
  = (set_observed_classes (context_of None MULTICLASS) (Some [0; 1; 2]%Z),
     Returns (Some [0; 1; 2]%Z)).
Proof.
  apply (observed_classes_are_gathered_once labels_and_predictions
           (context_of None MULTICLASS)).
  reflexivity.
Defined.

Lemma classification_context_has_classes_witness :
  Some [0; 1; 2]%Z <> None
  /\ (forall l, _model_classes (context_of None MULTICLASS) = Some l ->
        Some [0; 1; 2]%Z = Some l
        /\ [observed_fallback_warning] = []
        /\ set_observed_classes (context_of None MULTICLASS)
             (Some [0; 1; 2]%Z)
           = context_of None MULTICLASS)
  /\ (_model_classes (context_of None MULTICLASS) = None ->
      [observed_fallback_warning] = [observed_fallback_warning]
      /\ observed_classes labels_and_predictions (context_of None MULTICLASS)
         = (set_observed_classes (context_of None MULTICLASS)
              (Some [0; 1; 2]%Z),
            Returns (Some [0; 1; 2]%Z))).
Proof.
  apply (classification_context_has_classes labels_and_predictions
           (context_of None MULTICLASS)); reflexivity.
Defined.

Lemma feature_importance_is_calculated_once_witness :
  exists self' r,
    feature_importance lenient labels_and_predictions uniform_importance
      (fun _ => true) (fun s => held (_train s) "no train")
      (fun s => held (_test s) "no test") (context_of (Some [0; 1]%Z) BINARY)
    = (self', [], Returns r)
    /\ r = Some [0.5; 0.5]%Q
    /\ feature_importance lenient (fun _ _ _ => Raise ValueError)
         (fun _ _ _ _ _ _ _ => Raise ValueError) (fun _ => true)
         (fun s => held (_train s) "no train")
         (fun s => held (_test s) "no test") self'
       = (self', [], Returns r).
Proof.
  do 2 eexists; split; [vm_compute; reflexivity|]; split; [reflexivity|].
  apply (feature_importance_is_calculated_once lenient labels_and_predictions
           uniform_importance (fun _ => true)
           (fun s => held (_train s) "no train")
           (fun s => held (_test s) "no test")
           (context_of (Some [0; 1]%Z) BINARY) _ [] _).
  vm_compute; reflexivity.
Defined.

Lemma importance_is_not_calculated_without_model_object_witness :
  match Context_init lenient ConstructionSamples.test_predictions with
  | (_, Ok ctx) =>
      feature_importance lenient labels_and_predictions uniform_importance
        (fun _ => true) (fun s => held (_train s) "no train")
        (fun s => held (_test s) "no test") ctx
      = (ctx, [], Returns None)
  | (_, Raise _) => False
  end.
Proof.
  destruct (Context_init lenient ConstructionSamples.test_predictions)
    as [w [ctx|e]] eqn:E.
  - destruct (importance_is_not_calculated_without_model_object lenient
                labels_and_predictions uniform_importance (fun _ => true)
                (fun s => held (_train s) "no train")
                (fun s => held (_test s) "no test")
                ConstructionSamples.test_predictions w ctx eq_refl E)
      as [H1 H2].
    rewrite H1, (H2 eq_refl); reflexivity.
  - vm_compute in E; discriminate.
Defined.

End AccessorExamples.

(* ----------------------------------------------------------------- *)
(** ** Stored probabilities, and the order of the fitted frames *)

Module ValidationFacts.
Import StaticPredictions AdapterFacts AdapterRoundTrip.

Section ProbabilityProofs.
Variable validate_proba : proba -> option (list Z) -> result unit.
Variable ensure_predictions_shape : ndarray -> DataFrame -> result unit.
Variable ensure_predictions_proba : proba -> ndarray -> result unit.

(** What a successful construction from the probabilities of one dataset
    holds. *)
Lemma build_stores_probabilities (tr : Dataset) (p : proba) (validate : bool)
  (mc : option (list Z)) (d : _DummyModel) :
  build validate_proba ensure_predictions_shape ensure_predictions_proba
    (Some tr) None None None (Some p) None validate mc = Ok d ->
  length p = length (data tr)
  /\ probas d = Some (combine (index_of (data tr)) p)
  /\ feature_df_list d = [features_columns tr].
Proof.
  unfold build, store_role; simpl.
  destruct (validate_proba p mc); simpl; [|discriminate].
  destruct (argmax_rows p) as [positions|e]; simpl; [|discriminate].
  destruct (classes_at mc positions) as [y|e]; simpl; [|discriminate].
  destruct (ensure_predictions_shape (squeeze_column y) (data tr)); simpl;
    [|discriminate].
  destruct (Series (squeeze_column y) (index_of (data tr))) as [ser|e]; simpl;
    [|discriminate].
  destruct (ensure_predictions_proba p (squeeze_column y)); simpl;
    [|discriminate].
  unfold proba_frame.
  destruct (length p =? length (index_of (data tr))) eqn:Eb; simpl;
    [|discriminate].
  apply Nat.eqb_eq in Eb; unfold index_of in Eb; rewrite length_map in Eb.
  intros H; inversion H; subst d; simpl.
  rewrite app_nil_r; auto.
Qed.

(** X29.  Lines 107-112 and 144-148: the adapter answers
    [predict_proba] on the features of the dataset it was built on with
    the probabilities it was given, unchanged and in order, with
    validation on or off and for every valid draw, when the row labels
    of the dataset are unique and all integers or all strings. *)
Theorem stored_probabilities_are_returned (tr : Dataset) (p : proba)
  (validate : bool) (mc : option (list Z)) (d : _DummyModel) (rnd : Draws) :
  build validate_proba ensure_predictions_shape ensure_predictions_proba
    (Some tr) None None None (Some p) None validate mc = Ok d ->
  NoDup (index_of (data tr)) ->
  one_kind (index_of (data tr)) = true ->
  data tr <> [] ->
  sample_ok (length (data tr)) rnd ->
  _predict_proba d rnd (features_columns tr) = Ok p.
Proof.
  intros Hbuild Hnd Hkind Hne Hok.
  destruct (build_stores_probabilities tr p validate mc d Hbuild)
    as [Hlen [Hp Hf]].
  destruct (combine_index (index_of (data tr)) p) as [Hi Hs];
    [unfold index_of; rewrite length_map; exact Hlen|].
  assert (Hnd' : NoDup (index_of (features_columns tr)))
    by (rewrite index_of_features_columns; exact Hnd).
  assert (Hne' : features_columns tr <> []).
  { intros E; apply Hne, length_zero_iff_nil.
    rewrite <- length_features_columns, E; reflexivity. }
  assert (Hok' : sample_ok (length (features_columns tr)) rnd)
    by (rewrite length_features_columns; exact Hok).
  assert (Hloc : loc (combine (index_of (data tr)) p)
                   (index_of (features_columns tr))
                 = Ok (combine (index_of (data tr)) p)).
  { rewrite index_of_features_columns.
    pose proof (loc_all_rows (combine (index_of (data tr)) p)
                  (combine (index_of (data tr)) p)) as H.
    rewrite Hi in H; apply H; [exact Hnd | apply incl_refl]. }
  unfold _predict_proba, _validate_data.
  rewrite (validate_known_rows (feature_df_list d) (features_columns tr)
             (features_columns tr) rnd).
  - destruct (validate_data_on_predict d); simpl;
      rewrite Hp, Hloc; simpl; rewrite Hs; reflexivity.
  - rewrite Hf; left; reflexivity.
  - exact Hnd'.
  - exact Hnd'.
  - apply incl_refl.
  - rewrite Hf; intros df' [<- | []]; left; reflexivity.
  - exact (proj1 Hok').
  - apply valid_sample_nonempty; assumption.
  - rewrite index_of_features_columns; exact Hkind.
Qed.

End ProbabilityProofs.

(** X30.  Lines 127-134: the validation is decided by the first fitted
    frame whose index contains every sampled label.  The frames before
    it are passed over, and the frames after it are never consulted,
    whether the comparison with that frame succeeds or fails. *)
Theorem first_containing_frame_decides (before after : list DataFrame)
  (feature_df data : DataFrame) (choice : list nat) :
  Forall (fun df => issubset (index_of data) (index_of df) = false) before ->
  issubset (index_of data) (index_of feature_df) = true ->
  validate_loop (before ++ feature_df :: after) data choice
  = validate_loop [feature_df] data choice.
Proof.
  intros Hbefore Hin; induction Hbefore as [|df before Hdf _ IH]; simpl.
  - rewrite Hin; reflexivity.
  - rewrite Hdf; exact IH.
Qed.

(** A query on the label 5 with a frame that lacks the label, the frame
    the row comes from, and a frame that has another row under the same
    label. *)
Lemma first_containing_frame_decides_witness :
  validate_loop
    ([[(LInt 0, [1]%Z)]] ++ [(LInt 5, [2]%Z)] :: [[(LInt 5, [3]%Z)]])
    [(LInt 5, [2]%Z)] [0]
  = validate_loop [[(LInt 5, [2]%Z)]] [(LInt 5, [2]%Z)] [0].
Proof.
  apply (first_containing_frame_decides [[(LInt 0, [1]%Z)]]
           [[(LInt 5, [3]%Z)]] [(LInt 5, [2]%Z)] [(LInt 5, [2]%Z)] [0]).
  - repeat constructor.
  - reflexivity.
Defined.

Lemma stored_probabilities_are_returned_witness :
  exists d,
    build (fun _ _ => Ok tt) (fun _ _ => Ok tt) (fun _ _ => Ok tt)
      (Some (TabularSamples.dataset [4; 7; 9]%Z)) None None None
      (Some [[0.2; 0.5; 0.3]; [0.4; 0.4; 0.2]; [0.1; 0.2; 0.7]]%Q) None true
      (Some [4; 7; 9]%Z) = Ok d
    /\ _predict_proba d (TabularSamples.all_rows 3)
         (features_columns (TabularSamples.dataset [4; 7; 9]%Z))
       = Ok [[0.2; 0.5; 0.3]; [0.4; 0.4; 0.2]; [0.1; 0.2; 0.7]]%Q.
Proof.
  destruct (build (fun _ _ => Ok tt) (fun _ _ => Ok tt) (fun _ _ => Ok tt)
              (Some (TabularSamples.dataset [4; 7; 9]%Z)) None None None
              (Some [[0.2; 0.5; 0.3]; [0.4; 0.4; 0.2]; [0.1; 0.2; 0.7]]%Q) None
              true (Some [4; 7; 9]%Z)) as [d|e] eqn:E.
  - exists d; split; [reflexivity|].
    apply (stored_probabilities_are_returned _ _ _ _ _ _ _ d _ E).
    + repeat constructor; simpl; intuition discriminate.
    + reflexivity.
    + discriminate.
    + repeat split; [repeat constructor; simpl; intuition discriminate
                    | repeat constructor].
  - vm_compute in E; discriminate.
Defined.

(** Labels of two kinds do not compare: with validation on, a query
    whose drawn labels hold an integer and a string ends in the
    [TypeError] of [np.unique]; with validation off the lookup alone
    answers. *)
Example mixed_labels_do_not_compare :
  _predict
    {| predictions := Some [(LInt 1, 0%Z); (LStr "a", 1%Z)];
       probas := None;
       feature_df_list := [[(LInt 1, [1]%Z); (LStr "a", [2]%Z)]];
       validate_data_on_predict := true |}
    {| sample_positions := [0; 1]; choice_positions := [0; 1] |}
    [(LInt 1, [1]%Z); (LStr "a", [2]%Z)]
  = Raise TypeError
  /\ _predict
       {| predictions := Some [(LInt 1, 0%Z); (LStr "a", 1%Z)];
          probas := None;
          feature_df_list := [[(LInt 1, [1]%Z); (LStr "a", [2]%Z)]];
          validate_data_on_predict := false |}
       {| sample_positions := [0; 1]; choice_positions := [0; 1] |}
       [(LInt 1, [1]%Z); (LStr "a", [2]%Z)]
     = Ok [0; 1]%Z.
Proof. split; reflexivity. Qed.

(** An adapter given predictions for the test rows only: the rows of the
    train dataset pass validation and have no prediction to return. *)
Example rows_without_predictions_raise_KeyError :
  exists d tr',
    out_model
      (_DummyModel_init (fun _ _ => Ok tt) (fun _ _ => Ok tt) (fun _ _ => Ok tt)
         (Some (TabularSamples.dataset [1; 0; 1]%Z)) None
         (Some (Arr1 [1; 0; 1]%Z))
         (Some (TabularSamples.dataset [0; 1; 1]%Z)) None None true None)
    = Ok d
    /\ out_train
         (_DummyModel_init (fun _ _ => Ok tt) (fun _ _ => Ok tt)
            (fun _ _ => Ok tt)
            (Some (TabularSamples.dataset [1; 0; 1]%Z)) None
            (Some (Arr1 [1; 0; 1]%Z))
            (Some (TabularSamples.dataset [0; 1; 1]%Z)) None None true None)
       = Some tr'
    /\ _predict d (TabularSamples.all_rows 3) (features_columns tr')
       = Raise KeyError.
Proof. do 2 eexists; repeat split; vm_compute; reflexivity. Qed.

End ValidationFacts.
